(** * Grocery operations simulator: a shallow embedding and its properties

    The development follows the three source files of the repository:
    [supplier.py] (module [Supplier] below), [grocery.py] (module [Grocery])
    and [main.py] (module [Simulation]).

    Conventions of the embedding.
    - Python [int] is [Z]; Python [float] is idealised as an exact rational
      [Q], compared with [==].
    - A Python [dict] is an insertion-ordered association list ([Dict.t]);
      iteration order is the list order, assignment to an existing key keeps
      its position, assignment to a new key appends.
    - The pseudo-random generators ([random.Random(seed)], the module-level
      [random] generator and the module-level [numpy.random] generator) are
      tapes of unit draws in [0,1) with a read position; every draw of the
      program is derived from one unit draw.
    - Exceptions are values of [exn] carried by the [result] monad. *)

From Stdlib Require Import ZArith QArith Qround Qabs List String Bool Lia Lqa.
Import ListNotations.

Open Scope string_scope.
Open Scope Z_scope.

(** ** Exceptions *)

Inductive exn : Type :=
| ValueError_not_enough (available : nat)
| ValueError_probabilities
| ValueError_negative_delay
| IndexError.

Inductive result (A : Type) : Type :=
| Ok (a : A)
| Raise (e : exn).
Arguments Ok {A} a.
Arguments Raise {A} e.

Definition bind {A B : Type} (m : result A) (k : A -> result B) : result B :=
  match m with
  | Ok a => k a
  | Raise e => Raise e
  end.

Notation "'do' x <- m ; k" := (bind m (fun x => k))
  (at level 10, x pattern, m at level 100, k at level 200).

(** ** Insertion-ordered dictionaries *)

Module Dict.
Section Defs.
Context {V : Type}.

Definition t : Type := list (string * V).

Definition empty : t := [].

Fixpoint get (d : t) (k : string) : option V :=
  match d with
  | [] => None
  | (k', v) :: d' => if String.eqb k' k then Some v else get d' k
  end.

(** [k in d] *)
Definition mem (d : t) (k : string) : bool :=
  match get d k with Some _ => true | None => false end.

(** [d.get(k, dflt)] *)
Definition get_or (d : t) (k : string) (dflt : V) : V :=
  match get d k with Some v => v | None => dflt end.

(** [d[k] = v] *)
Fixpoint set (d : t) (k : string) (v : V) : t :=
  match d with
  | [] => [(k, v)]
  | (k', v') :: d' =>
      if String.eqb k' k then (k', v) :: d' else (k', v') :: set d' k v
  end.

Definition keys (d : t) : list string := map fst d.

(** The keys of a dictionary are pairwise distinct. *)
Definition wf (d : t) : Prop := NoDup (keys d).
End Defs.
Arguments t V : clear implicits.
End Dict.

(** ** Pseudo-random generators *)

Record rng : Type := mkRng { rng_tape : nat -> Q; rng_pos : nat }.

(** [random()] *)
Definition random_unit (r : rng) : Q * rng :=
  (rng_tape r (rng_pos r), mkRng (rng_tape r) (S (rng_pos r))).

(** [uniform(a, b)] is [a + (b - a) * random()]. *)
Definition uniform (a b : Q) (r : rng) : Q * rng :=
  let (u, r') := random_unit r in ((a + (b - a) * u)%Q, r').

(** An integer below [n], scaled from one unit draw (CPython draws it from
    random bits by rejection; the properties below only use its range). *)
Definition randbelow (n : Z) (r : rng) : Z * rng :=
  let (u, r') := random_unit r in (Qfloor (u * inject_Z n), r').

(** [randint(a, b)], both ends included. *)
Definition randint (a b : Z) (r : rng) : Z * rng :=
  let (i, r') := randbelow (b - a + 1) r in (a + i, r').

(** [choice(seq)] on a sequence with first element [hd]. *)
Definition choice {A : Type} (hd : A) (tl : list A) (r : rng) : A * rng :=
  let (i, r') := randbelow (Z.of_nat (S (List.length tl))) r in
  (nth (Z.to_nat i) (hd :: tl) hd, r').

(** The next draw of [r] is a unit draw. *)
Definition unit_draw (r : rng) : Prop :=
  (0 <= rng_tape r (rng_pos r) /\ rng_tape r (rng_pos r) < 1)%Q.

(** Every value on the tape of [r] is a unit draw. *)
Definition unit_tape (r : rng) : Prop :=
  forall n, (0 <= rng_tape r n /\ rng_tape r n < 1)%Q.

(** Every value of the tape is a unit draw. *)
Definition unit_draws (tape : nat -> Q) : Prop :=
  forall k, (0 <= tape k /\ tape k < 1)%Q.

(** ** supplier.py *)

Module Supplier.

Record t : Type := mk {
  id : Z;
  products : list string;      (* inventory, oldest unit first *)
  prices : Dict.t Q            (* unit cost per product *)
}.

(** [Supplier(env, supplier_id)] *)
Definition init (supplier_id : Z) : t := mk supplier_id [] Dict.empty.

Definition set_products (s : t) (ps : list string) : t := mk (id s) ps (prices s).
Definition set_prices (s : t) (pr : Dict.t Q) : t := mk (id s) (products s) pr.

Definition product_types_hd : string := "proteins".
Definition product_types_tl : list string :=
  ["carbohydrates"; "fruits"; "vegetables"; "sweets"].
Definition product_types : list string := product_types_hd :: product_types_tl.

Definition _maybe_update_cost (s : t) (product : string) (new_cost : Q) : t * Q :=
  let s' :=
    if negb (Dict.mem (prices s) product)
    then set_prices s (Dict.set (prices s) product new_cost)
    else set_prices s (Dict.set (prices s) product new_cost) in
  (s', Dict.get_or (prices s') product new_cost).

(** The body of the loop [for _ in range(quantity)] of [add_products]. *)
Definition add_one_product (s : t) (r : rng) : t * rng :=
  let (p, r1) := choice product_types_hd product_types_tl r in
  let s1 := set_products s (products s ++ [p]) in
  let (c, r2) := uniform 1 5 r1 in
  let (s2, c') := _maybe_update_cost s1 p c in
  (set_prices s2 (Dict.set (prices s2) p c'), r2).

Fixpoint add_products_loop (n : nat) (s : t) (r : rng) : t * rng :=
  match n with
  | O => (s, r)
  | S n' => let (s', r') := add_one_product s r in add_products_loop n' s' r'
  end.

(** [add_products(quantity)]; the draws come from the module-level generator. *)
Definition add_products (quantity : option Z) (s : t) (r : rng) : t * rng :=
  let (q, r1) :=
    match quantity with
    | None => randint 1 10 r
    | Some q => (q, r)
    end in
  add_products_loop (Z.to_nat q) s r1.

(** [self.products.pop()] *)
Definition pop (ps : list string) : result (string * list string) :=
  match rev ps with
  | [] => Raise IndexError
  | x :: rest => Ok (x, rev rest)
  end.

(** [[self.products.pop() for _ in range(n)]] *)
Fixpoint pop_many (n : nat) (ps : list string) : result (list string * list string) :=
  match n with
  | O => Ok ([], ps)
  | S n' =>
      do (x, ps1) <- pop ps;
      do (xs, ps2) <- pop_many n' ps1;
      Ok (x :: xs, ps2)
  end.

(** What [supply_products] hands back: the units, the supplier afterwards, and
    the [ValueError] it caught and printed, if any. *)
Record supplied : Type := mkSupplied {
  units : list string;
  after : t;
  caught : option exn
}.

Definition supply_products (quantity : Z) (s : t) : result supplied :=
  if Z.of_nat (List.length (products s)) <? quantity
  then Ok (mkSupplied [] s (Some (ValueError_not_enough (List.length (products s)))))
  else
    do (xs, ps) <- pop_many (Z.to_nat quantity) (products s);
    Ok (mkSupplied xs (set_products s ps) None).

(** [get_price(product)] *)
Definition get_price (s : t) (product : string) : Q :=
  Dict.get_or (prices s) product 0%Q.

(** Every recorded unit cost lies in the range of [uniform(1.0, 5.0)], both
    ends included: rounding can make the sum reach the upper end. *)
Definition costs_in_range (s : t) : Prop :=
  forall p c, Dict.get (prices s) p = Some c -> (1 <= c /\ c <= 5)%Q.

(** Product [p] has a recorded unit cost, and it lies in that range. *)
Definition costed (s : t) (p : string) : Prop :=
  exists c, Dict.get (prices s) p = Some c /\ (1 <= c /\ c <= 5)%Q.

(** No recorded unit cost is negative. *)
Definition costs_nonneg (s : t) : Prop :=
  forall p c, Dict.get (prices s) p = Some c -> (0 <= c)%Q.

End Supplier.

(** ** Floating-point helpers *)

(** [max(a, b)] of Python: [a] unless [b] is greater. *)
Definition fmax (a b : Q) : Q := if Qlt_le_dec a b then b else a.

(** Round half to even on an integer grid. *)
Definition round_half_even (x : Q) : Z :=
  let f := Qfloor x in
  match (x - inject_Z f ?= 1 # 2)%Q with
  | Lt => f
  | Gt => f + 1
  | Eq => if Z.even f then f else f + 1
  end.

(** [round(x, 2)] *)
Definition round2 (x : Q) : Q := (inject_Z (round_half_even (x * 100)) / 100)%Q.

Definition Qsum (l : list Q) : Q := fold_left Qplus l 0%Q.

(** ** The checkout resource ([simpy.Resource]) *)

Module Resource.

Record t : Type := mk {
  capacity : nat;
  users : list nat;              (* requests holding a slot *)
  put_queue : list (nat * nat)   (* waiting requests, each with the process that waits *)
}.

Definition init (capacity : nat) : t := mk capacity [] [].

End Resource.

(** ** grocery.py *)

Module Grocery.

Record t : Type := mk {
  stock : Dict.t Z;
  prices : Dict.t Q;
  costs : Dict.t Q;
  sales_count : Dict.t Z;
  cashiers : Resource.t;
  sim_input : option (Z * Z);     (* inputs last given to the fuzzy simulation *)
  demand_weights : Dict.t Q
}.

Definition default_demand_weights : Dict.t Q :=
  [("proteins", 30 # 100); ("carbohydrates", 25 # 100); ("fruits", 20 # 100);
   ("vegetables", 15 # 100); ("sweets", 10 # 100)]%Q.

(** [Grocery(env, num_cashiers)] *)
Definition init (num_cashiers : nat) : t :=
  mk Dict.empty Dict.empty Dict.empty Dict.empty (Resource.init num_cashiers) None
     default_demand_weights.

Definition set_stock (g : t) (x : Dict.t Z) : t :=
  mk x (prices g) (costs g) (sales_count g) (cashiers g) (sim_input g) (demand_weights g).
Definition set_prices (g : t) (x : Dict.t Q) : t :=
  mk (stock g) x (costs g) (sales_count g) (cashiers g) (sim_input g) (demand_weights g).
Definition set_costs (g : t) (x : Dict.t Q) : t :=
  mk (stock g) (prices g) x (sales_count g) (cashiers g) (sim_input g) (demand_weights g).
Definition set_sales_count (g : t) (x : Dict.t Z) : t :=
  mk (stock g) (prices g) (costs g) x (cashiers g) (sim_input g) (demand_weights g).
Definition set_cashiers (g : t) (x : Resource.t) : t :=
  mk (stock g) (prices g) (costs g) (sales_count g) x (sim_input g) (demand_weights g).
Definition set_sim_input (g : t) (x : option (Z * Z)) : t :=
  mk (stock g) (prices g) (costs g) (sales_count g) (cashiers g) x (demand_weights g).
Definition set_demand_weights (g : t) (x : Dict.t Q) : t :=
  mk (stock g) (prices g) (costs g) (sales_count g) (cashiers g) (sim_input g) x.

Definition set_sale_price (g : t) (product : string) (price : Q) : t :=
  set_prices g (Dict.set (prices g) product (fmax (1 # 100) price)).

Definition calculate_delivery_cost (distance_km : Q) : Q :=
  if Qlt_le_dec distance_km 10 then 5
  else if Qlt_le_dec distance_km 20 then 10
  else if Qlt_le_dec distance_km 30 then 15
  else 20.

(** The body of the loop [for product in products] of [add_stock]. *)
Definition add_one_unit (supplier : Supplier.t) (acc : t * rng) (product : string)
  : t * rng :=
  let (g, r) := acc in
  let g1 := set_stock g (Dict.set (stock g) product (Dict.get_or (stock g) product 0 + 1)) in
  let g2 :=
    if negb (Dict.mem (costs g1) product)
    then set_costs g1 (Dict.set (costs g1) product (Supplier.get_price supplier product))
    else g1 in
  if negb (Dict.mem (prices g2) product)
  then
    let (m, r1) := uniform (12 # 10) (15 # 10) r in
    (set_prices g2 (Dict.set (prices g2) product (Dict.get_or (costs g2) product 0 * m)%Q), r1)
  else (g2, r).

(** What [add_stock] leaves behind: the store, the supplier, the module-level
    generator, and the error the supplier printed, if any. *)
Record restocked : Type := mkRestocked {
  store : t;
  supplier_after : Supplier.t;
  random_after : rng;
  printed : option exn
}.

Definition add_stock (supplier : Supplier.t) (quantity : Z) (g : t) (r : rng)
  : result restocked :=
  do out <- Supplier.supply_products quantity supplier;
  let (g', r') :=
    fold_left (add_one_unit (Supplier.after out)) (Supplier.units out) (g, r) in
  Ok (mkRestocked g' (Supplier.after out) r' (Supplier.caught out)).

Section Discount.

(** The defuzzified output of the fuzzy control system for the two crisp
    inputs it is given (the rule base is evaluated by [skfuzzy]). *)
Variable fuzzy_discount : Z -> Z -> Q.

Definition _compute_discount (g : t) (stock_units sales_units : Z) : Q * t :=
  let s := Z.max 0 (Z.min 100 stock_units) in
  let v := Z.max 0 (Z.min 100 sales_units) in
  (fuzzy_discount s v, set_sim_input g (Some (s, v))).

(** The floor [costs.get(product, 0.0) * 1.05]. *)
Definition price_floor (g : t) (product : string) : Q :=
  (Dict.get_or (costs g) product 0 * (105 # 100))%Q.

(** The body of the loop of [apply_discounts]. *)
Definition discount_one (g : t) (item : string * Z) : t :=
  let (product, stock_units) := item in
  if (stock_units <=? 0) || negb (Dict.mem (prices g) product) then g
  else
    let sales_units := Dict.get_or (sales_count g) product 0 in
    let (discount_pct, g1) := _compute_discount g stock_units sales_units in
    let new_price := (Dict.get_or (prices g1) product 0 * (1 - discount_pct / 100))%Q in
    set_prices g1 (Dict.set (prices g1) product (fmax new_price (price_floor g1 product))).

Definition apply_discounts (g : t) : t :=
  fold_left discount_one (stock g) g.

End Discount.

(** *** Weighted choice ([numpy.random.choice(a, p=p)]) *)

Fixpoint cumsum_from (acc : Q) (p : list Q) : list Q :=
  match p with
  | [] => []
  | x :: p' => (acc + x)%Q :: cumsum_from (acc + x)%Q p'
  end.

Definition cumsum (p : list Q) : list Q := cumsum_from 0 p.

(** [cdf.searchsorted(u, side='right')] on a sorted [cdf]: the first position
    whose entry is above [u]. *)
Fixpoint searchsorted_right (cdf : list Q) (u : Q) : nat :=
  match cdf with
  | [] => O
  | c :: cdf' => if Qlt_le_dec u c then O else S (searchsorted_right cdf' u)
  end.

Definition np_choice (a : list string) (p : list Q) (np : rng) : result (string * rng) :=
  if existsb (fun x => if Qlt_le_dec x 0 then true else false) p
  then Raise ValueError_probabilities       (* probabilities are not non-negative *)
  else if negb (Qeq_bool (Qsum p) 1)
  then Raise ValueError_probabilities       (* probabilities do not sum to 1 *)
  else
    let cdf := cumsum p in
    let cdf := map (fun c => (c / last cdf 0)%Q) cdf in
    let (u, np') := random_unit np in
    match nth_error a (searchsorted_right cdf u) with
    | Some x => Ok (x, np')
    | None => Raise IndexError
    end.

Definition available (g : t) : list string :=
  map fst (filter (fun item : string * Z => 0 <? snd item) (stock g)).

(** The probabilities [sell_one_product] hands to the choice. *)
Definition sale_weights (g : t) : list Q :=
  let weights := map (fun p => Dict.get_or (demand_weights g) p (1 # 100)) (available g) in
  let weights :=
    if Qeq_bool (Qsum weights) 0 then map (fun _ => 1%Q) (available g) else weights in
  map (fun w => (w / Qsum weights)%Q) weights.

(** [sell_one_product()]; the draw comes from the module-level numpy generator. *)
Definition sell_one_product (g : t) (np : rng) : result (option string * t * rng) :=
  match available g with
  | [] => Ok (None, g, np)
  | _ :: _ =>
      do (product, np') <- np_choice (available g) (sale_weights g) np;
      let g1 := set_stock g (Dict.set (stock g) product (Dict.get_or (stock g) product 0 - 1)) in
      let g2 := set_sales_count g1
                  (Dict.set (sales_count g1) product
                     (Dict.get_or (sales_count g1) product 0 + 1)) in
      Ok (Some product, g2, np')
  end.

Definition reset_sales_counters (g : t) : t := set_sales_count g Dict.empty.

(** *** Vocabulary of the properties *)

(** Everything but the prices and the inputs of the fuzzy simulation. *)
Definition same_frame (g g' : t) : Prop :=
  stock g' = stock g /\ costs g' = costs g /\ sales_count g' = sales_count g /\
  cashiers g' = cashiers g /\ demand_weights g' = demand_weights g.

(** The price of [p] is at or above its floor. *)
Definition floored (g : t) (p : string) : Prop :=
  exists pr, Dict.get (prices g) p = Some pr /\ (price_floor g p <= pr)%Q.

(** The price of [p] sits on its floor. *)
Definition at_floor (g : t) (p : string) : Prop :=
  exists pr, Dict.get (prices g) p = Some pr /\ (pr == price_floor g p)%Q.

(** [stock[p]] and [sales_count[p]] as the default dictionaries read them, and
    [demand_weights.get(p, 0.01)]. *)
Definition stock_of (g : t) (p : string) : Z := Dict.get_or (stock g) p 0.
Definition sales_of (g : t) (p : string) : Z := Dict.get_or (sales_count g) p 0.
Definition weight_of (g : t) (p : string) : Q := Dict.get_or (demand_weights g) p (1 # 100).

(** No weight of the demand table is negative. *)
Definition weights_nonneg (g : t) : Prop :=
  forall p w, Dict.get (demand_weights g) p = Some w -> (0 <= w)%Q.

(** The total demand weight of the products on offer. *)
Definition total_demand (g : t) : Q := Qsum (map (weight_of g) (available g)).

(** The states that the four operations of the store reach from a store
    with empty stock. *)
Inductive reachable (fuzzy_discount : Z -> Z -> Q) : t -> Prop :=
| reach_initial g :
    stock g = Dict.empty -> reachable fuzzy_discount g
| reach_add_stock g supplier quantity r out :
    reachable fuzzy_discount g ->
    add_stock supplier quantity g r = Ok out ->
    reachable fuzzy_discount (store out)
| reach_apply_discounts g :
    reachable fuzzy_discount g ->
    reachable fuzzy_discount (apply_discounts fuzzy_discount g)
| reach_sell_one_product g np ret g' np' :
    reachable fuzzy_discount g ->
    sell_one_product g np = Ok (ret, g', np') ->
    reachable fuzzy_discount g'
| reach_reset_sales_counters g :
    reachable fuzzy_discount g ->
    reachable fuzzy_discount (reset_sales_counters g).

(** The stock is a dictionary and holds no negative count. *)
Definition stock_ok (g : t) : Prop :=
  Dict.wf (stock g) /\ forall p q, In (p, q) (stock g) -> 0 <= q.

(** The number of units in stock, all products together. *)
Definition total_stock (g : t) : Z := fold_left Z.add (map snd (stock g)) 0.

(** The states of a store that opens with no stock, no cost and no price and
    is then driven by the four operations alone, buying from suppliers whose
    costs are not negative, with markups drawn from unit draws. *)
Inductive trading (fuzzy_discount : Z -> Z -> Q) : t -> Prop :=
| trade_open g :
    stock g = Dict.empty -> costs g = Dict.empty -> prices g = Dict.empty ->
    trading fuzzy_discount g
| trade_add_stock g supplier quantity r out :
    trading fuzzy_discount g ->
    (forall p, 0 <= Supplier.get_price supplier p)%Q ->
    unit_tape r ->
    add_stock supplier quantity g r = Ok out ->
    trading fuzzy_discount (store out)
| trade_apply_discounts g :
    trading fuzzy_discount g ->
    trading fuzzy_discount (apply_discounts fuzzy_discount g)
| trade_sell_one_product g np ret g' np' :
    trading fuzzy_discount g ->
    sell_one_product g np = Ok (ret, g', np') ->
    trading fuzzy_discount g'
| trade_reset_sales_counters g :
    trading fuzzy_discount g ->
    trading fuzzy_discount (reset_sales_counters g).

(** Every known cost is non-negative and its product is priced at or above
    1.05 times it; every priced product has a known cost. *)
Definition margins_ok (g : t) : Prop :=
  (forall p c, Dict.get (costs g) p = Some c ->
     (0 <= c)%Q /\ exists pr, Dict.get (prices g) p = Some pr /\ (c * (105 # 100) <= pr)%Q) /\
  (forall p, Dict.mem (prices g) p = true -> Dict.mem (costs g) p = true).

(** Every product with a stock entry has a cost and a price. *)
Definition catalogued (g : t) : Prop :=
  forall p, Dict.mem (stock g) p = true ->
    Dict.mem (costs g) p = true /\ Dict.mem (prices g) p = true.

End Grocery.

(** ** main.py

    The generators of [main.py] run on the event loop of [simpy], which is
    modelled after the library: events wait in a heap ordered by time, then
    priority, then creation number; a process is started by an urgent
    [Initialize] event at the time it is created and runs up to its next
    [yield]; a timeout, a granted request, a release and the end of a
    process are events of normal priority whose callbacks resume the
    processes that wait for them.  A generator is represented by the
    place where it is suspended together with its local variables. *)

Module Simulation.

Inductive day_label : Type := Day (d : Z) | Total.

(** One row of [daily_balances]. *)
Record entry : Type := mkEntry {
  day : day_label;
  revenue : Q;
  cogs : Q;
  delivery_cost : Q;
  profit : Q;
  products_sold : Z
}.

(** *** The event queue of the [simpy] environment *)

Inductive callback : Type :=
| Resume (pid : nat)      (* [Process._resume] of process [pid] *)
| TriggerPut              (* [cashiers._trigger_put] *)
| TriggerGet.             (* [cashiers._trigger_get] *)

Record event : Type := mkEvent {
  at_time : Q;
  priority : Z;
  eid : nat;
  callbacks : list callback
}.

Definition URGENT : Z := 0.
Definition NORMAL : Z := 1.

(** The heap order on [(time, priority, eid)]. *)
Definition earlier (e1 e2 : event) : bool :=
  match (at_time e1 ?= at_time e2)%Q with
  | Lt => true
  | Gt => false
  | Eq =>
      match priority e1 ?= priority e2 with
      | Lt => true
      | Gt => false
      | Eq => (eid e1 <? eid e2)%nat
      end
  end.

Fixpoint heappop (q : list event) : option (event * list event) :=
  match q with
  | [] => None
  | e :: q' =>
      match heappop q' with
      | None => Some (e, [])
      | Some (m, rest) => if earlier e m then Some (e, q') else Some (m, e :: rest)
      end
  end.

(** *** Processes *)

(** The local variables of [_simulate_customers_for_day]; [c_left] counts the
    iterations of [for _ in range(num_customers)] still to run. *)
Record customers_locals : Type := mkLocals {
  c_revenue : Q;
  c_cogs : Q;
  c_delivery : Q;
  c_sold : Z;
  c_left : nat
}.

(** Where a [run_day] generator is suspended. *)
Inductive day_pc : Type :=
| DayInit
| DayAwaitCustomers (child : nat)    (* [yield proc] *)
| DayAwaitClock                      (* [yield self.env.timeout(1)] *)
| DayEnd.

(** Where a [_simulate_customers_for_day] generator is suspended. *)
Inductive customers_pc : Type :=
| CustInit
| CustAwaitCashier (req : nat)       (* [yield req] *)
| CustAwaitService (req : nat)       (* [yield self.env.timeout(...)] *)
| CustEnd.

Inductive generator : Type :=
| RunDay (d : Z) (pc : day_pc)
| Customers (d : Z) (locals : customers_locals) (pc : customers_pc).

Record process : Type := mkProcess {
  gen : generator;
  waiters : list nat      (* the processes that yielded this one *)
}.

(** *** What happened, in order (ghost state, for the temporal properties) *)

Inductive step_label : Type :=
| Restocked (d : Z)
| Discounted (d : Z)
| CustomersStarted (d : Z)
| CustomerServed (d : Z)
| LedgerAppended (d : Z)
| ClockAdvanced (d : Z)
| SalesReset (d : Z).

(** *** The state of a run *)

Record t : Type := mk {
  now : Q;
  queue : list event;
  next_eid : nat;
  procs : list process;
  next_req : nat;
  suppliers : list Supplier.t;
  grocery : Grocery.t;
  days : Z;
  daily_balances : list entry;
  rng_seeded : rng;      (* [rng = random.Random(seed)] *)
  py_random : rng;       (* the module-level generator of [random] *)
  np_random : rng;       (* the module-level generator of [numpy.random] *)
  trace : list step_label
}.

(** [Simulation(env, suppliers, grocery, days)] on a fresh environment, in a
    process whose module-level generators are [py] and [np]. *)
Definition init (sups : list Supplier.t) (g : Grocery.t) (n : Z) (py np : rng) : t :=
  mk 0 [] 0 [] 0 sups g n [] (mkRng (fun _ => 0%Q) 0) py np [].

Definition set_now (x : Q) (s : t) : t :=
  mk x (queue s) (next_eid s) (procs s) (next_req s) (suppliers s) (grocery s) (days s)
     (daily_balances s) (rng_seeded s) (py_random s) (np_random s) (trace s).
Definition set_queue (x : list event) (s : t) : t :=
  mk (now s) x (next_eid s) (procs s) (next_req s) (suppliers s) (grocery s) (days s)
     (daily_balances s) (rng_seeded s) (py_random s) (np_random s) (trace s).
Definition set_next_eid (x : nat) (s : t) : t :=
  mk (now s) (queue s) x (procs s) (next_req s) (suppliers s) (grocery s) (days s)
     (daily_balances s) (rng_seeded s) (py_random s) (np_random s) (trace s).
Definition set_procs (x : list process) (s : t) : t :=
  mk (now s) (queue s) (next_eid s) x (next_req s) (suppliers s) (grocery s) (days s)
     (daily_balances s) (rng_seeded s) (py_random s) (np_random s) (trace s).
Definition set_next_req (x : nat) (s : t) : t :=
  mk (now s) (queue s) (next_eid s) (procs s) x (suppliers s) (grocery s) (days s)
     (daily_balances s) (rng_seeded s) (py_random s) (np_random s) (trace s).
Definition set_suppliers (x : list Supplier.t) (s : t) : t :=
  mk (now s) (queue s) (next_eid s) (procs s) (next_req s) x (grocery s) (days s)
     (daily_balances s) (rng_seeded s) (py_random s) (np_random s) (trace s).
Definition set_grocery (x : Grocery.t) (s : t) : t :=
  mk (now s) (queue s) (next_eid s) (procs s) (next_req s) (suppliers s) x (days s)
     (daily_balances s) (rng_seeded s) (py_random s) (np_random s) (trace s).
Definition set_daily_balances (x : list entry) (s : t) : t :=
  mk (now s) (queue s) (next_eid s) (procs s) (next_req s) (suppliers s) (grocery s) (days s)
     x (rng_seeded s) (py_random s) (np_random s) (trace s).
Definition set_rng_seeded (x : rng) (s : t) : t :=
  mk (now s) (queue s) (next_eid s) (procs s) (next_req s) (suppliers s) (grocery s) (days s)
     (daily_balances s) x (py_random s) (np_random s) (trace s).
Definition set_py_random (x : rng) (s : t) : t :=
  mk (now s) (queue s) (next_eid s) (procs s) (next_req s) (suppliers s) (grocery s) (days s)
     (daily_balances s) (rng_seeded s) x (np_random s) (trace s).
Definition set_np_random (x : rng) (s : t) : t :=
  mk (now s) (queue s) (next_eid s) (procs s) (next_req s) (suppliers s) (grocery s) (days s)
     (daily_balances s) (rng_seeded s) (py_random s) x (trace s).
Definition log (x : step_label) (s : t) : t :=
  mk (now s) (queue s) (next_eid s) (procs s) (next_req s) (suppliers s) (grocery s) (days s)
     (daily_balances s) (rng_seeded s) (py_random s) (np_random s) (trace s ++ [x]).

(** [env.schedule(event, priority, delay)] *)
Definition schedule (prio : Z) (delay : Q) (cbs : list callback) (s : t) : t :=
  set_next_eid (S (next_eid s))
    (set_queue (queue s ++ [mkEvent (now s + delay)%Q prio (next_eid s) cbs]) s).

(** Replace the generator of process [pid]. *)
Fixpoint update_gen (ps : list process) (pid : nat) (g : generator) : list process :=
  match ps, pid with
  | [], _ => []
  | p :: ps', O => mkProcess g (waiters p) :: ps'
  | p :: ps', S n => p :: update_gen ps' n g
  end.

Definition set_gen (pid : nat) (g : generator) (s : t) : t :=
  set_procs (update_gen (procs s) pid g) s.

(** [env.process(generator)]: the new process is started by an urgent
    [Initialize] event; [parents] are the processes that will yield it. *)
Definition spawn (g : generator) (parents : list nat) (s : t) : t :=
  let pid := List.length (procs s) in
  schedule URGENT 0 [Resume pid] (set_procs (procs s ++ [mkProcess g parents]) s).

(** The generator of process [pid] returned: its process event is triggered. *)
Definition finish (pid : nat) (s : t) : t :=
  match nth_error (procs s) pid with
  | Some p => schedule NORMAL 0 (map Resume (waiters p)) s
  | None => s
  end.

(** *** The cashiers *)

Definition set_cashiers (x : Resource.t) (s : t) : t :=
  set_grocery (Grocery.set_cashiers (grocery s) x) s.

(** [Resource._trigger_put]: the request at the head of the queue gets a slot
    if one is free. *)
Definition trigger_put (s : t) : t :=
  let res := Grocery.cashiers (grocery s) in
  match Resource.put_queue res with
  | [] => s
  | (rid, owner) :: rest =>
      if (List.length (Resource.users res) <? Resource.capacity res)%nat
      then
        schedule NORMAL 0 [TriggerGet; Resume owner]
          (set_cashiers
             (Resource.mk (Resource.capacity res) (Resource.users res ++ [rid]) rest) s)
      else s
  end.

(** [cashiers.request()] by process [pid]. *)
Definition request (pid : nat) (s : t) : nat * t :=
  let res := Grocery.cashiers (grocery s) in
  let rid := next_req s in
  let s1 :=
    set_cashiers
      (Resource.mk (Resource.capacity res) (Resource.users res)
         (Resource.put_queue res ++ [(rid, pid)]))
      (set_next_req (S rid) s) in
  (rid, trigger_put s1).

Fixpoint remove_first (rid : nat) (l : list nat) : list nat :=
  match l with
  | [] => []
  | x :: l' => if (x =? rid)%nat then l' else x :: remove_first rid l'
  end.

(** [cashiers.release(req)] on leaving the [with] block. *)
Definition release (rid : nat) (s : t) : t :=
  let res := Grocery.cashiers (grocery s) in
  schedule NORMAL 0 [TriggerPut]
    (set_cashiers
       (Resource.mk (Resource.capacity res) (remove_first rid (Resource.users res))
          (Resource.put_queue res)) s).

(** *** The generators *)

(** [_restock_all_suppliers(units_per_supplier)] *)
Fixpoint restock_loop (units_per_supplier : Z) (sups : list Supplier.t)
    (g : Grocery.t) (r : rng) : result (list Supplier.t * Grocery.t * rng) :=
  match sups with
  | [] => Ok ([], g, r)
  | supplier :: rest =>
      let (s1, r1) := Supplier.add_products (Some units_per_supplier) supplier r in
      do out <- Grocery.add_stock s1 (Z.max 0 (units_per_supplier / 2)) g r1;
      do (rest', g', r') <-
        restock_loop units_per_supplier rest (Grocery.store out) (Grocery.random_after out);
      Ok (Grocery.supplier_after out :: rest', g', r')
  end.

Definition _restock_all_suppliers (units_per_supplier : Z) (s : t) : result t :=
  do (sups, g, r) <-
    restock_loop units_per_supplier (suppliers s) (grocery s) (py_random s);
  Ok (set_suppliers sups (set_grocery g (set_py_random r s))).

(** [env.timeout(delay)], yielded by process [pid]. *)
Definition timeout (delay : Q) (pid : nat) (s : t) : result t :=
  if Qlt_le_dec delay 0 then Raise ValueError_negative_delay
  else Ok (schedule NORMAL delay [Resume pid] s).

(** The row that [run_day] appends. *)
Definition day_entry (d : Z) (revenue cogs delivery_cost : Q) (products_sold : Z) : entry :=
  let profit := (revenue - (cogs + delivery_cost))%Q in
  mkEntry (Day d) (round2 revenue) (round2 cogs) (round2 delivery_cost) (round2 profit)
    products_sold.

(** The head of the loop [for _ in range(num_customers)]: either the next
    customer asks for a cashier, or the generator returns its totals. *)
Definition customers_loop (pid : nat) (d : Z) (loc : customers_locals) (s : t) : t :=
  match c_left loc with
  | O => finish pid (set_gen pid (Customers d loc CustEnd) s)
  | S n =>
      let (rid, s1) := request pid s in
      set_gen pid
        (Customers d (mkLocals (c_revenue loc) (c_cogs loc) (c_delivery loc) (c_sold loc) n)
           (CustAwaitCashier rid)) s1
  end.

(** [if sold_product:] holds for a non-empty product name. *)
Definition truthy (sold_product : option string) : bool :=
  match sold_product with
  | Some p => negb (String.eqb p "")
  | None => false
  end.

Section Run.

Variable fuzzy_discount : Z -> Z -> Q.

(** The tape that [random.Random(seed)] plays. *)
Variable Random : Z -> nat -> Q.

(** One customer at the cashier, after the service time has elapsed. *)
Definition serve_customer (loc : customers_locals) (s : t) : result (customers_locals * t) :=
  do (sold_product, g, np) <- Grocery.sell_one_product (grocery s) (np_random s);
  let s1 := set_grocery g (set_np_random np s) in
  if truthy sold_product
  then
    let product := match sold_product with Some p => p | None => "" end in
    let price := Dict.get_or (Grocery.prices g) product 0%Q in
    let unit_cost := Dict.get_or (Grocery.costs g) product 0%Q in
    let (distance, r) := uniform 1 35 (rng_seeded s1) in
    Ok (mkLocals (c_revenue loc + price)%Q (c_cogs loc + unit_cost)%Q
          (c_delivery loc + Grocery.calculate_delivery_cost distance)%Q
          (c_sold loc + 1) (c_left loc),
        set_rng_seeded r s1)
  else Ok (loc, s1).

(** [Process._resume]: run the generator of [pid] up to its next [yield]. *)
Definition resume (pid : nat) (s : t) : result t :=
  match nth_error (procs s) pid with
  | None => Ok s
  | Some p =>
      match gen p with
      | RunDay d DayInit =>
          do s1 <- _restock_all_suppliers 10 s;
          let s2 := log (Restocked d) s1 in
          let s3 := set_grocery (Grocery.apply_discounts fuzzy_discount (grocery s2)) s2 in
          let s4 := log (Discounted d) s3 in
          let child := List.length (procs s4) in
          let s5 := spawn (Customers d (mkLocals 0 0 0 0 0) CustInit) [pid] s4 in
          Ok (set_gen pid (RunDay d (DayAwaitCustomers child)) s5)
      | RunDay d (DayAwaitCustomers child) =>
          match nth_error (procs s) child with
          | Some (mkProcess (Customers _ loc _) _) =>
              let s1 :=
                set_daily_balances
                  (daily_balances s ++
                     [day_entry d (c_revenue loc) (c_cogs loc) (c_delivery loc) (c_sold loc)])
                  s in
              do s2 <- timeout 1 pid (log (LedgerAppended d) s1);
              Ok (set_gen pid (RunDay d DayAwaitClock) s2)
          | _ => Ok s
          end
      | RunDay d DayAwaitClock =>
          let s1 := log (ClockAdvanced d) s in
          let s2 := set_grocery (Grocery.reset_sales_counters (grocery s1)) s1 in
          Ok (finish pid (set_gen pid (RunDay d DayEnd) (log (SalesReset d) s2)))
      | RunDay _ DayEnd => Ok s
      | Customers d loc CustInit =>
          let (num_customers, r) := randint 8 20 (rng_seeded s) in
          let loc' :=
            mkLocals (c_revenue loc) (c_cogs loc) (c_delivery loc) (c_sold loc)
              (Z.to_nat num_customers) in
          Ok (customers_loop pid d loc' (log (CustomersStarted d) (set_rng_seeded r s)))
      | Customers d loc (CustAwaitCashier rid) =>
          let (service, r) := uniform (5 # 10) 2 (rng_seeded s) in
          do s1 <- timeout service pid (set_rng_seeded r s);
          Ok (set_gen pid (Customers d loc (CustAwaitService rid)) s1)
      | Customers d loc (CustAwaitService rid) =>
          do (loc', s1) <- serve_customer loc s;
          Ok (customers_loop pid d loc' (release rid (log (CustomerServed d) s1)))
      | Customers _ _ CustEnd => Ok s
      end
  end.

Definition run_callback (cb : callback) (s : t) : result t :=
  match cb with
  | Resume pid => resume pid s
  | TriggerPut => Ok (trigger_put s)
  | TriggerGet => Ok s      (* no release is ever left waiting *)
  end.

Fixpoint run_callbacks (cbs : list callback) (s : t) : result t :=
  match cbs with
  | [] => Ok s
  | cb :: cbs' => do s' <- run_callback cb s; run_callbacks cbs' s'
  end.

(** [env.step()]: process the next event; an exception raised inside a
    process ends the run with that exception. *)
Definition step (s : t) : result t :=
  match heappop (queue s) with
  | None => Ok s
  | Some (ev, rest) => run_callbacks (callbacks ev) (set_queue rest (set_now (at_time ev) s))
  end.

(** At most [fuel] steps of [env.run()]. *)
Fixpoint env_run (fuel : nat) (s : t) : result t :=
  match fuel with
  | O => Ok s
  | S fuel' => do s' <- step s; env_run fuel' s'
  end.

(** [for day in range(1, self.days + 1): self.env.process(self.run_day(day, rng))],
    with [n] days still to start after day [d - 1]. *)
Fixpoint start_days (n : nat) (d : Z) (s : t) : t :=
  match n with
  | O => s
  | S n' => start_days n' (d + 1) (spawn (RunDay d DayInit) [] s)
  end.

Definition total_entry (rows : list entry) : entry :=
  mkEntry Total
    (round2 (Qsum (map revenue rows)))
    (round2 (Qsum (map cogs rows)))
    (round2 (Qsum (map delivery_cost rows)))
    (round2 (Qsum (map profit rows)))
    (fold_left Z.add (map products_sold rows) 0).

(** The state in which [run_simulation(seed)] calls [env.run()]. *)
Definition started (seed : Z) (s : t) : t :=
  start_days (Z.to_nat (days s)) 1 (set_rng_seeded (mkRng (Random seed) 0) s).

(** [run_simulation(seed)]; [None] when [fuel] steps do not empty the queue. *)
Definition run_simulation (fuel : nat) (seed : Z) (s : t) : result (option t) :=
  do s1 <- env_run fuel (started seed s);
  match queue s1 with
  | [] =>
      Ok (Some (set_daily_balances
                  (daily_balances s1 ++ [total_entry (daily_balances s1)]) s1))
  | _ :: _ => Ok None
  end.

End Run.

(** *** Vocabulary of the properties *)

(** The amount is a whole number. *)
Definition integral (q : Q) : Prop := exists z, (q == inject_Z z)%Q.

(** The stored profit is the stored revenue less the stored costs, to within
    one unit of the second decimal. *)
Definition conserved (e : entry) : Prop :=
  (Qabs (profit e - (revenue e - cogs e - delivery_cost e)) <= 1 # 100)%Q.

(** A row built by [run_day] from totals whose delivery part is whole. *)
Definition day_row (e : entry) : Prop :=
  exists d r c dl sold, integral dl /\ e = day_entry d r c dl sold.

(** The delivery total of a customers generator is whole. *)
Definition gen_ok (g : generator) : Prop :=
  match g with
  | Customers _ loc _ => integral (c_delivery loc)
  | RunDay _ _ => True
  end.

Definition books_ok (s : t) : Prop :=
  Forall day_row (daily_balances s) /\ Forall (fun p => gen_ok (gen p)) (procs s).

(** The ledger and the process table. *)
Definition books (s : t) : list entry * list process := (daily_balances s, procs s).

(** The day a step belongs to. *)
Definition day_of (l : step_label) : Z :=
  match l with
  | Restocked d | Discounted d | CustomersStarted d | CustomerServed d
  | LedgerAppended d | ClockAdvanced d | SalesReset d => d
  end.

(** The days run one after the other: no step is followed by a step of an
    earlier day. *)
Fixpoint in_sequence (tr : list step_label) : bool :=
  match tr with
  | [] => true
  | l :: tr' => forallb (fun l' => day_of l <=? day_of l') tr' && in_sequence tr'
  end.

Definition day_label_eqb (a b : day_label) : bool :=
  match a, b with
  | Day x, Day y => x =? y
  | Total, Total => true
  | _, _ => false
  end.

(** Two rows agree field by field. *)
Definition entry_eqb (a b : entry) : bool :=
  day_label_eqb (day a) (day b) && Qeq_bool (revenue a) (revenue b) &&
  Qeq_bool (cogs a) (cogs b) && Qeq_bool (delivery_cost a) (delivery_cost b) &&
  Qeq_bool (profit a) (profit b) && (products_sold a =? products_sold b).

(** Two ledgers agree row by row. *)
Fixpoint ledger_eqb (l1 l2 : list entry) : bool :=
  match l1, l2 with
  | [], [] => true
  | a :: l1', b :: l2' => entry_eqb a b && ledger_eqb l1' l2'
  | _, _ => false
  end.

(** *** The optimiser's objective *)

(** [int(x)] of a float: the fraction is dropped. *)
Definition int_of_float (x : Q) : Z :=
  if Qlt_le_dec x 0 then Qceiling x else Qfloor x.

(** The loop that loads the initial stock, in [fitness_function] and in the
    main program: supplier [i] produces [max(0, int(stock_per_supplier[i]))]
    units and the store buys as many from it. *)
Fixpoint load_initial (sups : list Supplier.t) (stock_per_supplier : list Q)
    (g : Grocery.t) (r : rng) : result (list Supplier.t * Grocery.t * rng) :=
  match sups with
  | [] => Ok ([], g, r)
  | supplier :: rest =>
      match stock_per_supplier with
      | [] => Raise IndexError
      | x :: xs =>
          let qty := Z.max 0 (int_of_float x) in
          let (s1, r1) := Supplier.add_products (Some qty) supplier r in
          do out <- Grocery.add_stock s1 qty g r1;
          do (rest', g', r') <-
            load_initial rest xs (Grocery.store out) (Grocery.random_after out);
          Ok (Grocery.supplier_after out :: rest', g', r')
      end
  end.

(** The units that the loop asks the first [n] suppliers for. *)
Fixpoint loaded_units (n : nat) (stock_per_supplier : list Q) : Z :=
  match n, stock_per_supplier with
  | S n', x :: xs => Z.max 0 (int_of_float x) + loaded_units n' xs
  | _, _ => 0
  end.

(** [fitness_function(stock_per_supplier)], in a process whose module-level
    generators are [py] and [np]; [None] when [fuel] steps do not finish the
    run. *)
Definition fitness_function (fuzzy_discount : Z -> Z -> Q) (Random : Z -> nat -> Q)
    (fuel : nat) (stock_per_supplier : list Q) (py np : rng) : result (option Q) :=
  let suppliers := map (fun i => Supplier.init (Z.of_nat i)) (seq 0 5) in
  let grocery := Grocery.init 3 in
  do (sups, g, r) <- load_initial suppliers stock_per_supplier grocery py;
  do sim <- run_simulation fuzzy_discount Random fuel 999 (init sups g 10 r np);
  match sim with
  | None => Ok None
  | Some s =>
      let total_profit :=
        match rev (daily_balances s) with
        | last_row :: _ => profit last_row
        | [] => 0%Q
        end in
      Ok (Some (- total_profit)%Q)
  end.

(** *** What the run keeps true of its tallies *)

(** The customers served so far and their delivery fees: the fees add up to
    a whole number between 5 and 20 per product sold. *)
Definition fees_ok (sold : Z) (fees : Q) : Prop :=
  0 <= sold /\ exists z, (fees == inject_Z z)%Q /\ 5 * sold <= z <= 20 * sold.

(** At most 20 customers come in a day. *)
Definition count_ok (loc : customers_locals) (pc : customers_pc) : Prop :=
  match pc with
  | CustInit => c_sold loc = 0
  | CustAwaitCashier _ | CustAwaitService _ =>
      c_sold loc + Z.of_nat (c_left loc) + 1 <= 20
  | CustEnd => c_sold loc <= 20
  end.

Definition gen_tally (unit_draws : Prop) (n : Z) (g : generator) : Prop :=
  match g with
  | Customers _ loc pc =>
      fees_ok (c_sold loc) (c_delivery loc) /\ (unit_draws -> count_ok loc pc)
  | RunDay d _ => 1 <= d <= n
  end.

Definition row_tally (unit_draws : Prop) (n : Z) (e : entry) : Prop :=
  (exists d, day e = Day d /\ 1 <= d <= n) /\
  fees_ok (products_sold e) (delivery_cost e) /\
  (unit_draws -> products_sold e <= 20).

Definition tally_ok (tape : nat -> Q) (n : Z) (s : t) : Prop :=
  rng_tape (rng_seeded s) = tape /\
  Forall (row_tally (unit_draws tape) n) (daily_balances s) /\
  Forall (fun p => gen_tally (unit_draws tape) n (gen p)) (procs s).

(** The ledger, the process table and the seeded generator. *)
Definition books_rng (s : t) : list entry * list process * rng :=
  (daily_balances s, procs s, rng_seeded s).

(** *** What the run keeps true of its margins *)

(** The store sells every product at 1.05 times its cost or more, no
    supplier asks a negative cost, the markups come from unit draws, and
    the revenue counted so far covers 1.05 times the cost of the goods
    sold. *)
Definition gen_margin (g : generator) : Prop :=
  match g with
  | Customers _ loc _ => (0 <= c_cogs loc /\ c_cogs loc * (105 # 100) <= c_revenue loc)%Q
  | RunDay _ _ => True
  end.

Definition row_margin (e : entry) : Prop := (0 <= cogs e /\ cogs e <= revenue e)%Q.

Definition margin_ok (s : t) : Prop :=
  Grocery.margins_ok (grocery s) /\
  Forall Supplier.costs_nonneg (suppliers s) /\
  unit_tape (py_random s) /\
  Forall row_margin (daily_balances s) /\
  Forall (fun p => gen_margin (gen p)) (procs s).

(** What [margin_ok] reads of a state. *)
Definition books_margin (s : t)
  : list entry * list process * Dict.t Q * Dict.t Q * list Supplier.t * rng :=
  (daily_balances s, procs s, Grocery.prices (grocery s), Grocery.costs (grocery s),
   suppliers s, py_random s).

End Simulation.

(** ** Scenarios *)

Module Scenarios.

(** A discount engine that answers 10% whatever the inputs. *)
Definition flat_discount : Z -> Z -> Q := fun _ _ => 10%Q.

(** A toy seeded generator: the tape of seed [seed] steps through the tenths. *)
Definition toy_Random (seed : Z) (n : nat) : Q :=
  ((seed * 7 + Z.of_nat n * 3) mod 10) # 10.

(** Three states of the module-level generator of [random], and one of
    [numpy.random]. *)
Definition random_a : rng := mkRng (fun _ => 1 # 4) 0.
Definition random_b : rng := mkRng (fun _ => 3 # 4) 0.
Definition numpy_a : rng := mkRng (fun _ => 1 # 3) 0.

(** [Simulation(env, [Supplier(env, 0)], Grocery(env, 5), days)] *)
Definition one_supplier (days : Z) (py : rng) : Simulation.t :=
  Simulation.init [Supplier.init 0] (Grocery.init 5) days py numpy_a.

(** A supplier that produced one unit: fruits, at a unit cost of 2. *)
Definition fruit_supplier : Supplier.t :=
  fst (Supplier.add_products (Some 1) (Supplier.init 0)
         (mkRng (fun n => match n with O => 1 # 2 | _ => 1 # 4 end) 0)).

(** A fresh store buys that unit. *)
Definition fruit_restock : Grocery.restocked :=
  match Grocery.add_stock fruit_supplier 1 (Grocery.init 5) random_a with
  | Ok out => out
  | Raise _ => Grocery.mkRestocked (Grocery.init 5) fruit_supplier random_a None
  end.

Definition fruit_store : Grocery.t := Grocery.store fruit_restock.

(** The store after selling the unit and repricing the product at 1. *)
Definition sold_out_repriced : Grocery.t :=
  match Grocery.sell_one_product fruit_store numpy_a with
  | Ok (_, g, _) => Grocery.set_sale_price g "fruits" 1
  | Raise _ => fruit_store
  end.

(** Products A and B in stock, with demand weights 1.0 and 0.0. *)
Definition two_products : Grocery.t :=
  Grocery.mk [("A", 3); ("B", 2)] [("A", 5 # 2); ("B", 4 # 1)] [("A", 2 # 1); ("B", 3 # 1)] []
    (Resource.init 1) None [("A", 1 # 1); ("B", 0 # 1)].

(** A discount engine that answers 10% on levels between 0 and 100, and 90%
    outside of them. *)
Definition capped_discount : Z -> Z -> Q := fun s v =>
  if ((0 <=? s) && (s <=? 100) && (0 <=? v) && (v <=? 100))%bool then 10%Q else 90%Q.

(** Products A and B in stock, with demand weights 1.0 and -0.5. *)
Definition negative_weight : Grocery.t :=
  Grocery.mk [("A", 3); ("B", 2)] [("A", 5 # 2); ("B", 4 # 1)] [("A", 2 # 1); ("B", 3 # 1)] []
    (Resource.init 1) None [("A", 1 # 1); ("B", (-1) # 2)].

End Scenarios.

(** * Properties *)

(** ** Dictionaries *)

Module DictFacts.
Section Facts.
Context {V : Type}.
Implicit Types (d : Dict.t V) (k : string) (v : V).

Lemma get_set_same d k v : Dict.get (Dict.set d k v) k = Some v.
Proof.
  induction d as [|[k' v'] d IH]; simpl.
  - now rewrite String.eqb_refl.
  - destruct (String.eqb k' k) eqn:E; simpl; rewrite E; auto.
Qed.

Lemma get_set_other d k k' v :
  k <> k' -> Dict.get (Dict.set d k v) k' = Dict.get d k'.
Proof.
  intros Hne. induction d as [|[k0 v0] d IH]; simpl.
  - destruct (String.eqb k k') eqn:E; auto.
    apply String.eqb_eq in E. contradiction.
  - destruct (String.eqb k0 k) eqn:E; simpl.
    + apply String.eqb_eq in E. subst k0.
      destruct (String.eqb k k') eqn:E'; auto.
      apply String.eqb_eq in E'. contradiction.
    + now rewrite IH.
Qed.

Lemma get_in d k v : Dict.get d k = Some v -> In (k, v) d.
Proof.
  induction d as [|[k0 v0] d IH]; simpl; [discriminate|].
  destruct (String.eqb k0 k) eqn:E.
  - apply String.eqb_eq in E. intros [= ->]. subst. now left.
  - intros H. right. auto.
Qed.

Lemma in_get d k v : Dict.wf d -> In (k, v) d -> Dict.get d k = Some v.
Proof.
  unfold Dict.wf, Dict.keys.
  induction d as [|[k0 v0] d IH]; simpl; [tauto|].
  intros Hnd [H|H].
  - injection H as -> ->. now rewrite String.eqb_refl.
  - inversion Hnd as [|? ? Hnotin Hnd']; subst.
    destruct (String.eqb k0 k) eqn:E; auto.
    apply String.eqb_eq in E. subst k0.
    exfalso. apply Hnotin. change k with (fst (k, v)). now apply in_map.
Qed.

Lemma get_none_not_in d k : Dict.get d k = None -> forall v, ~ In (k, v) d.
Proof.
  induction d as [|[k0 v0] d IH]; simpl; [tauto|].
  destruct (String.eqb k0 k) eqn:E; [discriminate|].
  intros H v [H'|H'].
  - injection H' as -> _. rewrite String.eqb_refl in E. discriminate.
  - now apply (IH H v).
Qed.

Lemma keys_set d k v :
  Dict.keys (Dict.set d k v) =
  if Dict.mem d k then Dict.keys d else (Dict.keys d ++ [k])%list.
Proof.
  unfold Dict.mem, Dict.keys.
  induction d as [|[k0 v0] d IH]; simpl; auto.
  destruct (String.eqb k0 k) eqn:E; simpl; auto.
  rewrite IH. now destruct (Dict.get d k).
Qed.

Lemma mem_false_not_key d k : Dict.mem d k = false -> ~ In k (Dict.keys d).
Proof.
  unfold Dict.mem, Dict.keys.
  induction d as [|[k0 v0] d IH]; simpl; [tauto|].
  destruct (String.eqb k0 k) eqn:E; [discriminate|].
  intros H [H'|H']; [|now apply IH].
  subst. rewrite String.eqb_refl in E. discriminate.
Qed.

Lemma wf_set d k v : Dict.wf d -> Dict.wf (Dict.set d k v).
Proof.
  unfold Dict.wf. intros Hwf. rewrite keys_set.
  destruct (Dict.mem d k) eqn:E; auto.
  apply NoDup_app; auto.
  - constructor; [simpl; tauto | constructor].
  - intros x Hx [<-|[]]. now apply (mem_false_not_key _ _ E).
Qed.

(** Assignment replaces one value or appends one item. *)
Lemma in_set d k v k' v' :
  In (k', v') (Dict.set d k v) -> (k' = k /\ v' = v) \/ In (k', v') d.
Proof.
  induction d as [|[k0 v0] d IH]; simpl.
  - intros [H|[]]. injection H as <- <-. now left.
  - destruct (String.eqb k0 k) eqn:E; simpl.
    + apply String.eqb_eq in E. subst k0. intros [H|H].
      * injection H as <- <-. now left.
      * right. now right.
    + intros [H|H]; [right; now left|].
      destruct (IH H) as [?|?]; [now left | right; now right].
Qed.

Lemma get_or_set_same d k v dflt : Dict.get_or (Dict.set d k v) k dflt = v.
Proof. unfold Dict.get_or. now rewrite get_set_same. Qed.

Lemma get_or_set_other d k k' v dflt :
  k <> k' -> Dict.get_or (Dict.set d k v) k' dflt = Dict.get_or d k' dflt.
Proof. intros H. unfold Dict.get_or. now rewrite get_set_other. Qed.

Lemma mem_true_get d k : Dict.mem d k = true -> exists v, Dict.get d k = Some v.
Proof. unfold Dict.mem. destruct (Dict.get d k); [eauto | discriminate]. Qed.
End Facts.
End DictFacts.

(** ** The supplier *)

Module SupplierFacts.
Import Supplier.

Lemma pop_snoc (ps : list string) (x : string) : pop (ps ++ [x]) = Ok (x, ps).
Proof. unfold pop. rewrite rev_unit. simpl. now rewrite rev_involutive. Qed.

(** Popping as many units as there are returns them newest first. *)
Lemma pop_many_all (ps : list string) :
  pop_many (List.length ps) ps = Ok (rev ps, []).
Proof.
  induction ps as [|x ps IH] using rev_ind; [reflexivity|].
  rewrite length_app, Nat.add_comm. simpl.
  rewrite pop_snoc. simpl. rewrite IH. simpl. now rewrite rev_unit.
Qed.

Lemma add_one_product_products (s : t) (r : rng) :
  exists p, products (fst (add_one_product s r)) = (products s ++ [p])%list.
Proof.
  unfold add_one_product.
  destruct (choice _ _ r) as [p r1]. destruct (uniform 1 5 r1) as [c r2].
  unfold _maybe_update_cost. exists p.
  now destruct (negb (Dict.mem _ p)).
Qed.

Lemma add_products_loop_length (n : nat) (s : t) (r : rng) :
  List.length (products (fst (add_products_loop n s r))) = (List.length (products s) + n)%nat.
Proof.
  revert s r. induction n as [|n IH]; intros s r; cbn [add_products_loop]; [simpl; lia|].
  destruct (add_one_product_products s r) as [p Hp].
  destruct (add_one_product s r) as [s' r'].
  rewrite IH. simpl in Hp. rewrite Hp, length_app. simpl. lia.
Qed.

(** C5. A fresh supplier that produced [Q] units and is asked for [Q] hands
    over exactly these [Q] units, newest first, and keeps none; asked for
    [Q + 1] instead it reports the shortage, hands over nothing and is left
    as it was. *)
Theorem supply_round_trip (Q : Z) (supplier_id : Z) (r : rng) :
  0 <= Q ->
  let s := fst (add_products (Some Q) (init supplier_id) r) in
  List.length (products s) = Z.to_nat Q /\
  (exists out,
      supply_products Q s = Ok out /\
      Z.of_nat (List.length (units out)) = Q /\
      units out = rev (products s) /\
      products (after out) = [] /\
      prices (after out) = prices s /\
      caught out = None) /\
  supply_products (Q + 1) s =
    Ok (mkSupplied [] s (Some (ValueError_not_enough (Z.to_nat Q)))).
Proof.
  intros HQ s.
  assert (Hlen : List.length (products s) = Z.to_nat Q).
  { unfold s, add_products. now rewrite add_products_loop_length. }
  split; [exact Hlen|]. split.
  - unfold supply_products. rewrite Hlen, Z2Nat.id by assumption.
    rewrite Z.ltb_irrefl, <- Hlen, pop_many_all. simpl.
    eexists. split; [reflexivity|]. simpl.
    rewrite length_rev, Hlen, Z2Nat.id by assumption. auto.
  - unfold supply_products. rewrite Hlen, Z2Nat.id by assumption.
    replace (Q <? Q + 1) with true by (symmetry; apply Z.ltb_lt; lia).
    reflexivity.
Qed.

Lemma supply_round_trip_witness :
  let s := fst (add_products (Some 3) (init 0) (mkRng (fun _ => 1 # 2) 0)) in
  0 <= 3 /\
  products s = ["fruits"; "fruits"; "fruits"] /\
  supply_products 3 s =
    Ok (mkSupplied ["fruits"; "fruits"; "fruits"] (set_products s []) None) /\
  supply_products 4 s = Ok (mkSupplied [] s (Some (ValueError_not_enough 3))).
Proof.
  pose proof (supply_round_trip 3 0 (mkRng (fun _ => 1 # 2) 0)) as H.
  split; [lia|]. split; [reflexivity|]. split; [reflexivity|].
  apply H. lia.
Defined.

End SupplierFacts.

(** ** The store: discounts *)

Module DiscountFacts.
Import Grocery.

Section Engine.

Variable fuzzy_discount : Z -> Z -> Q.


Lemma same_frame_refl g : same_frame g g.
Proof. repeat split. Qed.

Lemma same_frame_trans g1 g2 g3 : same_frame g1 g2 -> same_frame g2 g3 -> same_frame g1 g3.
Proof.
  unfold same_frame. intros (a1 & a2 & a3 & a4 & a5) (b1 & b2 & b3 & b4 & b5).
  repeat split; congruence.
Qed.

Lemma discount_one_frame g item :
  same_frame g (discount_one fuzzy_discount g item).
Proof.
  destruct item as [product stock_units]. unfold Grocery.discount_one.
  destruct (_ || _); [apply same_frame_refl|].
  repeat split.
Qed.

Lemma fold_discount_frame items g :
  same_frame g (fold_left (discount_one fuzzy_discount) items g).
Proof.
  revert g. induction items as [|item items IH]; intros g; simpl.
  - apply same_frame_refl.
  - eapply same_frame_trans; [apply discount_one_frame | apply IH].
Qed.

Lemma price_floor_frame g g' p : same_frame g g' -> price_floor g' p = price_floor g p.
Proof. intros (_ & Hc & _). unfold price_floor. now rewrite Hc. Qed.

(** C10. [apply_discounts] leaves the stock, the costs, the sales counters and
    the demand weights exactly as they were. *)
Theorem apply_discounts_frame (g : t) :
  stock (apply_discounts fuzzy_discount g) = stock g /\
  costs (apply_discounts fuzzy_discount g) = costs g /\
  sales_count (apply_discounts fuzzy_discount g) = sales_count g /\
  demand_weights (apply_discounts fuzzy_discount g) = demand_weights g.
Proof.
  destruct (fold_discount_frame (stock g) g) as (H1 & H2 & H3 & _ & H5).
  unfold Grocery.apply_discounts. auto.
Qed.

(** *** The price of one product through the loop *)

Lemma fmax_ge_r a b : (b <= fmax a b)%Q.
Proof. unfold fmax. destruct (Qlt_le_dec a b); [apply Qle_refl | assumption]. Qed.

Lemma fmax_ge_l a b : (a <= fmax a b)%Q.
Proof. unfold fmax. destruct (Qlt_le_dec a b); [now apply Qlt_le_weak | apply Qle_refl]. Qed.


Lemma discount_one_other g product stock_units p :
  product <> p ->
  Dict.get (prices (discount_one fuzzy_discount g (product, stock_units))) p =
  Dict.get (prices g) p.
Proof.
  intros Hne. unfold Grocery.discount_one.
  destruct (_ || _); [reflexivity|]. simpl.
  now apply DictFacts.get_set_other.
Qed.

Lemma discount_one_skipped g p stock_units :
  stock_units <= 0 -> discount_one fuzzy_discount g (p, stock_units) = g.
Proof.
  intros H. unfold Grocery.discount_one.
  replace (stock_units <=? 0) with true by (symmetry; now apply Z.leb_le).
  reflexivity.
Qed.

Lemma discount_one_clamps g p stock_units :
  0 < stock_units -> Dict.mem (prices g) p = true ->
  floored (discount_one fuzzy_discount g (p, stock_units)) p.
Proof.
  intros Hpos Hmem. unfold floored, Grocery.discount_one.
  replace (stock_units <=? 0) with false by (symmetry; apply Z.leb_gt; lia).
  rewrite Hmem. simpl. rewrite DictFacts.get_set_same.
  eexists. split; [reflexivity|]. apply fmax_ge_r.
Qed.

Lemma discount_one_keeps_floored g item p :
  floored g p -> floored (discount_one fuzzy_discount g item) p.
Proof.
  intros (pr & Hget & Hle). destruct item as [product stock_units].
  destruct (string_dec product p) as [->|Hne].
  - destruct (Z_le_gt_dec stock_units 0) as [Hle0|Hgt].
    + rewrite discount_one_skipped by assumption. now exists pr.
    + apply discount_one_clamps; [lia|]. unfold Dict.mem. now rewrite Hget.
  - exists pr. rewrite discount_one_other by assumption.
    rewrite (price_floor_frame _ _ p (discount_one_frame g (product, stock_units))).
    auto.
Qed.

Lemma fold_keeps_floored items g p :
  floored g p -> floored (fold_left (discount_one fuzzy_discount) items g) p.
Proof.
  revert g. induction items as [|item items IH]; intros g H; simpl; auto.
  apply IH. now apply discount_one_keeps_floored.
Qed.

Lemma discount_one_keeps_priced g item p :
  Dict.mem (prices g) p = true ->
  Dict.mem (prices (discount_one fuzzy_discount g item)) p = true.
Proof.
  intros H. destruct item as [product stock_units].
  destruct (string_dec product p) as [->|Hne].
  - unfold Grocery.discount_one. destruct (_ || _); auto. simpl.
    unfold Dict.mem. now rewrite DictFacts.get_set_same.
  - unfold Dict.mem. now rewrite discount_one_other.
Qed.

Lemma fold_clamps items g p q :
  In (p, q) items -> 0 < q -> Dict.mem (prices g) p = true ->
  floored (fold_left (discount_one fuzzy_discount) items g) p.
Proof.
  revert g. induction items as [|item items IH]; intros g Hin Hq Hmem; simpl.
  - destruct Hin.
  - destruct Hin as [->|Hin].
    + apply fold_keeps_floored. now apply discount_one_clamps.
    + apply IH; auto. now apply discount_one_keeps_priced.
Qed.

Lemma fold_skips items g p :
  (forall q, In (p, q) items -> q <= 0) ->
  Dict.get (prices (fold_left (discount_one fuzzy_discount) items g)) p =
  Dict.get (prices g) p.
Proof.
  revert g. induction items as [|[product stock_units] items IH]; intros g H;
    cbn [fold_left]; auto.
  rewrite IH by (intros q Hq; apply H; now right).
  destruct (string_dec product p) as [->|Hne].
  - rewrite discount_one_skipped; auto. apply H. now left.
  - now apply discount_one_other.
Qed.

(** A product that the loop skips keeps the price it had. *)
Lemma apply_discounts_skips (g : t) (p : string) :
  (forall q, In (p, q) (stock g) -> q <= 0) ->
  Dict.get (prices (apply_discounts fuzzy_discount g)) p = Dict.get (prices g) p.
Proof. apply fold_skips. Qed.

Lemma apply_discounts_keeps_floored (g : t) (p : string) :
  floored g p -> floored (apply_discounts fuzzy_discount g) p.
Proof. apply fold_keeps_floored. Qed.

(** C3, as amended. A product that is in stock and has a price when
    [apply_discounts] is called, or whose price was at or above
    [costs.get(p, 0.0) * 1.05] before the call, has right after the call a
    price at or above [costs[p] * 1.05] when its cost is known, and at or
    above 0 when it is not. *)
Theorem apply_discounts_floor (g : t) (p : string) :
  (exists q, Dict.get (stock g) p = Some q /\ 0 < q /\ Dict.mem (prices g) p = true) \/
  floored g p ->
  exists pr,
    Dict.get (prices (apply_discounts fuzzy_discount g)) p = Some pr /\
    match Dict.get (costs (apply_discounts fuzzy_discount g)) p with
    | Some c => (c * (105 # 100) <= pr)%Q
    | None => (0 <= pr)%Q
    end.
Proof.
  intros H.
  assert (Hfl : floored (apply_discounts fuzzy_discount g) p).
  { destruct H as [(q & Hget & Hq & Hmem)|H].
    - apply (fold_clamps (stock g) g p q); auto. now apply DictFacts.get_in.
    - now apply fold_keeps_floored. }
  destruct Hfl as (pr & Hpr & Hle).
  exists pr. split; [exact Hpr|].
  unfold price_floor, Dict.get_or in Hle.
  destruct (Dict.get (costs (apply_discounts fuzzy_discount g)) p) as [c|];
    [exact Hle | lra].
Qed.

(** *** A second application *)


Lemma discounted_below (pr d : Q) :
  (0 <= pr)%Q -> (0 <= d)%Q -> (pr * (1 - d / 100) <= pr)%Q.
Proof.
  intros Hpr Hd.
  assert (H : (0 <= pr * d)%Q) by now apply Qmult_le_0_compat.
  setoid_replace (pr * (1 - d / 100))%Q with (pr - (pr * d) * (1 # 100))%Q by field.
  set (x := (pr * d)%Q) in *. lra.
Qed.

Lemma discount_one_keeps_at_floor g item p :
  (forall s v, 0 <= fuzzy_discount s v)%Q ->
  (0 <= Dict.get_or (costs g) p 0)%Q ->
  at_floor g p -> at_floor (discount_one fuzzy_discount g item) p.
Proof.
  intros Hd Hc (pr & Hget & Heq). destruct item as [product stock_units].
  destruct (string_dec product p) as [->|Hne].
  - unfold Grocery.discount_one. destruct (_ || _); [now exists pr|].
    cbn [_compute_discount]. unfold at_floor.
    cbn [prices set_prices set_sim_input]. rewrite DictFacts.get_set_same.
    eexists. split; [reflexivity|].
    unfold Dict.get_or at 1. rewrite Hget.
    unfold price_floor in *. cbn [costs set_prices set_sim_input] in *.
    set (fl := (Dict.get_or (costs g) p 0 * (105 # 100))%Q) in *.
    set (d := fuzzy_discount _ _).
    assert (Hfl : (0 <= fl)%Q) by (unfold fl; lra).
    assert (Hle : (pr * (1 - d / 100) <= pr)%Q).
    { apply discounted_below; [lra | apply Hd]. }
    unfold fmax. destruct (Qlt_le_dec _ fl); [reflexivity | lra].
  - exists pr. rewrite discount_one_other by assumption.
    rewrite (price_floor_frame _ _ p (discount_one_frame g (product, stock_units))).
    auto.
Qed.

Lemma fold_keeps_at_floor items g p :
  (forall s v, 0 <= fuzzy_discount s v)%Q ->
  (0 <= Dict.get_or (costs g) p 0)%Q ->
  at_floor g p -> at_floor (fold_left (discount_one fuzzy_discount) items g) p.
Proof.
  intros Hd. revert g. induction items as [|item items IH]; intros g Hc H; simpl; auto.
  apply IH.
  - destruct (discount_one_frame g item) as (_ & -> & _). exact Hc.
  - now apply discount_one_keeps_at_floor.
Qed.

(** C8. When the first [apply_discounts] left the price of a product on its
    floor [cost * 1.05], a second call made right after leaves that price as
    it is; and whatever the first call did, a price at or above the floor
    after the first call is at or above the same floor after the second. *)
Theorem apply_discounts_twice (g : t) (p : string) (pr1 : Q) :
  (forall s v, 0 <= fuzzy_discount s v)%Q ->
  (0 <= Dict.get_or (costs g) p 0)%Q ->
  Dict.get (prices (apply_discounts fuzzy_discount g)) p = Some pr1 ->
  (pr1 == Dict.get_or (costs g) p 0 * (105 # 100))%Q ->
  (exists pr2,
      Dict.get (prices (apply_discounts fuzzy_discount (apply_discounts fuzzy_discount g))) p
        = Some pr2 /\
      (pr2 == pr1)%Q) /\
  (forall p', floored (apply_discounts fuzzy_discount g) p' ->
     floored (apply_discounts fuzzy_discount (apply_discounts fuzzy_discount g)) p' /\
     price_floor (apply_discounts fuzzy_discount (apply_discounts fuzzy_discount g)) p' =
       price_floor (apply_discounts fuzzy_discount g) p').
Proof.
  intros Hd Hc Hget Heq.
  pose proof (fold_discount_frame (stock g) g) as Hfr.
  fold (apply_discounts fuzzy_discount g) in Hfr.
  split.
  - destruct (fold_keeps_at_floor (stock (apply_discounts fuzzy_discount g))
                (apply_discounts fuzzy_discount g) p Hd)
      as (pr2 & Hget2 & Heq2).
    + destruct Hfr as (_ & -> & _). exact Hc.
    + exists pr1. split; [exact Hget|].
      rewrite (price_floor_frame g _ p Hfr). exact Heq.
    + exists pr2. split; [exact Hget2|].
      rewrite Heq2, Heq.
      rewrite (price_floor_frame _ _ p (fold_discount_frame _ (apply_discounts fuzzy_discount g))).
      rewrite (price_floor_frame g _ p Hfr). reflexivity.
  - intros p' Hfl. split.
    + now apply fold_keeps_floored.
    + apply price_floor_frame, fold_discount_frame.
Qed.

End Engine.

End DiscountFacts.

(** ** The store: sales *)

Module SaleFacts.
Import Grocery.

Lemma Qsum_acc (l : list Q) (a : Q) : (fold_left Qplus l a == a + fold_right Qplus 0 l)%Q.
Proof.
  revert a. induction l as [|x l IH]; intros a; simpl; [lra|].
  rewrite IH. lra.
Qed.

Lemma Qsum_cons (x : Q) (l : list Q) : (Qsum (x :: l) == x + Qsum l)%Q.
Proof. unfold Qsum. simpl. rewrite !Qsum_acc. lra. Qed.

Lemma Qsum_nonneg (l : list Q) : (forall x, In x l -> 0 <= x)%Q -> (0 <= Qsum l)%Q.
Proof.
  induction l as [|x l IH]; intros H.
  - unfold Qsum. simpl. lra.
  - rewrite Qsum_cons.
    assert (0 <= x)%Q by (apply H; now left).
    assert (0 <= Qsum l)%Q by (apply IH; intros y Hy; apply H; now right).
    lra.
Qed.

Lemma Qsum_pos (l : list Q) (x : Q) :
  (forall y, In y l -> 0 <= y)%Q -> In x l -> (0 < x)%Q -> (0 < Qsum l)%Q.
Proof.
  induction l as [|y l IH]; intros H Hin Hx; [destruct Hin|].
  rewrite Qsum_cons. destruct Hin as [->|Hin].
  - assert (0 <= Qsum l)%Q by (apply Qsum_nonneg; intros z Hz; apply H; now right). lra.
  - assert (0 <= y)%Q by (apply H; now left).
    assert (0 < Qsum l)%Q by (apply IH; auto; intros z Hz; apply H; now right). lra.
Qed.

Lemma Qsum_scaled (l : list Q) (s : Q) :
  (Qsum (map (fun w => w / s) l) == Qsum l / s)%Q.
Proof.
  induction l as [|x l IH].
  - unfold Qsum. simpl. unfold Qdiv. ring.
  - simpl. rewrite !Qsum_cons, IH. unfold Qdiv. ring.
Qed.

Lemma Qsum_ones {A : Type} (l : list A) :
  (Qsum (map (fun _ => 1) l) == inject_Z (Z.of_nat (List.length l)))%Q.
Proof.
  induction l as [|x l IH].
  - reflexivity.
  - cbn [map List.length]. rewrite Qsum_cons, IH, Nat2Z.inj_succ.
    unfold Z.succ. rewrite inject_Z_plus. change (inject_Z 1) with 1%Q. ring.
Qed.

(** *** The cumulative distribution *)

Lemma cumsum_from_length (p : list Q) (acc : Q) :
  List.length (cumsum_from acc p) = List.length p.
Proof. revert acc. induction p; intros; simpl; auto. Qed.

Lemma cumsum_from_last (p : list Q) (acc d : Q) :
  p <> [] -> (last (cumsum_from acc p) d == acc + Qsum p)%Q.
Proof.
  revert acc. induction p as [|x p IH]; intros acc Hne; [congruence|].
  destruct p as [|y p].
  - simpl. unfold Qsum. simpl. lra.
  - change (cumsum_from acc (x :: y :: p))
      with ((acc + x)%Q :: cumsum_from (acc + x) (y :: p)).
    change (last ((acc + x)%Q :: cumsum_from (acc + x) (y :: p)) d)
      with (last (cumsum_from (acc + x) (y :: p)) d).
    rewrite IH by discriminate. rewrite (Qsum_cons x). lra.
Qed.

Lemma last_map_nonempty {A B : Type} (f : A -> B) (l : list A) (d : A) (d' : B) :
  l <> [] -> last (map f l) d' = f (last l d).
Proof.
  induction l as [|x l IH]; intros Hne; [congruence|].
  destruct l as [|y l]; [reflexivity|].
  change (last (map f (x :: y :: l)) d') with (last (map f (y :: l)) d').
  change (last (x :: y :: l) d) with (last (y :: l) d).
  apply IH. discriminate.
Qed.

Lemma searchsorted_right_lt (cdf : list Q) (u : Q) :
  cdf <> [] -> (u < last cdf 0%Q)%Q -> (searchsorted_right cdf u < List.length cdf)%nat.
Proof.
  induction cdf as [|c cdf IH]; intros Hne Hu; [congruence|].
  cbn [searchsorted_right List.length].
  destruct (Qlt_le_dec u c); [lia|].
  destruct cdf as [|c' cdf].
  - simpl in Hu. lra.
  - apply -> Nat.succ_lt_mono. apply IH; [discriminate | exact Hu].
Qed.

(** The entry that the search stops at stands for a probability that is not
    zero: the draw lies at or above the sum before it and below the sum
    that includes it. *)
Lemma searchsorted_right_nonzero (p : list Q) (acc L u x : Q) :
  (acc / L <= u)%Q ->
  nth_error p (searchsorted_right (map (fun c => (c / L)%Q) (cumsum_from acc p)) u) = Some x ->
  ~ (x / L == 0)%Q.
Proof.
  revert acc. induction p as [|y p IH]; intros acc Hacc Hnth.
  - discriminate.
  - cbn [cumsum_from map searchsorted_right] in Hnth.
    destruct (Qlt_le_dec u ((acc + y) / L)) as [Hlt|Hge].
    + injection Hnth as <-. intros Hz.
      assert ((acc + y) / L == acc / L + y / L)%Q by (unfold Qdiv; ring).
      lra.
    + apply (IH (acc + y)%Q); assumption.
Qed.

(** *** The choice *)


Lemma np_choice_ok (a : list string) (p : list Q) (np : rng) :
  a <> [] -> List.length p = List.length a ->
  (forall x, In x p -> 0 <= x)%Q -> (Qsum p == 1)%Q -> unit_draw np ->
  exists x, np_choice a p np = Ok (x, snd (random_unit np)) /\ In x a.
Proof.
  intros Ha Hlen Hnonneg Hsum [_ Hu]. unfold np_choice.
  assert (Hp : p <> []) by (destruct p, a; simpl in *; congruence).
  replace (existsb _ p) with false.
  2:{ symmetry. apply not_true_is_false. intros H.
      apply existsb_exists in H. destruct H as (x & Hx & Hneg).
      destruct (Qlt_le_dec x 0); [|discriminate].
      specialize (Hnonneg x Hx). lra. }
  replace (Qeq_bool (Qsum p) 1) with true by (symmetry; now apply Qeq_bool_iff).
  cbn [negb random_unit snd].
  set (u := rng_tape np (rng_pos np)) in *.
  set (cdf := cumsum p). set (L := last cdf 0%Q).
  assert (HL : (L == 1)%Q).
  { unfold L, cdf, cumsum. rewrite cumsum_from_last by assumption. lra. }
  assert (Hcdf : cdf <> []).
  { unfold cdf, cumsum. intros H. apply (f_equal (@List.length Q)) in H.
    rewrite cumsum_from_length in H. destruct p; simpl in *; congruence. }
  assert (Hi : (searchsorted_right (map (fun c => (c / L)%Q) cdf) u < List.length a)%nat).
  { rewrite <- Hlen, <- (cumsum_from_length p 0), <- (length_map (fun c => (c / L)%Q)).
    apply searchsorted_right_lt.
    - intros H. apply map_eq_nil in H. contradiction.
    - rewrite (last_map_nonempty _ cdf 0%Q) by assumption.
      fold L. setoid_replace (L / L)%Q with 1%Q; [exact Hu|].
      rewrite HL. reflexivity. }
  destruct (nth_error a _) as [x|] eqn:E.
  - exists x. split; [reflexivity|]. eapply nth_error_In; eauto.
  - apply nth_error_None in E. lia.
Qed.


(** *** Availability *)


Lemma available_in (g : t) (p : string) :
  In p (available g) <-> exists q, In (p, q) (stock g) /\ 0 < q.
Proof.
  unfold available. rewrite in_map_iff. split.
  - intros ([p' q] & <- & H). apply filter_In in H. destruct H as [H Hq].
    exists q. split; [exact H|]. simpl in Hq. now apply Z.ltb_lt.
  - intros (q & H & Hq). exists (p, q). split; [reflexivity|].
    apply filter_In. split; [exact H|]. simpl. now apply Z.ltb_lt.
Qed.

Lemma in_stock_available (g : t) (p : string) : 0 < stock_of g p -> In p (available g).
Proof.
  unfold stock_of, Dict.get_or. intros H. apply available_in.
  destruct (Dict.get (stock g) p) as [q|] eqn:E; [|lia].
  exists q. split; [now apply DictFacts.get_in | exact H].
Qed.

Lemma available_in_stock (g : t) (p : string) :
  Dict.wf (stock g) -> In p (available g) -> 0 < stock_of g p.
Proof.
  intros Hwf H. apply available_in in H. destruct H as (q & Hin & Hq).
  unfold stock_of, Dict.get_or. now rewrite (DictFacts.in_get _ _ _ Hwf Hin).
Qed.

Lemma np_choice_in (a : list string) (p : list Q) (np np' : rng) (x : string) :
  np_choice a p np = Ok (x, np') -> In x a.
Proof.
  unfold np_choice. destruct (existsb _ p); [discriminate|].
  destruct (negb _); [discriminate|].
  cbn [random_unit]. destruct (nth_error a _) as [y|] eqn:E; [|discriminate].
  intros [= <- _]. eapply nth_error_In; eauto.
Qed.

(** *** The probabilities *)

Lemma normalised_valid (ws : list Q) :
  (forall w, In w ws -> 0 <= w)%Q -> (0 < Qsum ws)%Q ->
  (forall x, In x (map (fun w => w / Qsum ws) ws) -> 0 <= x)%Q /\
  (Qsum (map (fun w => w / Qsum ws) ws) == 1)%Q.
Proof.
  intros Hnonneg Hpos. split.
  - intros x Hx. apply in_map_iff in Hx. destruct Hx as (w & <- & Hw).
    apply Qle_shift_div_l; [exact Hpos|]. specialize (Hnonneg w Hw). lra.
  - rewrite Qsum_scaled. field. lra.
Qed.

Lemma weight_of_nonneg (g : t) (p : string) : weights_nonneg g -> (0 <= weight_of g p)%Q.
Proof.
  intros H. unfold weight_of, Dict.get_or.
  destruct (Dict.get (demand_weights g) p) as [w|] eqn:E; [eapply H; eauto | lra].
Qed.

Lemma sale_weights_valid (g : t) :
  available g <> [] -> weights_nonneg g ->
  List.length (sale_weights g) = List.length (available g) /\
  (forall x, In x (sale_weights g) -> 0 <= x)%Q /\
  (Qsum (sale_weights g) == 1)%Q.
Proof.
  intros Ha Hw. unfold sale_weights.
  set (raw := map _ (available g)).
  assert (Hraw : (forall w, In w raw -> 0 <= w)%Q).
  { intros w Hin. apply in_map_iff in Hin. destruct Hin as (p & <- & _).
    now apply (weight_of_nonneg g p). }
  destruct (Qeq_bool (Qsum raw) 0) eqn:E.
  - split; [now rewrite !length_map|].
    apply normalised_valid.
    + intros w Hin. apply in_map_iff in Hin. destruct Hin as (p & <- & _). lra.
    + rewrite Qsum_ones. destruct (available g) as [|p l]; [congruence|].
      rewrite <- (Zlt_Qlt 0). cbn [List.length]. lia.
  - split; [unfold raw; now rewrite !length_map|].
    apply normalised_valid; [exact Hraw|].
    apply Qeq_bool_neq in E. pose proof (Qsum_nonneg raw Hraw). lra.
Qed.

(** C7. With a demand table without negative weights, [sell_one_product]
    returns no sale exactly when no product is in stock, and then changes
    nothing; otherwise it returns a product that was in stock, takes one unit
    off its stock, adds one to its sales count and leaves every other stock,
    every other sales count, the prices, the costs and the demand table
    as they were. *)
Theorem sell_one_product_spec (g : t) (np : rng) :
  Dict.wf (stock g) -> weights_nonneg g -> unit_draw np ->
  exists ret g' np',
    sell_one_product g np = Ok (ret, g', np') /\
    (ret = None <-> forall p, stock_of g p <= 0) /\
    match ret with
    | None => g' = g /\ np' = np
    | Some p =>
        0 < stock_of g p /\
        stock_of g' p = stock_of g p - 1 /\
        sales_of g' p = sales_of g p + 1 /\
        (forall q, q <> p ->
           stock_of g' q = stock_of g q /\ sales_of g' q = sales_of g q) /\
        prices g' = prices g /\ costs g' = costs g /\
        demand_weights g' = demand_weights g
    end.
Proof.
  intros Hwf Hw Hu. unfold sell_one_product.
  destruct (available g) as [|p0 rest] eqn:Ha.
  - exists None, g, np. split; [reflexivity|]. split; [|auto].
    split; [|reflexivity]. intros _ p.
    destruct (Z_le_gt_dec (stock_of g p) 0) as [H|H]; [exact H|].
    apply Z.gt_lt, in_stock_available in H. rewrite Ha in H. destruct H.
  - rewrite <- Ha.
    assert (Hne : available g <> []) by (rewrite Ha; discriminate).
    destruct (sale_weights_valid g Hne Hw) as (Hlen & Hnonneg & Hsum).
    destruct (np_choice_ok (available g) (sale_weights g) np Hne Hlen Hnonneg Hsum Hu)
      as (p & -> & Hin).
    cbn [bind]. eexists (Some p), _, _. split; [reflexivity|].
    pose proof (available_in_stock g p Hwf Hin) as Hp.
    split.
    + split; [discriminate|]. intros H. specialize (H p). lia.
    + unfold stock_of, sales_of in *. cbn [stock sales_count prices costs demand_weights
        set_stock set_sales_count].
      rewrite !DictFacts.get_or_set_same.
      repeat split; auto;
        now rewrite DictFacts.get_or_set_other by congruence.
Qed.

(** C9. With a positive total demand weight over the products on offer, a
    product to which the demand table gives weight 0 is never the one that
    [sell_one_product] returns, whatever the draw. *)
Theorem zero_weight_never_sold (g : t) (np : rng) (A B : string) (wA wB : Q) :
  Dict.get (demand_weights g) A = Some wA -> (0 < wA)%Q ->
  Dict.get (demand_weights g) B = Some wB -> (wB == 0)%Q ->
  0 < stock_of g A -> 0 < stock_of g B ->
  (0 < total_demand g)%Q ->
  unit_draw np ->
  forall g' np', sell_one_product g np <> Ok (Some B, g', np').
Proof.
  intros _ _ HB HwB _ _ Htot [Hu _] g' np'. unfold sell_one_product.
  destruct (available g) as [|p0 rest] eqn:Ha; [discriminate|]. rewrite <- Ha.
  unfold np_choice. destruct (existsb _ (sale_weights g)); [discriminate|].
  destruct (negb _); [discriminate|].
  cbn [random_unit]. set (u := rng_tape np (rng_pos np)) in *.
  destruct (nth_error (available g) _) as [x|] eqn:E; [|discriminate].
  cbn [bind]. intros [= -> _ _].
  unfold sale_weights in E. fold (weight_of g) in E.
  unfold total_demand in Htot.
  set (raw := map (weight_of g) (available g)) in *.
  replace (Qeq_bool (Qsum raw) 0) with false in E.
  2:{ symmetry. apply not_true_is_false. intros H. apply Qeq_bool_eq in H. lra. }
  set (S := Qsum raw) in *. set (probs := map (fun w => (w / S)%Q) raw) in *.
  set (L := last (cumsum probs) 0%Q) in *.
  assert (Hnth : nth_error probs
                   (searchsorted_right (map (fun c => (c / L)%Q) (cumsum probs)) u)
                 = Some (weight_of g B / S)%Q).
  { exact (map_nth_error (fun w => (w / S)%Q) _ _ (map_nth_error (weight_of g) _ _ E)). }
  apply (searchsorted_right_nonzero probs 0 L u _) in Hnth.
  - apply Hnth. unfold weight_of, Dict.get_or. rewrite HB, HwB.
    unfold Qdiv. ring.
  - unfold Qdiv. setoid_replace (0 * / L)%Q with 0%Q by ring. exact Hu.
Qed.

(** A demand table without negative weights gives a positive total as soon as
    one product on offer has a positive weight. *)
Lemma total_demand_positive (g : t) (A : string) (wA : Q) :
  weights_nonneg g -> Dict.get (demand_weights g) A = Some wA -> (0 < wA)%Q ->
  0 < stock_of g A -> (0 < total_demand g)%Q.
Proof.
  intros Hw HA HwA Hstock. unfold total_demand.
  apply (Qsum_pos _ (weight_of g A)).
  - intros y Hy. apply in_map_iff in Hy. destruct Hy as (p & <- & _).
    now apply weight_of_nonneg.
  - apply in_map. now apply in_stock_available.
  - unfold weight_of, Dict.get_or. now rewrite HA.
Qed.

End SaleFacts.

(** ** The store: reachable states *)

Module ReachFacts.
Import Grocery SaleFacts.


Lemma stock_ok_stock_of (g : t) (p : string) : stock_ok g -> 0 <= stock_of g p.
Proof.
  intros [_ H]. unfold stock_of, Dict.get_or.
  destruct (Dict.get (stock g) p) as [q|] eqn:E; [|lia].
  apply (H p q). now apply DictFacts.get_in.
Qed.

Lemma stock_ok_set (g : t) (p : string) (q : Z) :
  stock_ok g -> 0 <= q -> stock_ok (set_stock g (Dict.set (stock g) p q)).
Proof.
  intros [Hwf H] Hq. split; cbn [stock set_stock].
  - now apply DictFacts.wf_set.
  - intros p' q' Hin. apply DictFacts.in_set in Hin.
    destruct Hin as [[_ ->]|Hin]; [exact Hq | eauto].
Qed.

Lemma stock_ok_same_stock (g g' : t) : stock g' = stock g -> stock_ok g -> stock_ok g'.
Proof. unfold stock_ok. now intros ->. Qed.

Lemma add_one_unit_ok (supplier : Supplier.t) (g : t) (r : rng) (product : string) :
  stock_ok g -> stock_ok (fst (add_one_unit supplier (g, r) product)).
Proof.
  intros Hok. unfold add_one_unit.
  set (g1 := set_stock g _).
  assert (H1 : stock_ok g1).
  { apply stock_ok_set; [exact Hok|]. pose proof (stock_ok_stock_of g product Hok).
    unfold stock_of in *. lia. }
  set (g2 := if negb (Dict.mem (costs g1) product) then _ else g1).
  assert (H2 : stock_ok g2).
  { unfold g2. destruct (negb _); [|exact H1].
    apply (stock_ok_same_stock g1); [reflexivity | exact H1]. }
  destruct (negb (Dict.mem (prices g2) product)); [|exact H2].
  destruct (uniform _ _ r) as [m r1]. cbn [fst].
  apply (stock_ok_same_stock g2); [reflexivity | exact H2].
Qed.

Lemma add_units_ok (supplier : Supplier.t) (products : list string) (g : t) (r : rng) :
  stock_ok g -> stock_ok (fst (fold_left (add_one_unit supplier) products (g, r))).
Proof.
  revert g r. induction products as [|product products IH]; intros g r Hok; [exact Hok|].
  cbn [fold_left].
  pose proof (add_one_unit_ok supplier g r product Hok) as H.
  destruct (add_one_unit supplier (g, r) product) as [g1 r1]. now apply IH.
Qed.

Lemma add_stock_ok (supplier : Supplier.t) (quantity : Z) (g : t) (r : rng) out :
  add_stock supplier quantity g r = Ok out -> stock_ok g -> stock_ok (store out).
Proof.
  unfold add_stock. destruct (Supplier.supply_products quantity supplier) as [o|e];
    [|discriminate].
  cbn [bind]. intros H Hok.
  pose proof (add_units_ok (Supplier.after o) (Supplier.units o) g r Hok) as Hf.
  destruct (fold_left _ _ (g, r)) as [g' r']. injection H as <-. exact Hf.
Qed.

Lemma sell_one_product_ok (g : t) (np : rng) ret g' np' :
  sell_one_product g np = Ok (ret, g', np') -> stock_ok g -> stock_ok g'.
Proof.
  unfold sell_one_product. intros H Hok.
  destruct (available g) as [|p0 rest] eqn:Ha.
  - now injection H as _ <- _.
  - rewrite <- Ha in H.
    destruct (np_choice (available g) (sale_weights g) np) as [[product np1]|e] eqn:E;
      [|discriminate].
    cbn [bind] in H. injection H as _ <- _.
    apply np_choice_in in E.
    apply (available_in_stock g product (proj1 Hok)) in E.
    apply (stock_ok_same_stock (set_stock g (Dict.set (stock g) product
                                               (Dict.get_or (stock g) product 0 - 1))));
      [reflexivity|].
    apply stock_ok_set; [exact Hok|]. unfold stock_of in E. lia.
Qed.

Lemma reachable_stock_ok fuzzy_discount (g : t) :
  reachable fuzzy_discount g -> stock_ok g.
Proof.
  induction 1 as [g H | g supplier quantity r out _ IH H | g _ IH
                 | g np ret g' np' _ IH H | g _ IH].
  - split; rewrite H; [constructor | intros p q []].
  - eapply add_stock_ok; eauto.
  - apply (stock_ok_same_stock g); [|exact IH].
    exact (proj1 (DiscountFacts.fold_discount_frame fuzzy_discount (stock g) g)).
  - eapply sell_one_product_ok; eauto.
  - exact IH.
Qed.

(** C4. In every state that [add_stock], [apply_discounts],
    [sell_one_product] and [reset_sales_counters] reach from a store with
    empty stock, no product has a negative stock. *)
Theorem stock_never_negative fuzzy_discount (g : t) :
  reachable fuzzy_discount g ->
  forall p, 0 <= stock_of g p /\ forall q, In (p, q) (stock g) -> 0 <= q.
Proof.
  intros H p. apply reachable_stock_ok in H. split.
  - now apply stock_ok_stock_of.
  - intros q. apply (proj2 H).
Qed.

End ReachFacts.

(** ** The ledger *)

Module LedgerFacts.
Import Simulation.

(** *** Rounding *)

Lemma round_half_even_close (x : Q) :
  (inject_Z (round_half_even x) - x <= 1 # 2)%Q /\
  (x - inject_Z (round_half_even x) <= 1 # 2)%Q.
Proof.
  unfold round_half_even.
  pose proof (Qfloor_le x) as Hlo. pose proof (Qlt_floor x) as Hhi.
  rewrite inject_Z_plus in Hhi. change (inject_Z 1) with 1%Q in Hhi.
  set (f := Qfloor x) in *.
  destruct (Qcompare_spec (x - inject_Z f) (1 # 2)) as [H|H|H].
  - destruct (Z.even f).
    + lra.
    + rewrite inject_Z_plus. change (inject_Z 1) with 1%Q. lra.
  - lra.
  - rewrite inject_Z_plus. change (inject_Z 1) with 1%Q. lra.
Qed.

Lemma inject_Z_sub (a b : Z) : (inject_Z (a - b) == inject_Z a - inject_Z b)%Q.
Proof. unfold Z.sub. rewrite inject_Z_plus, inject_Z_opp. reflexivity. Qed.

(** A whole number of rational distance at most 3/2 from 0 is -1, 0 or 1. *)
Lemma small_integer (k : Z) :
  (- (3 # 2) <= inject_Z k)%Q -> (inject_Z k <= 3 # 2)%Q -> -1 <= k <= 1.
Proof.
  intros Hlo Hhi. split.
  - assert (H : (inject_Z (-2) < inject_Z k)%Q) by (change (inject_Z (-2)) with (-2 # 1)%Q; lra).
    rewrite <- Zlt_Qlt in H. lia.
  - assert (H : (inject_Z k < inject_Z 2)%Q) by (change (inject_Z 2) with (2 # 1)%Q; lra).
    rewrite <- Zlt_Qlt in H. lia.
Qed.


Lemma day_entry_conserved (d : Z) (r c dl : Q) (sold : Z) :
  integral dl -> conserved (day_entry d r c dl sold).
Proof.
  intros [z Hz]. unfold conserved, day_entry.
  cbn [profit revenue cogs delivery_cost]. unfold round2.
  destruct (round_half_even_close ((r - (c + dl)) * 100)) as [P1 P2].
  destruct (round_half_even_close (r * 100)) as [R1 R2].
  destruct (round_half_even_close (c * 100)) as [C1 C2].
  destruct (round_half_even_close (dl * 100)) as [D1 D2].
  set (P := round_half_even ((r - (c + dl)) * 100)) in *.
  set (R := round_half_even (r * 100)) in *.
  set (C := round_half_even (c * 100)) in *.
  set (D := round_half_even (dl * 100)) in *.
  assert (HD : D = z * 100).
  { assert (H : -1 <= D - z * 100 <= 1).
    { apply small_integer; rewrite inject_Z_sub, inject_Z_mult;
        change (inject_Z 100) with 100%Q; lra. }
    assert (Hz' : (inject_Z (D - z * 100) - (1 # 2) <= 0)%Q /\
                  (0 <= inject_Z (D - z * 100) + (1 # 2))%Q).
    { rewrite inject_Z_sub, inject_Z_mult. change (inject_Z 100) with 100%Q. lra. }
    destruct Hz' as [Hu Hl].
    destruct (Z.eq_dec (D - z * 100) 0) as [E|E]; [lia|].
    assert (E' : D - z * 100 = 1 \/ D - z * 100 = -1) by lia.
    destruct E' as [E'|E']; rewrite E' in Hu, Hl; exfalso;
      [revert Hu | revert Hl]; unfold Qle; simpl; lia. }
  assert (Hk : -1 <= P - R + C + D <= 1).
  { apply small_integer;
      rewrite !inject_Z_plus, inject_Z_sub, HD, inject_Z_mult;
      change (inject_Z 100) with 100%Q; lra. }
  assert (Hk' : (- 1 <= inject_Z (P - R + C + D))%Q /\ (inject_Z (P - R + C + D) <= 1)%Q).
  { split; [change (-1)%Q with (inject_Z (-1)) | change 1%Q with (inject_Z 1)];
      rewrite <- Zle_Qle; lia. }
  rewrite !inject_Z_plus, inject_Z_sub in Hk'.
  apply Qabs_Qle_condition.
  set (p := inject_Z P) in *. set (r' := inject_Z R) in *.
  set (c' := inject_Z C) in *. set (d' := inject_Z D) in *.
  setoid_replace (p / 100 - (r' / 100 - c' / 100 - d' / 100))%Q
    with ((p - r' + c' + d') * (1 # 100))%Q by field.
  split; lra.
Qed.


(** *** What the run keeps true *)


Lemma books_ok_same (s s' : t) : books s' = books s -> books_ok s -> books_ok s'.
Proof. unfold books, books_ok. intros [= -> ->]. auto. Qed.

Lemma trigger_put_books (s : t) : books (trigger_put s) = books s.
Proof.
  unfold trigger_put. destruct (Resource.put_queue _) as [|[rid owner] rest]; auto.
  now destruct (_ <? _)%nat.
Qed.

Lemma request_books (pid : nat) (s : t) : books (snd (request pid s)) = books s.
Proof. unfold request. cbn [snd]. now rewrite trigger_put_books. Qed.

Lemma finish_books (pid : nat) (s : t) : books (finish pid s) = books s.
Proof. unfold finish. now destruct (nth_error _ _). Qed.

Lemma timeout_books (delay : Q) (pid : nat) (s s' : t) :
  timeout delay pid s = Ok s' -> books s' = books s.
Proof. unfold timeout. destruct (Qlt_le_dec delay 0); [discriminate|]. now intros [= <-]. Qed.

Lemma restock_books (units_per_supplier : Z) (s s' : t) :
  _restock_all_suppliers units_per_supplier s = Ok s' -> books s' = books s.
Proof.
  unfold _restock_all_suppliers.
  destruct (restock_loop _ _ _ _) as [[[sups g] r]|e]; [|discriminate].
  now intros [= <-].
Qed.

Lemma update_gen_ok (ps : list process) (pid : nat) (g : generator) :
  gen_ok g -> Forall (fun p => gen_ok (gen p)) ps ->
  Forall (fun p => gen_ok (gen p)) (update_gen ps pid g).
Proof.
  intros Hg H. revert pid. induction H as [|p ps Hp Hps IH]; intros pid.
  - destruct pid; constructor.
  - destruct pid; cbn [update_gen]; constructor; auto.
Qed.

Lemma set_gen_ok (pid : nat) (g : generator) (s : t) :
  gen_ok g -> books_ok s -> books_ok (set_gen pid g s).
Proof.
  intros Hg [Hl Hp]. split; [exact Hl|]. now apply update_gen_ok.
Qed.

Lemma spawn_ok (g : generator) (parents : list nat) (s : t) :
  gen_ok g -> books_ok s -> books_ok (spawn g parents s).
Proof.
  intros Hg [Hl Hp]. split; [exact Hl|]. cbn.
  apply Forall_app. split; [exact Hp|]. now constructor.
Qed.

Lemma nth_gen_ok (s : t) (pid : nat) (p : process) :
  books_ok s -> nth_error (procs s) pid = Some p -> gen_ok (gen p).
Proof.
  intros [_ H] Hn. rewrite Forall_forall in H. apply H. eapply nth_error_In; eauto.
Qed.

Lemma customers_loop_ok (pid : nat) (d : Z) (loc : customers_locals) (s : t) :
  integral (c_delivery loc) -> books_ok s -> books_ok (customers_loop pid d loc s).
Proof.
  intros Hloc Hs. unfold customers_loop. destruct (c_left loc) as [|n].
  - eapply books_ok_same; [apply finish_books|]. now apply set_gen_ok.
  - pose proof (request_books pid s) as Hr.
    destruct (request pid s) as [rid s1]. cbn [snd] in Hr.
    apply set_gen_ok; [exact Hloc|]. eapply books_ok_same; eauto.
Qed.

Lemma delivery_cost_integral (distance_km : Q) :
  integral (Grocery.calculate_delivery_cost distance_km).
Proof.
  unfold Grocery.calculate_delivery_cost.
  destruct (Qlt_le_dec distance_km 10); [now exists 5|].
  destruct (Qlt_le_dec distance_km 20); [now exists 10|].
  destruct (Qlt_le_dec distance_km 30); [now exists 15 | now exists 20].
Qed.

Lemma integral_plus (a b : Q) : integral a -> integral b -> integral (a + b).
Proof.
  intros [x Hx] [y Hy]. exists (x + y). rewrite inject_Z_plus, Hx, Hy. reflexivity.
Qed.

Lemma serve_customer_ok (loc loc' : customers_locals) (s s' : t) :
  serve_customer loc s = Ok (loc', s') ->
  integral (c_delivery loc) -> integral (c_delivery loc') /\ books s' = books s.
Proof.
  unfold serve_customer.
  destruct (Grocery.sell_one_product _ _) as [[[sold g] np]|e]; [|discriminate].
  cbn [bind]. destruct (truthy sold).
  - destruct (uniform 1 35 _) as [distance r] eqn:E. intros [= <- <-] Hloc. split.
    + cbn [c_delivery]. apply integral_plus; [exact Hloc | apply delivery_cost_integral].
    + reflexivity.
  - intros [= <- <-] Hloc. split; [exact Hloc | reflexivity].
Qed.

Section Run.

Variable fuzzy_discount : Z -> Z -> Q.
Variable Random : Z -> nat -> Q.

Lemma resume_ok (pid : nat) (s s' : t) :
  resume fuzzy_discount pid s = Ok s' -> books_ok s -> books_ok s'.
Proof.
  unfold resume. intros H Hs.
  destruct (nth_error (procs s) pid) as [p|] eqn:Hp; [|now injection H as <-].
  pose proof (nth_gen_ok s pid p Hs Hp) as Hg.
  destruct (gen p) as [d [|child| |]|d loc [|rid|rid|]].
  - destruct (_restock_all_suppliers 10 s) as [s1|e] eqn:E; [|discriminate].
    cbn [bind] in H. injection H as <-.
    apply set_gen_ok; [exact I|]. apply spawn_ok; [now exists 0|].
    eapply books_ok_same; [|exact Hs]. now rewrite <- (restock_books _ _ _ E).
  - destruct (nth_error (procs s) child) as [[[|d' loc pc] ws]|] eqn:Hc;
      try (now injection H as <-).
    pose proof (nth_gen_ok s child _ Hs Hc) as Hloc. cbn in Hloc.
    match type of H with
    | bind (timeout 1 pid ?s0) _ = _ =>
        destruct (timeout 1 pid s0) as [s2|e] eqn:E; [|discriminate];
        apply timeout_books in E
    end.
    cbn [bind] in H. injection H as <-.
    apply set_gen_ok; [exact I|]. eapply books_ok_same; [exact E|].
    destruct Hs as [Hl Hps]. split; [|exact Hps]. cbn.
    apply Forall_app. split; [exact Hl|]. constructor; [|constructor].
    now exists d, (c_revenue loc), (c_cogs loc), (c_delivery loc), (c_sold loc).
  - injection H as <-. eapply books_ok_same; [apply finish_books|].
    apply set_gen_ok; [exact I | exact Hs].
  - now injection H as <-.
  - destruct (randint 8 20 (rng_seeded s)) as [n r]. injection H as <-.
    apply customers_loop_ok; [exact Hg | exact Hs].
  - destruct (uniform (5 # 10) 2 (rng_seeded s)) as [service r].
    match type of H with
    | bind (timeout service pid ?s0) _ = _ =>
        destruct (timeout service pid s0) as [s1|e] eqn:E; [|discriminate];
        apply timeout_books in E
    end.
    cbn [bind] in H. injection H as <-.
    apply set_gen_ok; [exact Hg|]. eapply books_ok_same; [exact E | exact Hs].
  - destruct (serve_customer loc s) as [[loc' s1]|e] eqn:E; [|discriminate].
    cbn [bind] in H. injection H as <-.
    destruct (serve_customer_ok _ _ _ _ E Hg) as [Hloc' Hb].
    apply customers_loop_ok; [exact Hloc'|].
    eapply books_ok_same; [|exact Hs]. now rewrite <- Hb.
  - now injection H as <-.
Qed.

Lemma run_callbacks_ok (cbs : list callback) (s s' : t) :
  run_callbacks fuzzy_discount cbs s = Ok s' -> books_ok s -> books_ok s'.
Proof.
  revert s. induction cbs as [|cb cbs IH]; intros s H Hs; [now injection H as <-|].
  cbn [run_callbacks] in H.
  destruct (run_callback fuzzy_discount cb s) as [s1|e] eqn:E; [|discriminate].
  cbn [bind] in H. apply (IH s1 H).
  destruct cb as [pid| |]; cbn [run_callback] in E.
  - eapply resume_ok; eauto.
  - injection E as <-. eapply books_ok_same; [apply trigger_put_books | exact Hs].
  - now injection E as <-.
Qed.

Lemma step_ok (s s' : t) : step fuzzy_discount s = Ok s' -> books_ok s -> books_ok s'.
Proof.
  unfold step. destruct (heappop (queue s)) as [[ev rest]|]; [|now intros [= <-]].
  intros H Hs. eapply run_callbacks_ok; [exact H|].
  eapply books_ok_same; [|exact Hs]. reflexivity.
Qed.

Lemma env_run_ok (fuel : nat) (s s' : t) :
  env_run fuzzy_discount fuel s = Ok s' -> books_ok s -> books_ok s'.
Proof.
  revert s. induction fuel as [|fuel IH]; intros s H Hs; [now injection H as <-|].
  cbn [env_run] in H. destruct (step fuzzy_discount s) as [s1|e] eqn:E; [|discriminate].
  cbn [bind] in H. apply (IH s1 H). eapply step_ok; eauto.
Qed.

Lemma start_days_ok (n : nat) (d : Z) (s : t) : books_ok s -> books_ok (start_days n d s).
Proof.
  revert d s. induction n as [|n IH]; intros d s Hs; [exact Hs|].
  cbn [start_days]. apply IH. now apply spawn_ok.
Qed.


(** The day rows of the ledger that a complete run returns. *)
Lemma run_simulation_day_rows (sups : list Supplier.t) (g : Grocery.t) (n : Z)
    (py np : rng) (seed : Z) (fuel : nat) (s' : t) :
  run_simulation fuzzy_discount Random fuel seed (init sups g n py np) = Ok (Some s') ->
  forall e, In e (daily_balances s') -> day e <> Total -> conserved e.
Proof.
  unfold run_simulation. intros H e He Hday.
  destruct (env_run _ _ _) as [s1|ex] eqn:E; [|discriminate].
  cbn [bind] in H. destruct (queue s1); [|discriminate].
  injection H as <-. cbn in He. apply in_app_or in He.
  destruct He as [He|[<-|[]]]; [|now elim Hday].
  assert (Hs : books_ok s1).
  { apply (env_run_ok _ _ _ E). apply start_days_ok. split; constructor. }
  destruct Hs as [Hl _]. rewrite Forall_forall in Hl.
  destruct (Hl e He) as (d & r & c & dl & sold & Hdl & ->).
  now apply day_entry_conserved.
Qed.

End Run.

(** The tolerance is needed: rounding each field on its own can leave the
    stored fields one cent apart. *)
Example stored_fields_one_cent_apart :
  let e := day_entry 1 (1004 # 1000) (996 # 1000) 0 1 in
  (revenue e == 1)%Q /\ (cogs e == 1)%Q /\ (delivery_cost e == 0)%Q /\
  (profit e == 1 # 100)%Q.
Proof. repeat split. Qed.

End LedgerFacts.

(** ** The order of the days *)

Module ScheduleFacts.
Import Simulation.

(** *** Restocking always returns *)

Lemma pop_many_returns (n : nat) (ps : list string) :
  (n <= List.length ps)%nat -> exists xs rest, Supplier.pop_many n ps = Ok (xs, rest).
Proof.
  revert ps. induction n as [|n IH]; intros ps Hn.
  - now exists [], ps.
  - assert (Hne : ps <> []) by (destruct ps; simpl in *; [lia | discriminate]).
    destruct (exists_last Hne) as (ps' & x & ->).
    rewrite length_app in Hn. simpl in Hn.
    destruct (IH ps') as (xs & rest & Hxs); [lia|].
    cbn [Supplier.pop_many]. rewrite SupplierFacts.pop_snoc. cbn [bind].
    rewrite Hxs. cbn [bind]. now exists (x :: xs), rest.
Qed.

Lemma supply_products_returns (quantity : Z) (s : Supplier.t) :
  exists out, Supplier.supply_products quantity s = Ok out.
Proof.
  unfold Supplier.supply_products.
  destruct (Z.of_nat (List.length (Supplier.products s)) <? quantity) eqn:E;
    [eexists; reflexivity|].
  apply Z.ltb_ge in E.
  destruct (pop_many_returns (Z.to_nat quantity) (Supplier.products s))
    as (xs & rest & ->); [lia|].
  cbn [bind]. eexists; reflexivity.
Qed.

Lemma add_stock_returns (supplier : Supplier.t) (quantity : Z) (g : Grocery.t) (r : rng) :
  exists out, Grocery.add_stock supplier quantity g r = Ok out.
Proof.
  unfold Grocery.add_stock.
  destruct (supply_products_returns quantity supplier) as (o & ->). cbn [bind].
  destruct (fold_left _ _ (g, r)) as [g' r']. eexists; reflexivity.
Qed.

Lemma restock_loop_returns (units_per_supplier : Z) (sups : list Supplier.t)
    (g : Grocery.t) (r : rng) :
  exists res, restock_loop units_per_supplier sups g r = Ok res.
Proof.
  revert g r. induction sups as [|supplier rest IH]; intros g r.
  - eexists; reflexivity.
  - cbn [restock_loop].
    destruct (Supplier.add_products _ supplier r) as [s1 r1].
    destruct (add_stock_returns s1 (Z.max 0 (units_per_supplier / 2)) g r1) as (out & ->).
    cbn [bind].
    destruct (IH (Grocery.store out) (Grocery.random_after out)) as ([[rest' g'] r'] & ->).
    cbn [bind]. eexists; reflexivity.
Qed.

(** *** The first event of the queue *)

Lemma heappop_in (q : list event) (m : event) (rest : list event) :
  heappop q = Some (m, rest) -> In m q.
Proof.
  revert m rest. induction q as [|e q IH]; intros m rest H; [discriminate|].
  cbn [heappop] in H. destruct (heappop q) as [[m' rest']|].
  - destruct (earlier e m').
    + injection H as <- _. now left.
    + injection H as <- _. right. eapply IH; eauto.
  - injection H as <- _. now left.
Qed.

Lemma heappop_none (q : list event) : heappop q = None -> q = [].
Proof.
  destruct q as [|e q]; [reflexivity|]. cbn [heappop].
  destruct (heappop q) as [[m rest]|]; [destruct (earlier e m)|]; discriminate.
Qed.

Lemma heappop_first (e : event) (q : list event) :
  (forall e', In e' q -> earlier e e' = true) -> heappop (e :: q) = Some (e, q).
Proof.
  intros H. cbn [heappop]. destruct (heappop q) as [[m rest]|] eqn:E.
  - now rewrite (H m (heappop_in _ _ _ E)).
  - now rewrite (heappop_none _ E).
Qed.

Lemma earlier_same_time (e e' : event) :
  (at_time e == at_time e')%Q -> priority e = priority e' -> (eid e < eid e')%nat ->
  earlier e e' = true.
Proof.
  intros Ht Hp He. unfold earlier.
  apply Qeq_alt in Ht. rewrite Ht, Hp, Z.compare_refl. now apply Nat.ltb_lt.
Qed.

Section Run.

Variable fuzzy_discount : Z -> Z -> Q.
Variable Random : Z -> nat -> Q.

(** A day process that is started restocks, discounts and spawns its
    customers process in one go. *)
Lemma resume_day_init (pid : nat) (d : Z) (ws : list nat) (s : t) :
  nth_error (procs s) pid = Some (mkProcess (RunDay d DayInit) ws) ->
  exists s',
    resume fuzzy_discount pid s = Ok s' /\
    trace s' = (trace s ++ [Restocked d; Discounted d])%list /\
    queue s' =
      (queue s ++ [mkEvent (now s + 0) URGENT (next_eid s)
                     [Resume (List.length (procs s))]])%list /\
    next_eid s' = S (next_eid s) /\
    now s' = now s /\
    procs s' =
      update_gen
        (procs s ++ [mkProcess (Customers d (mkLocals 0 0 0 0 0) CustInit) [pid]])
        pid (RunDay d (DayAwaitCustomers (List.length (procs s)))).
Proof.
  intros Hp. unfold resume. rewrite Hp. cbn [gen].
  unfold _restock_all_suppliers.
  destruct (restock_loop_returns 10 (suppliers s) (grocery s) (py_random s))
    as ([[sups g] r] & ->).
  cbn [bind]. eexists. split; [reflexivity|].
  cbn. rewrite <- app_assoc. repeat split.
Qed.

Lemma step_day_init (ev : event) (rest : list event) (pid : nat) (d : Z)
    (ws : list nat) (s : t) :
  queue s = ev :: rest ->
  callbacks ev = [Resume pid] ->
  (forall e', In e' rest -> earlier ev e' = true) ->
  nth_error (procs s) pid = Some (mkProcess (RunDay d DayInit) ws) ->
  exists s',
    step fuzzy_discount s = Ok s' /\
    trace s' = (trace s ++ [Restocked d; Discounted d])%list /\
    queue s' =
      (rest ++ [mkEvent (at_time ev + 0) URGENT (next_eid s)
                  [Resume (List.length (procs s))]])%list /\
    next_eid s' = S (next_eid s) /\
    now s' = at_time ev /\
    procs s' =
      update_gen
        (procs s ++ [mkProcess (Customers d (mkLocals 0 0 0 0 0) CustInit) [pid]])
        pid (RunDay d (DayAwaitCustomers (List.length (procs s)))).
Proof.
  intros Hq Hcb Hfirst Hp. unfold step.
  rewrite Hq, (heappop_first ev rest Hfirst), Hcb. cbn [run_callbacks run_callback].
  destruct (resume_day_init pid d ws (set_queue rest (set_now (at_time ev) s)) Hp)
    as (s' & -> & H).
  cbn [bind]. exists s'. split; [reflexivity | exact H].
Qed.

(** Starting further days only adds urgent events at the current time, with
    fresh numbers, and further processes. *)
Lemma start_days_appends (n : nat) (d : Z) (s : t) :
  exists extra more,
    queue (start_days n d s) = (queue s ++ extra)%list /\
    Forall (fun e => at_time e = (now s + 0)%Q /\ priority e = URGENT /\
                     (next_eid s <= eid e)%nat) extra /\
    procs (start_days n d s) = (procs s ++ more)%list /\
    trace (start_days n d s) = trace s /\
    now (start_days n d s) = now s /\
    (next_eid s <= next_eid (start_days n d s))%nat.
Proof.
  revert d s. induction n as [|n IH]; intros d s.
  - exists [], []. cbn [start_days]. rewrite !app_nil_r. repeat split; auto.
  - cbn [start_days].
    destruct (IH (d + 1) (spawn (RunDay d DayInit) [] s))
      as (extra & more & Hq & Hall & Hp & Ht & Hn & Hid).
    eexists (_ :: extra), (_ :: more).
    rewrite Hq, Hp, Ht, Hn. cbn. rewrite <- !app_assoc. cbn.
    split; [reflexivity|]. split.
    + constructor; [cbn; auto|].
      eapply Forall_impl; [|exact Hall]. cbn. intros e (? & ? & ?). repeat split; auto. lia.
    + repeat split; auto. cbn in Hid. lia.
Qed.

(** C2. The days of a run do not follow one another: whatever the suppliers,
    the store, the discount engine and the generators, a run of two days or
    more restocks and discounts day 2 at time 0, right after day 1 was
    restocked and discounted, before any customer of day 1 is served and
    before the clock has moved. *)
Theorem days_overlap (sups : list Supplier.t) (g : Grocery.t)
    (n : Z) (py np : rng) (seed : Z) :
  2 <= n ->
  exists s,
    env_run fuzzy_discount 2 (started Random seed (init sups g n py np)) = Ok s /\
    trace s = [Restocked 1; Discounted 1; Restocked 2; Discounted 2] /\
    (now s == 0)%Q.
Proof.
  intros Hn. unfold started. cbn [days init].
  destruct (Z.to_nat n) as [|[|m]] eqn:Em; try lia.
  cbn [start_days].
  set (s0 := set_rng_seeded _ _).
  set (sb := spawn (RunDay (1 + 1) DayInit) [] (spawn (RunDay 1 DayInit) [] s0)).
  destruct (start_days_appends m (1 + 1 + 1) sb)
    as (extra & more & Hq & Hall & Hp & Ht & Hnow & Hid).
  set (s2 := start_days m (1 + 1 + 1) sb) in *.
  cbn in Hq, Hp, Ht, Hnow, Hid, Hall.
  rewrite Forall_forall in Hall.
  set (e0 := mkEvent (0 + 0) URGENT 0 [Resume 0%nat]) in *.
  set (e1 := mkEvent (0 + 0) URGENT 1 [Resume 1%nat]) in *.
  destruct (step_day_init e0 (e1 :: extra) 0 1 [] s2) as (s3 & Hs3 & Ht3 & Hq3 & Hid3 & Hn3 & Hp3).
  { exact Hq. }
  { reflexivity. }
  { intros e' [<-|He']; [reflexivity|].
    destruct (Hall e' He') as (Ha & Hb & Hc).
    apply earlier_same_time; [now rewrite Ha | now rewrite Hb | cbn; lia]. }
  { rewrite Hp. reflexivity. }
  destruct (step_day_init e1 (extra ++ [mkEvent (at_time e0 + 0) URGENT (next_eid s2)
                                          [Resume (List.length (procs s2))]])%list
              1 (1 + 1) [] s3) as (s4 & Hs4 & Ht4 & _ & _ & Hn4 & _).
  { exact Hq3. }
  { reflexivity. }
  { intros e' He'. apply in_app_or in He'. destruct He' as [He'|[<-|[]]].
    - destruct (Hall e' He') as (Ha & Hb & Hc).
      apply earlier_same_time; [now rewrite Ha | now rewrite Hb | cbn; lia].
    - apply earlier_same_time; [reflexivity | reflexivity | cbn; lia]. }
  { rewrite Hp3, Hp. reflexivity. }
  exists s4. cbn [env_run]. rewrite Hs3. cbn [bind]. rewrite Hs4. cbn [bind].
  split; [reflexivity|]. rewrite Ht4, Ht3, Ht, Hn4. split; reflexivity.
Qed.

End Run.

End ScheduleFacts.

(** ** The scenarios *)

Module ScenarioFacts.
Import Scenarios.

Lemma flat_discount_nonneg : forall s v : Z, (0 <= flat_discount s v)%Q.
Proof. intros s v. unfold flat_discount. lra. Qed.

Lemma two_products_wf : Dict.wf (Grocery.stock two_products).
Proof.
  unfold Dict.wf. cbn. repeat constructor; cbn; intuition discriminate.
Qed.

Lemma two_products_weights : Grocery.weights_nonneg two_products.
Proof.
  intros p w H. apply DictFacts.get_in in H. cbn in H.
  destruct H as [[= <- <-]|[[= <- <-]|[]]]; lra.
Qed.

Lemma numpy_a_unit : unit_draw numpy_a.
Proof. unfold unit_draw. cbn. lra. Qed.

(** C1. Two identically constructed one-day simulations run with seed 42 in
    two processes whose module-level [random] generators stand at different
    states end with different ledgers. *)
Theorem same_seed_different_ledgers :
  exists s1 s2,
    Simulation.run_simulation flat_discount toy_Random 200 42 (one_supplier 1 random_a)
      = Ok (Some s1) /\
    Simulation.run_simulation flat_discount toy_Random 200 42 (one_supplier 1 random_b)
      = Ok (Some s2) /\
    map Simulation.cogs (Simulation.daily_balances s1) = [10.00; 10.00]%Q /\
    map Simulation.cogs (Simulation.daily_balances s2) = [20.00; 20.00]%Q /\
    Simulation.ledger_eqb (Simulation.daily_balances s1) (Simulation.daily_balances s2)
      = false.
Proof.
  eexists. eexists.
  split; [vm_compute; reflexivity|].
  split; [vm_compute; reflexivity|].
  repeat split; vm_compute; reflexivity.
Qed.

(** The complete two-day run of the scenario: the steps of the two days
    alternate, and customers of day 2 are still served after the sales
    counters were reset at the end of day 1. *)
Lemma two_day_run_alternates :
  exists s,
    Simulation.run_simulation flat_discount toy_Random 200 42 (one_supplier 2 random_a)
      = Ok (Some s) /\
    firstn 8 (Simulation.trace s) =
      [Simulation.Restocked 1; Simulation.Discounted 1;
       Simulation.Restocked 2; Simulation.Discounted 2;
       Simulation.CustomersStarted 1; Simulation.CustomersStarted 2;
       Simulation.CustomerServed 1; Simulation.CustomerServed 2] /\
    skipn 30 (Simulation.trace s) =
      [Simulation.LedgerAppended 1; Simulation.CustomerServed 2;
       Simulation.ClockAdvanced 1; Simulation.SalesReset 1;
       Simulation.CustomerServed 2; Simulation.CustomerServed 2;
       Simulation.CustomerServed 2; Simulation.CustomerServed 2;
       Simulation.CustomerServed 2; Simulation.LedgerAppended 2;
       Simulation.ClockAdvanced 2; Simulation.SalesReset 2] /\
    Simulation.in_sequence (Simulation.trace s) = false.
Proof.
  eexists. split; [vm_compute; reflexivity|].
  repeat split; vm_compute; reflexivity.
Qed.

Lemma days_overlap_witness :
  2 <= 2 /\
  exists s,
    Simulation.env_run flat_discount 2
      (Simulation.started toy_Random 42 (one_supplier 2 random_a)) = Ok s /\
    Simulation.trace s =
      [Simulation.Restocked 1; Simulation.Discounted 1;
       Simulation.Restocked 2; Simulation.Discounted 2] /\
    (Simulation.now s == 0)%Q.
Proof.
  split; [lia|].
  apply (ScheduleFacts.days_overlap flat_discount toy_Random
           [Supplier.init 0] (Grocery.init 5) 2 random_a numpy_a 42).
  lia.
Defined.

(** C3, as first stated, fails: a product that is sold out is skipped by
    [apply_discounts], so that the price of 1 set for it by
    [set_sale_price] stays below its known cost of 2 times 1.05. *)
Lemma floor_skipped_when_sold_out :
  exists c pr,
    Dict.get (Grocery.costs (Grocery.apply_discounts flat_discount sold_out_repriced))
      "fruits" = Some c /\
    Dict.get (Grocery.prices (Grocery.apply_discounts flat_discount sold_out_repriced))
      "fruits" = Some pr /\
    (c == 2)%Q /\ (pr == 1)%Q /\ ~ (c * (105 # 100) <= pr)%Q.
Proof.
  eexists. eexists.
  split; [vm_compute; reflexivity|].
  split; [vm_compute; reflexivity|].
  split; [reflexivity|]. split; [reflexivity|].
  intros H. vm_compute in H. now apply H.
Qed.

Lemma apply_discounts_floor_witness :
  Dict.get (Grocery.stock two_products) "A" = Some 3 /\ 0 < 3 /\
  Dict.mem (Grocery.prices two_products) "A" = true /\
  exists pr,
    Dict.get (Grocery.prices (Grocery.apply_discounts flat_discount two_products)) "A"
      = Some pr /\
    ((2 # 1) * (105 # 100) <= pr)%Q.
Proof.
  split; [reflexivity|]. split; [lia|]. split; [reflexivity|].
  destruct (DiscountFacts.apply_discounts_floor flat_discount two_products "A")
    as (pr & H1 & H2).
  { left. exists 3. split; [reflexivity|]. split; [lia | reflexivity]. }
  exists pr. split; [exact H1|].
  replace (Dict.get (Grocery.costs (Grocery.apply_discounts flat_discount two_products)) "A")
    with (Some (2 # 1)) in H2 by (vm_compute; reflexivity).
  exact H2.
Defined.

Lemma stock_never_negative_witness :
  Grocery.reachable flat_discount fruit_store /\
  0 <= Grocery.stock_of fruit_store "fruits".
Proof.
  assert (H : Grocery.reachable flat_discount fruit_store).
  { apply (Grocery.reach_add_stock flat_discount (Grocery.init 5) fruit_supplier 1 random_a
             fruit_restock
             (Grocery.reach_initial flat_discount (Grocery.init 5) eq_refl)).
    vm_compute. reflexivity. }
  split; [exact H|].
  exact (proj1 (ReachFacts.stock_never_negative flat_discount fruit_store H "fruits")).
Defined.



Lemma sell_one_product_spec_witness :
  Dict.wf (Grocery.stock two_products) /\ Grocery.weights_nonneg two_products /\
  unit_draw numpy_a /\
  exists g' np',
    Grocery.sell_one_product two_products numpy_a = Ok (Some "A", g', np') /\
    Grocery.stock_of g' "A" = 2 /\ Grocery.sales_of g' "A" = 1 /\
    Grocery.stock_of g' "B" = 2.
Proof.
  split; [exact two_products_wf|]. split; [exact two_products_weights|].
  split; [exact numpy_a_unit|].
  destruct (SaleFacts.sell_one_product_spec two_products numpy_a
              two_products_wf two_products_weights numpy_a_unit)
    as (ret & g' & np' & Heq & _ & Hcase).
  vm_compute in Heq. injection Heq as <- <- <-.
  eexists. eexists. split; [vm_compute; reflexivity|].
  destruct Hcase as (_ & H1 & H2 & H3 & _).
  split; [exact H1|]. split; [exact H2|].
  refine (proj1 (H3 "B" _)). discriminate.
Defined.

Lemma zero_weight_never_sold_witness :
  (0 < Grocery.total_demand two_products)%Q /\
  forall g' np', Grocery.sell_one_product two_products numpy_a <> Ok (Some "B", g', np').
Proof.
  split; [reflexivity|].
  refine (SaleFacts.zero_weight_never_sold two_products numpy_a "A" "B" 1 0
            eq_refl _ eq_refl _ _ _ _ numpy_a_unit); reflexivity.
Defined.

Lemma apply_discounts_twice_witness :
  exists pr1 pr2,
    Dict.get (Grocery.prices (Grocery.apply_discounts flat_discount
        (Grocery.apply_discounts flat_discount two_products))) "A" = Some pr1 /\
    (pr1 == (2 # 1) * (105 # 100))%Q /\
    Dict.get (Grocery.prices (Grocery.apply_discounts flat_discount
        (Grocery.apply_discounts flat_discount
           (Grocery.apply_discounts flat_discount two_products)))) "A" = Some pr2 /\
    (pr2 == pr1)%Q.
Proof.
  pose (g := Grocery.apply_discounts flat_discount two_products).
  pose (pr1 := Dict.get_or
                 (Grocery.prices (Grocery.apply_discounts flat_discount g)) "A" 0%Q).
  assert (Hc : (0 <= Dict.get_or (Grocery.costs g) "A" 0)%Q) by (vm_compute; discriminate).
  assert (H1 : Dict.get (Grocery.prices (Grocery.apply_discounts flat_discount g)) "A"
               = Some pr1) by (vm_compute; reflexivity).
  assert (H2 : (pr1 == Dict.get_or (Grocery.costs g) "A" 0 * (105 # 100))%Q)
    by (vm_compute; reflexivity).
  destruct (DiscountFacts.apply_discounts_twice flat_discount g "A" pr1
              flat_discount_nonneg Hc H1 H2) as [(pr2 & H3 & H4) _].
  exists pr1, pr2. split; [exact H1|]. split; [exact H2|]. split; [exact H3 | exact H4].
Defined.

End ScenarioFacts.

(** ** More on the supplier *)

Module SupplierMore.
Import Supplier.

Lemma pop_many_split (n : nat) (ps : list string) :
  (n <= List.length ps)%nat ->
  exists xs rest,
    pop_many n ps = Ok (xs, rest) /\ ps = (rest ++ rev xs)%list /\ List.length xs = n.
Proof.
  revert ps. induction n as [|n IH]; intros ps Hn.
  - exists [], ps. cbn. now rewrite app_nil_r.
  - assert (Hne : ps <> []) by (destruct ps; simpl in *; [lia | discriminate]).
    destruct (exists_last Hne) as (ps' & x & ->).
    rewrite length_app in Hn. simpl in Hn.
    destruct (IH ps') as (xs & rest & Hxs & Hps & Hlen); [lia|].
    exists (x :: xs), rest. cbn [pop_many]. rewrite SupplierFacts.pop_snoc. cbn [bind].
    rewrite Hxs. cbn [bind]. split; [reflexivity|]. split.
    + cbn [rev]. rewrite app_assoc, <- Hps. reflexivity.
    + cbn. now rewrite Hlen.
Qed.

Lemma supply_products_split (quantity : Z) (s : t) :
  exists out,
    supply_products quantity s = Ok out /\
    (Z.of_nat (List.length (products s)) < quantity ->
       units out = [] /\ after out = s /\
       caught out = Some (ValueError_not_enough (List.length (products s)))) /\
    (quantity <= Z.of_nat (List.length (products s)) ->
       products s = (products (after out) ++ rev (units out))%list /\
       List.length (units out) = Z.to_nat quantity /\
       prices (after out) = prices s /\ id (after out) = id s /\
       caught out = None).
Proof.
  unfold supply_products.
  destruct (Z.of_nat (List.length (products s)) <? quantity) eqn:E.
  - apply Z.ltb_lt in E. eexists. split; [reflexivity|]. split; [auto | lia].
  - apply Z.ltb_ge in E.
    destruct (pop_many_split (Z.to_nat quantity) (products s))
      as (xs & rest & -> & Hps & Hlen); [lia|].
    cbn [bind]. eexists. split; [reflexivity|]. split; [lia|].
    intros _. cbn. auto.
Qed.

(** [supply_products] never lets an exception out.  Asked for more than the
    inventory holds, it hands over nothing, reports the shortage and leaves
    the supplier as it was.  Otherwise it hands over exactly [quantity]
    units (none for a negative quantity), the newest first, keeps the older
    units in their order and leaves the cost table alone. *)
Theorem supply_products_cases (quantity : Z) (s : t) :
  exists out,
    supply_products quantity s = Ok out /\
    (Z.of_nat (List.length (products s)) < quantity ->
       units out = [] /\ after out = s /\
       caught out = Some (ValueError_not_enough (List.length (products s)))) /\
    (quantity <= Z.of_nat (List.length (products s)) ->
       products s = (products (after out) ++ rev (units out))%list /\
       List.length (units out) = Z.to_nat quantity /\
       prices (after out) = prices s /\ id (after out) = id s /\
       caught out = None).
Proof. apply supply_products_split. Qed.

(** *** Production *)

Lemma choice_in_product_types (r : rng) :
  In (fst (choice product_types_hd product_types_tl r)) product_types.
Proof.
  unfold choice. destruct (randbelow _ r) as [i r']. cbn [fst].
  destruct (nth_in_or_default (Z.to_nat i) (product_types_hd :: product_types_tl)
              product_types_hd) as [H|H].
  - exact H.
  - rewrite H. now left.
Qed.

(** What one pass of the loop of [add_products] does. *)
Lemma add_one_product_spec (s : t) (r : rng) :
  let p := fst (choice product_types_hd product_types_tl r) in
  let r1 := snd (choice product_types_hd product_types_tl r) in
  let c := fst (uniform 1 5 r1) in
  add_one_product s r =
    (mk (id s) (products s ++ [p]) (Dict.set (Dict.set (prices s) p c) p c),
     snd (uniform 1 5 r1)).
Proof.
  cbn zeta. unfold add_one_product.
  destruct (choice _ _ r) as [p r1]. cbn [fst snd].
  destruct (uniform 1 5 r1) as [c r2]. cbn [fst snd].
  unfold _maybe_update_cost.
  assert (E : Dict.get_or (Dict.set (prices s) p c) p c = c)
    by apply DictFacts.get_or_set_same.
  destruct (negb (Dict.mem _ p)); cbn; now rewrite E.
Qed.

Lemma uniform_in_range (a b : Q) (r : rng) :
  (a <= b)%Q -> unit_tape r ->
  (a <= fst (uniform a b r) /\ fst (uniform a b r) <= b)%Q.
Proof.
  intros Hab Hr. unfold uniform, random_unit. cbn [fst].
  destruct (Hr (rng_pos r)) as [H0 H1].
  set (u := rng_tape r (rng_pos r)) in *.
  assert (0 <= (b - a) * u)%Q by (apply Qmult_le_0_compat; lra).
  assert (u * (b - a) <= 1 * (b - a))%Q by (apply Qmult_le_compat_r; lra).
  split; lra.
Qed.

Lemma uniform_tape (a b : Q) (r : rng) :
  rng_tape (snd (uniform a b r)) = rng_tape r.
Proof. reflexivity. Qed.

Lemma choice_tape {A : Type} (hd : A) (tl : list A) (r : rng) :
  rng_tape (snd (choice hd tl r)) = rng_tape r.
Proof. reflexivity. Qed.

Lemma unit_tape_same (r r' : rng) : rng_tape r' = rng_tape r -> unit_tape r -> unit_tape r'.
Proof. unfold unit_tape. now intros ->. Qed.

Lemma add_one_product_keeps (s : t) (r : rng) :
  unit_tape r ->
  let s' := fst (add_one_product s r) in
  let r' := snd (add_one_product s r) in
  unit_tape r' /\
  (exists p, products s' = (products s ++ [p])%list /\ costed s' p) /\
  (forall q, costed s q -> costed s' q) /\
  (costs_in_range s -> costs_in_range s').
Proof.
  intros Hr. cbn zeta. rewrite add_one_product_spec. cbn [fst snd].
  set (p := fst (choice product_types_hd product_types_tl r)).
  set (r1 := snd (choice product_types_hd product_types_tl r)).
  assert (Hr1 : unit_tape r1) by (apply (unit_tape_same r); [reflexivity | exact Hr]).
  set (c := fst (uniform 1 5 r1)).
  destruct (uniform_in_range 1 5 r1) as [Hc1 Hc5]; [lra | exact Hr1|].
  fold c in Hc1, Hc5. assert (Hc : (1 <= c /\ c <= 5)%Q) by (split; assumption).
  split; [apply (unit_tape_same r1); [reflexivity | exact Hr1]|].
  split; [|split].
  - exists p. split; [reflexivity|]. exists c. cbn [prices].
    now rewrite DictFacts.get_set_same.
  - intros q (cq & Hq & Hcq). unfold costed. cbn [prices].
    destruct (string_dec p q) as [->|Hne].
    + exists c. now rewrite DictFacts.get_set_same.
    + exists cq. now rewrite !DictFacts.get_set_other by assumption.
  - intros Hs q cq. cbn [prices].
    destruct (string_dec p q) as [->|Hne].
    + rewrite DictFacts.get_set_same. now intros [= <-].
    + rewrite !DictFacts.get_set_other by assumption. apply Hs.
Qed.

Lemma add_products_loop_keeps (n : nat) (s : t) (r : rng) :
  unit_tape r ->
  let s' := fst (add_products_loop n s r) in
  (exists added,
      products s' = (products s ++ added)%list /\ List.length added = n /\
      Forall (costed s') added) /\
  (forall q, costed s q -> costed s' q) /\
  (costs_in_range s -> costs_in_range s').
Proof.
  revert s r. induction n as [|n IH]; intros s r Hr; cbn zeta.
  - cbn. split; [exists []; now rewrite app_nil_r | auto].
  - cbn [add_products_loop].
    destruct (add_one_product_keeps s r Hr) as (Hr1 & (p & Hp & Hcp) & Hk & Hc).
    destruct (add_one_product s r) as [s1 r1]. cbn [fst snd] in *.
    destruct (IH s1 r1 Hr1) as ((added & Ha & Hlen & Hall) & Hk2 & Hc2).
    split; [|split; auto].
    exists (p :: added). rewrite Ha, Hp, <- app_assoc. cbn.
    split; [reflexivity|]. split; [now rewrite Hlen|].
    constructor; [now apply Hk2 | exact Hall].
Qed.

Lemma add_one_product_types (s : t) (r : rng) :
  exists p,
    products (fst (add_one_product s r)) = (products s ++ [p])%list /\
    In p product_types /\ id (fst (add_one_product s r)) = id s.
Proof.
  rewrite add_one_product_spec. cbn [fst products id].
  eexists. split; [reflexivity|]. split; [apply choice_in_product_types | reflexivity].
Qed.

Lemma add_products_loop_types (n : nat) (s : t) (r : rng) :
  exists added,
    products (fst (add_products_loop n s r)) = (products s ++ added)%list /\
    List.length added = n /\ Forall (fun p => In p product_types) added /\
    id (fst (add_products_loop n s r)) = id s.
Proof.
  revert s r. induction n as [|n IH]; intros s r.
  - exists []. cbn. now rewrite app_nil_r.
  - cbn [add_products_loop].
    destruct (add_one_product_types s r) as (p & Hp & Hin & Hid).
    destruct (add_one_product s r) as [s1 r1]. cbn [fst] in *.
    destruct (IH s1 r1) as (added & Ha & Hlen & Hall & Hid1).
    exists (p :: added). rewrite Ha, Hp, Hid1, <- app_assoc. cbn.
    split; [reflexivity|]. split; [now rewrite Hlen|]. split; [|exact Hid].
    constructor; assumption.
Qed.

Lemma randint_in_range (a b : Z) (r : rng) :
  a <= b -> unit_draw r -> a <= fst (randint a b r) <= b.
Proof.
  intros Hab [H0 H1]. unfold randint, randbelow, random_unit. cbn [fst].
  set (u := rng_tape r (rng_pos r)) in *.
  set (n := b - a + 1).
  assert (Hn : (0 < inject_Z n)%Q).
  { change 0%Q with (inject_Z 0). rewrite <- Zlt_Qlt. unfold n. lia. }
  assert (Hlo : 0 <= Qfloor (u * inject_Z n)).
  { change 0 with (Qfloor (inject_Z 0)). apply Qfloor_resp_le.
    change (inject_Z 0) with 0%Q. apply Qmult_le_0_compat; lra. }
  assert (Hhi : Qfloor (u * inject_Z n) < n).
  { rewrite Zlt_Qlt. eapply Qle_lt_trans; [apply Qfloor_le|].
    setoid_replace (inject_Z n) with (1 * inject_Z n)%Q at 2 by ring.
    apply Qmult_lt_r; assumption. }
  unfold n in *. lia.
Qed.

(** [add_products] appends the units it produces to the inventory and keeps
    what was there; it produces exactly [quantity] units (none for a
    negative quantity), or between 1 and 10 when no quantity is given, each
    of one of the five product types. *)
Theorem add_products_appends (quantity : option Z) (s : t) (r : rng) :
  exists added,
    products (fst (add_products quantity s r)) = (products s ++ added)%list /\
    Forall (fun p => In p product_types) added /\
    id (fst (add_products quantity s r)) = id s /\
    match quantity with
    | Some q => List.length added = Z.to_nat q
    | None => unit_draw r -> (1 <= List.length added <= 10)%nat
    end.
Proof.
  unfold add_products. destruct quantity as [q|].
  - destruct (add_products_loop_types (Z.to_nat q) s r) as (added & Ha & Hlen & Hall & Hid).
    exists added. auto.
  - pose proof (randint_in_range 1 10 r) as Hq.
    destruct (randint 1 10 r) as [q r1]. cbn [fst] in Hq.
    destruct (add_products_loop_types (Z.to_nat q) s r1) as (added & Ha & Hlen & Hall & Hid).
    exists added. split; [exact Ha|]. split; [exact Hall|]. split; [exact Hid|].
    intros Hu. specialize (Hq ltac:(lia) Hu). lia.
Qed.

(** On a generator of unit draws, every unit that [add_products] produces has
    a recorded cost between 1 and 5, both included; costs recorded before
    stay in that range when they were in it, a product that had such a cost
    keeps having one, and [get_price] then answers between 0 and 5 for every
    product. *)
Theorem add_products_costs (quantity : option Z) (s : t) (r : rng) :
  unit_tape r ->
  let s' := fst (add_products quantity s r) in
  (exists added,
      products s' = (products s ++ added)%list /\ Forall (costed s') added) /\
  (forall p, costed s p -> costed s' p) /\
  (costs_in_range s -> costs_in_range s') /\
  (costs_in_range s -> forall p, (0 <= get_price s' p /\ get_price s' p <= 5)%Q).
Proof.
  intros Hr. cbn zeta. unfold add_products.
  set (qr := match quantity with Some q => (q, r) | None => randint 1 10 r end).
  assert (Hr1 : unit_tape (snd qr)).
  { unfold qr. destruct quantity; [exact Hr|].
    apply (unit_tape_same r); [reflexivity | exact Hr]. }
  destruct qr as [q r1]. cbn [snd] in Hr1.
  destruct (add_products_loop_keeps (Z.to_nat q) s r1 Hr1)
    as ((added & Ha & _ & Hall) & Hk & Hc).
  split; [now exists added|]. split; [exact Hk|]. split; [exact Hc|].
  intros Hs p. specialize (Hc Hs). unfold get_price, Dict.get_or.
  destruct (Dict.get _ p) as [c|] eqn:E; [|lra].
  destruct (Hc p c E). lra.
Qed.

End SupplierMore.

(** ** More on the store: prices, fees and purchases *)

Module StoreMore.
Import Grocery.

(** [set_sale_price] never stores a price below 0.01: a price of 0.01 or more
    is stored as given, a smaller one as 0.01.  The other prices and the rest
    of the store are left alone. *)
Theorem set_sale_price_floor (g : t) (product : string) (price : Q) :
  exists pr,
    Dict.get (prices (set_sale_price g product price)) product = Some pr /\
    ((1 # 100) <= pr)%Q /\
    ((1 # 100) <= price -> pr == price)%Q /\
    (price < (1 # 100) -> pr == 1 # 100)%Q /\
    (forall q, q <> product ->
       Dict.get (prices (set_sale_price g product price)) q = Dict.get (prices g) q) /\
    same_frame g (set_sale_price g product price).
Proof.
  unfold set_sale_price. cbn [prices set_prices].
  rewrite DictFacts.get_set_same. eexists. split; [reflexivity|].
  unfold fmax. destruct (Qlt_le_dec (1 # 100) price) as [H|H].
  - repeat split; try lra; try reflexivity.
    intros q Hq. now apply DictFacts.get_set_other, not_eq_sym.
  - repeat split; try lra; try reflexivity.
    intros q Hq. now apply DictFacts.get_set_other, not_eq_sym.
Qed.

(** The delivery fee is one of 5, 10, 15 and 20, and a longer distance never
    costs less. *)
Theorem delivery_cost_bands (d1 d2 : Q) :
  (d1 <= d2)%Q ->
  (calculate_delivery_cost d1 <= calculate_delivery_cost d2)%Q /\
  (5 <= calculate_delivery_cost d1 /\ calculate_delivery_cost d1 <= 20)%Q /\
  ((d1 < 10)%Q -> calculate_delivery_cost d1 = 5%Q) /\
  ((30 <= d1)%Q -> calculate_delivery_cost d1 = 20%Q).
Proof.
  intros H. unfold calculate_delivery_cost.
  destruct (Qlt_le_dec d1 10), (Qlt_le_dec d1 20), (Qlt_le_dec d1 30),
    (Qlt_le_dec d2 10), (Qlt_le_dec d2 20), (Qlt_le_dec d2 30);
    repeat split; intros; try lra; try reflexivity.
Qed.

(** *** Purchases *)

Lemma total_set_incr (d : Dict.t Z) (k : string) (acc : Z) :
  fold_left Z.add (map snd (Dict.set d k (Dict.get_or d k 0 + 1))) acc =
  fold_left Z.add (map snd d) acc + 1.
Proof.
  revert acc. induction d as [|[k0 v0] d IH]; intros acc.
  - cbn. lia.
  - unfold Dict.get_or in *. cbn [Dict.set Dict.get].
    destruct (String.eqb k0 k) eqn:E.
    + cbn [map snd fold_left].
      assert (H : forall l a b, fold_left Z.add l (a + b) = fold_left Z.add l a + b).
      { induction l as [|x l IHl]; intros a b; cbn; [reflexivity|].
        replace (a + b + x) with (a + x + b) by lia. apply IHl. }
      replace (acc + (v0 + 1)) with (acc + v0 + 1) by lia. apply H.
    + cbn [map snd fold_left]. apply IH.
Qed.

(** What one unit does to the store. *)
Lemma add_one_unit_effect (supplier : Supplier.t) (g : t) (r : rng) (product : string) :
  let g' := fst (add_one_unit supplier (g, r) product) in
  stock g' = Dict.set (stock g) product (stock_of g product + 1) /\
  (forall c, Dict.get (costs g) product = Some c -> costs g' = costs g) /\
  (Dict.get (costs g) product = None ->
     costs g' = Dict.set (costs g) product (Supplier.get_price supplier product)) /\
  (forall pr, Dict.get (prices g) product = Some pr ->
     prices g' = prices g /\ snd (add_one_unit supplier (g, r) product) = r) /\
  (Dict.get (prices g) product = None ->
     prices g' =
       Dict.set (prices g) product
         (Dict.get_or (costs g') product 0 * fst (uniform (12 # 10) (15 # 10) r))%Q /\
     snd (add_one_unit supplier (g, r) product) = snd (uniform (12 # 10) (15 # 10) r)) /\
  sales_count g' = sales_count g /\ cashiers g' = cashiers g /\
  sim_input g' = sim_input g /\ demand_weights g' = demand_weights g.
Proof.
  cbn zeta. unfold add_one_unit, stock_of, Dict.mem.
  cbn [costs prices stock set_stock set_costs].
  destruct (Dict.get (costs g) product) as [c|] eqn:Ec;
    cbn [negb costs prices stock set_stock set_costs];
    destruct (Dict.get (prices g) product) as [pr|] eqn:Ep; cbn [negb];
    try destruct (uniform _ _ r) as [m r1];
    cbn; repeat split; intros; try discriminate; reflexivity.
Qed.

Lemma stock_of_set (g : t) (k q : string) (v : Z) :
  Dict.get_or (Dict.set (stock g) k v) q 0 = if string_dec k q then v else stock_of g q.
Proof.
  unfold stock_of. destruct (string_dec k q) as [->|Hne].
  - apply DictFacts.get_or_set_same.
  - now apply DictFacts.get_or_set_other.
Qed.

Lemma mem_set {V : Type} (d : Dict.t V) (k q : string) (v : V) :
  Dict.mem (Dict.set d k v) q = if string_dec k q then true else Dict.mem d q.
Proof.
  unfold Dict.mem. destruct (string_dec k q) as [->|Hne].
  - now rewrite DictFacts.get_set_same.
  - now rewrite DictFacts.get_set_other.
Qed.

Lemma in_mem {V : Type} (d : Dict.t V) (k : string) (v : V) :
  In (k, v) d -> Dict.mem d k = true.
Proof.
  unfold Dict.mem. intros H. destruct (Dict.get d k) eqn:E; [reflexivity|].
  exfalso. exact (DictFacts.get_none_not_in d k E v H).
Qed.

(** What a batch of units does to the store. *)
Lemma add_units_effect (supplier : Supplier.t) (us : list string) (g : t) (r : rng) :
  let g' := fst (fold_left (add_one_unit supplier) us (g, r)) in
  (forall p, stock_of g' p = stock_of g p + Z.of_nat (count_occ string_dec us p)) /\
  total_stock g' = total_stock g + Z.of_nat (List.length us) /\
  (forall p c, Dict.get (costs g) p = Some c -> Dict.get (costs g') p = Some c) /\
  (forall p pr, Dict.get (prices g) p = Some pr -> Dict.get (prices g') p = Some pr) /\
  (forall p, In p us -> Dict.mem (costs g') p = true /\ Dict.mem (prices g') p = true) /\
  (forall p, Dict.mem (stock g') p = true -> In p us \/ Dict.mem (stock g) p = true) /\
  sales_count g' = sales_count g /\ cashiers g' = cashiers g /\
  sim_input g' = sim_input g /\ demand_weights g' = demand_weights g.
Proof.
  revert g r. induction us as [|u us IH]; intros g r; cbn zeta.
  - cbn. repeat split; auto; try lia; tauto.
  - cbn [fold_left].
    destruct (add_one_unit_effect supplier g r u)
      as (Hst & Hc1 & Hc2 & Hp1 & Hp2 & Hs & Hca & Hsi & Hdw).
    destruct (add_one_unit supplier (g, r) u) as [g1 r1]. cbn [fst snd] in *.
    destruct (IH g1 r1) as (Ia & Ib & Ic & Id & Ie & If & Ig & Ih & Ii & Ij).
    assert (Kc : forall p c, Dict.get (costs g) p = Some c ->
                             Dict.get (costs g1) p = Some c).
    { intros p c H. destruct (Dict.get (costs g) u) as [cu|] eqn:E.
      - now rewrite (Hc1 cu eq_refl).
      - rewrite (Hc2 eq_refl). rewrite DictFacts.get_set_other; [exact H|].
        intros ->. congruence. }
    assert (Kp : forall p pr, Dict.get (prices g) p = Some pr ->
                              Dict.get (prices g1) p = Some pr).
    { intros p pr H. destruct (Dict.get (prices g) u) as [pu|] eqn:E.
      - now rewrite (proj1 (Hp1 pu eq_refl)).
      - rewrite (proj1 (Hp2 eq_refl)). rewrite DictFacts.get_set_other; [exact H|].
        intros ->. congruence. }
    assert (Ku : Dict.mem (costs g1) u = true /\ Dict.mem (prices g1) u = true).
    { split.
      - destruct (Dict.get (costs g) u) as [cu|] eqn:E.
        + rewrite (Hc1 cu eq_refl). unfold Dict.mem. now rewrite E.
        + rewrite (Hc2 eq_refl). unfold Dict.mem. now rewrite DictFacts.get_set_same.
      - destruct (Dict.get (prices g) u) as [pu|] eqn:E.
        + rewrite (proj1 (Hp1 pu eq_refl)). unfold Dict.mem. now rewrite E.
        + rewrite (proj1 (Hp2 eq_refl)). unfold Dict.mem.
          now rewrite DictFacts.get_set_same. }
    split; [|split; [|split; [|split; [|split; [|split]]]]].
    + intros p. rewrite Ia. unfold stock_of at 1. rewrite Hst, stock_of_set.
      cbn [count_occ]. destruct (string_dec u p) as [->|Hne]; lia.
    + rewrite Ib. unfold total_stock at 1. rewrite Hst.
      unfold stock_of. rewrite total_set_incr. cbn [List.length].
      unfold total_stock. lia.
    + intros p c H. apply Ic, Kc, H.
    + intros p pr H. apply Id, Kp, H.
    + intros p [<-|Hin]; [|now apply Ie].
      destruct Ku as [K1 K2]. unfold Dict.mem in *.
      destruct (Dict.get (costs g1) u) as [c|] eqn:E1; [|discriminate].
      destruct (Dict.get (prices g1) u) as [pr|] eqn:E2; [|discriminate].
      now rewrite (Ic _ _ E1), (Id _ _ E2).
    + intros p H. destruct (If p H) as [Hin|Hm]; [left; now right|].
      rewrite Hst, mem_set in Hm.
      destruct (string_dec u p) as [->|Hne]; [left; now left | now right].
    + repeat split; congruence.
Qed.

(** Asked for more units than the supplier holds, [add_stock] changes
    nothing: the store, the supplier and the generator are as before, and
    the shortage that the supplier printed is the only trace. *)
Theorem add_stock_short (supplier : Supplier.t) (quantity : Z) (g : t) (r : rng) :
  Z.of_nat (List.length (Supplier.products supplier)) < quantity ->
  add_stock supplier quantity g r =
    Ok (mkRestocked g supplier r
          (Some (ValueError_not_enough (List.length (Supplier.products supplier))))).
Proof.
  intros H. unfold add_stock, Supplier.supply_products.
  apply Z.ltb_lt in H. rewrite H. reflexivity.
Qed.

(** [add_stock] never fails, and the units that leave the supplier are the
    units that enter the store: the stock of each product grows by the
    number of units of it that [supply_products] handed over, and the total
    stock by their number. *)
Theorem add_stock_accounting (supplier : Supplier.t) (quantity : Z) (g : t) (r : rng) :
  exists so out,
    Supplier.supply_products quantity supplier = Ok so /\
    add_stock supplier quantity g r = Ok out /\
    supplier_after out = Supplier.after so /\ printed out = Supplier.caught so /\
    (forall p,
       stock_of (store out) p =
       stock_of g p + Z.of_nat (count_occ string_dec (Supplier.units so) p)) /\
    total_stock (store out) = total_stock g + Z.of_nat (List.length (Supplier.units so)).
Proof.
  unfold add_stock.
  destruct (ScheduleFacts.supply_products_returns quantity supplier) as (so & Hso).
  rewrite Hso. cbn [bind]. exists so.
  destruct (add_units_effect (Supplier.after so) (Supplier.units so) g r)
    as (Ha & Hb & _).
  destruct (fold_left _ _ (g, r)) as [g' r']. cbn [fst] in *.
  eexists. split; [reflexivity|]. split; [reflexivity|]. cbn. auto.
Qed.

(** [add_stock] fixes the cost and the price of a product the first time it
    sees it and never overwrites them afterwards; every product it receives
    has a cost and a price when it returns; sales counters, cashiers and
    demand weights are not touched. *)
Theorem add_stock_keeps_known (supplier : Supplier.t) (quantity : Z) (g : t) (r : rng) :
  exists so out,
    Supplier.supply_products quantity supplier = Ok so /\
    add_stock supplier quantity g r = Ok out /\
    (forall p c, Dict.get (costs g) p = Some c ->
                 Dict.get (costs (store out)) p = Some c) /\
    (forall p pr, Dict.get (prices g) p = Some pr ->
                  Dict.get (prices (store out)) p = Some pr) /\
    (forall p, In p (Supplier.units so) ->
               Dict.mem (costs (store out)) p = true /\
               Dict.mem (prices (store out)) p = true) /\
    sales_count (store out) = sales_count g /\
    cashiers (store out) = cashiers g /\
    demand_weights (store out) = demand_weights g.
Proof.
  unfold add_stock.
  destruct (ScheduleFacts.supply_products_returns quantity supplier) as (so & Hso).
  rewrite Hso. cbn [bind]. exists so.
  destruct (add_units_effect (Supplier.after so) (Supplier.units so) g r)
    as (_ & _ & Hc & Hp & Hu & _ & Hs & Hca & _ & Hdw).
  destruct (fold_left _ _ (g, r)) as [g' r']. cbn [fst] in *.
  eexists. split; [reflexivity|]. split; [reflexivity|]. cbn. auto 10.
Qed.

End StoreMore.

(** ** More on the store: what the operations keep true *)

Module StoreInvariants.
Import Grocery StoreMore.

Lemma mem_get {V : Type} (d : Dict.t V) (k : string) :
  Dict.mem d k = true <-> exists v, Dict.get d k = Some v.
Proof.
  unfold Dict.mem. destruct (Dict.get d k) as [v|]; split; eauto.
  - discriminate.
  - intros [v H]. discriminate.
Qed.

Section Engine.

Variable fuzzy_discount : Z -> Z -> Q.

(** The loop of [apply_discounts] gives no product a price and takes none
    away. *)
Lemma discount_one_priced (g : t) (item : string * Z) (p : string) :
  Dict.mem (prices (discount_one fuzzy_discount g item)) p = Dict.mem (prices g) p.
Proof.
  destruct item as [product stock_units]. unfold discount_one.
  destruct (stock_units <=? 0); cbn [orb]; [reflexivity|].
  destruct (Dict.mem (prices g) product) eqn:E; cbn [negb]; [|reflexivity].
  cbn [_compute_discount prices set_prices set_sim_input]. rewrite mem_set.
  destruct (string_dec product p) as [<-|Hne]; [now rewrite E | reflexivity].
Qed.

Lemma fold_discount_priced (items : list (string * Z)) (g : t) (p : string) :
  Dict.mem (prices (fold_left (discount_one fuzzy_discount) items g)) p =
  Dict.mem (prices g) p.
Proof.
  revert g. induction items as [|item items IH]; intros g; cbn [fold_left]; auto.
  rewrite IH. apply discount_one_priced.
Qed.

(** [apply_discounts] gives no product a price and takes none away, and it
    leaves the price of every product without positive stock as it is. *)
Theorem apply_discounts_scope (g : t) (p : string) :
  Dict.mem (prices (apply_discounts fuzzy_discount g)) p = Dict.mem (prices g) p /\
  ((forall q, In (p, q) (stock g) -> q <= 0) ->
     Dict.get (prices (apply_discounts fuzzy_discount g)) p = Dict.get (prices g) p).
Proof.
  split; [apply fold_discount_priced | apply DiscountFacts.apply_discounts_skips].
Qed.

(** *** Products in stock are catalogued *)

Lemma catalogued_reachable (g : t) : reachable fuzzy_discount g -> catalogued g.
Proof.
  induction 1 as [g H | g supplier quantity r out _ IH H | g _ IH
                 | g np ret g' np' _ IH H | g _ IH]; intros p Hp.
  - rewrite H in Hp. discriminate.
  - unfold add_stock in H.
    destruct (Supplier.supply_products quantity supplier) as [so|e]; [|discriminate].
    cbn [bind] in H.
    destruct (add_units_effect (Supplier.after so) (Supplier.units so) g r)
      as (_ & _ & Hc & Hpr & Hu & Hk & _).
    destruct (fold_left _ _ (g, r)) as [g1 r1]. cbn [fst] in *.
    injection H as <-. cbn [store] in *.
    destruct (Hk p Hp) as [Hin|Hm]; [now apply Hu|].
    destruct (IH p Hm) as [H1 H2]. apply mem_get in H1, H2.
    destruct H1 as [c H1]. destruct H2 as [pr H2].
    split; apply mem_get; eauto.
  - destruct (DiscountFacts.fold_discount_frame fuzzy_discount (stock g) g)
      as (Hs & Hc & _).
    unfold apply_discounts in *. rewrite Hs in Hp. rewrite Hc, fold_discount_priced.
    now apply IH.
  - unfold sell_one_product in H. destruct (available g) as [|p0 rest] eqn:Ha.
    + injection H as _ <- _. now apply IH.
    + rewrite <- Ha in H.
      destruct (np_choice (available g) (sale_weights g) np) as [[product np1]|e] eqn:E;
        [|discriminate].
      cbn [bind] in H. injection H as _ <- _.
      cbn [stock costs prices set_stock set_sales_count] in *.
      apply IH. rewrite mem_set in Hp.
      destruct (string_dec product p) as [<-|Hne]; [|exact Hp].
      apply SaleFacts.np_choice_in, SaleFacts.available_in in E.
      destruct E as (q & Hq & _). eapply in_mem; eauto.
  - now apply IH.
Qed.

(** In every state that the four operations reach from a store with empty
    stock, every product that has a stock entry, sold out or not, has a cost
    and a price: the defaults of [prices.get] and [costs.get] are never
    what a sale is booked at. *)
Theorem stocked_products_priced (g : t) (p : string) :
  reachable fuzzy_discount g -> Dict.mem (stock g) p = true ->
  (exists c, Dict.get (costs g) p = Some c) /\
  (exists pr, Dict.get (prices g) p = Some pr).
Proof.
  intros H Hp. destruct (catalogued_reachable g H p Hp) as [H1 H2].
  split; now apply mem_get.
Qed.

(** *** Margins *)

Lemma add_one_unit_margins (supplier : Supplier.t) (g : t) (r : rng) (product : string) :
  (forall p, 0 <= Supplier.get_price supplier p)%Q -> unit_tape r ->
  margins_ok g ->
  margins_ok (fst (add_one_unit supplier (g, r) product)) /\
  unit_tape (snd (add_one_unit supplier (g, r) product)).
Proof.
  intros Hsup Hr [Hm Hk].
  destruct (add_one_unit_effect supplier g r product)
    as (_ & Hc1 & Hc2 & Hp1 & Hp2 & _).
  destruct (add_one_unit supplier (g, r) product) as [g1 r1]. cbn [fst snd] in *.
  destruct (Dict.get (costs g) product) as [c|] eqn:Ec.
  - destruct (Hm product c Ec) as (_ & pr & Hpr & _).
    destruct (Hp1 pr Hpr) as [Hp ->]. unfold margins_ok. rewrite (Hc1 c eq_refl), Hp.
    split; [split; assumption | exact Hr].
  - assert (Ep : Dict.get (prices g) product = None).
    { destruct (Dict.get (prices g) product) as [pr|] eqn:E; [|reflexivity].
      assert (H : Dict.mem (prices g) product = true) by (apply mem_get; eauto).
      apply Hk, mem_get in H. destruct H as [c H]. congruence. }
    destruct (Hp2 Ep) as [Hp ->]. unfold margins_ok. rewrite (Hc2 eq_refl) in *.
    rewrite Hp.
    split; [|apply (SupplierMore.unit_tape_same r); [reflexivity | exact Hr]].
    destruct (SupplierMore.uniform_in_range (12 # 10) (15 # 10) r) as [Hlo _];
      [lra | exact Hr|].
    set (m := fst (uniform (12 # 10) (15 # 10) r)) in *.
    set (c0 := Supplier.get_price supplier product).
    assert (Hc0 : (0 <= c0)%Q) by apply Hsup.
    unfold Dict.get_or. rewrite DictFacts.get_set_same. fold c0.
    split.
    + intros p c. destruct (string_dec product p) as [<-|Hne].
      * rewrite !DictFacts.get_set_same. intros [= <-]. split; [exact Hc0|].
        exists (c0 * m)%Q. split; [reflexivity|].
        assert (0 <= c0 * (m - (105 # 100)))%Q by (apply Qmult_le_0_compat; lra).
        setoid_replace (c0 * m)%Q with (c0 * (105 # 100) + c0 * (m - (105 # 100)))%Q
          by ring.
        lra.
      * rewrite !DictFacts.get_set_other by assumption. apply Hm.
    + intros p. rewrite !mem_set.
      destruct (string_dec product p); [reflexivity | apply Hk].
Qed.

Lemma add_units_margins (supplier : Supplier.t) (us : list string) (g : t) (r : rng) :
  (forall p, 0 <= Supplier.get_price supplier p)%Q -> unit_tape r ->
  margins_ok g -> margins_ok (fst (fold_left (add_one_unit supplier) us (g, r))).
Proof.
  intros Hsup. revert g r. induction us as [|u us IH]; intros g r Hr Hg; [exact Hg|].
  cbn [fold_left].
  destruct (add_one_unit_margins supplier g r u Hsup Hr Hg) as [H1 H2].
  destruct (add_one_unit supplier (g, r) u) as [g1 r1]. now apply IH.
Qed.

Lemma margins_floored (g : t) (p : string) (c : Q) :
  Dict.get (costs g) p = Some c ->
  (floored g p <->
   exists pr, Dict.get (prices g) p = Some pr /\ (c * (105 # 100) <= pr)%Q).
Proof.
  intros Hc. unfold floored, price_floor, Dict.get_or. now rewrite Hc.
Qed.

Lemma margins_trading (g : t) : trading fuzzy_discount g -> margins_ok g.
Proof.
  induction 1 as [g H1 H2 H3 | g supplier quantity r out _ IH Hsup Hr H | g _ IH
                 | g np ret g' np' _ IH H | g _ IH].
  - split.
    + intros p c. rewrite H2. discriminate.
    + intros p. rewrite H3. discriminate.
  - unfold add_stock in H.
    destruct (Supplier.supply_products quantity supplier) as [so|e] eqn:Eso; [|discriminate].
    cbn [bind] in H.
    assert (Hsup' : (forall p, 0 <= Supplier.get_price (Supplier.after so) p)%Q).
    { intros p. unfold Supplier.supply_products in Eso.
      destruct (_ <? quantity); [injection Eso as <-; apply Hsup|].
      destruct (Supplier.pop_many _ _) as [[xs ps]|]; [|discriminate].
      cbn [bind] in Eso. injection Eso as <-. apply Hsup. }
    pose proof (add_units_margins (Supplier.after so) (Supplier.units so) g r
                  Hsup' Hr IH) as Hf.
    destruct (fold_left _ _ (g, r)) as [g1 r1]. injection H as <-. exact Hf.
  - destruct IH as [Hm Hk].
    destruct (DiscountFacts.fold_discount_frame fuzzy_discount (stock g) g)
      as (_ & Hc & _).
    unfold apply_discounts. split.
    + intros p c. rewrite Hc. intros Hp. destruct (Hm p c Hp) as [H0 Hfl].
      split; [exact H0|].
      apply (margins_floored _ p c); [now rewrite Hc|].
      apply DiscountFacts.fold_keeps_floored. now apply (margins_floored g p c).
    + intros p. rewrite Hc, fold_discount_priced. apply Hk.
  - unfold sell_one_product in H. destruct (available g) as [|p0 rest] eqn:Ha.
    + now injection H as _ <- _.
    + rewrite <- Ha in H.
      destruct (np_choice (available g) (sale_weights g) np) as [[product np1]|e];
        [|discriminate].
      cbn [bind] in H. injection H as _ <- _. exact IH.
  - exact IH.
Qed.

(** A store that opens empty and is driven by [add_stock], [apply_discounts],
    [sell_one_product] and [reset_sales_counters] alone, buying at
    non-negative costs with markups from unit draws, keeps every product of
    known cost priced at or above 1.05 times its cost, in stock or sold out,
    before and after every discount. *)
Theorem trading_keeps_margin (g : t) (p : string) (c : Q) :
  trading fuzzy_discount g -> Dict.get (costs g) p = Some c ->
  (0 <= c)%Q /\
  exists pr, Dict.get (prices g) p = Some pr /\ (c * (105 # 100) <= pr)%Q.
Proof.
  intros H Hc. exact (proj1 (margins_trading g H) p c Hc).
Qed.

(** *** One product through a discount round *)

Lemma discount_one_other_sales (g : t) (item : string * Z) :
  sales_count (discount_one fuzzy_discount g item) = sales_count g /\
  costs (discount_one fuzzy_discount g item) = costs g.
Proof.
  destruct (DiscountFacts.discount_one_frame fuzzy_discount g item) as (_ & H1 & H2 & _).
  auto.
Qed.

Lemma fold_discount_exact (items : list (string * Z)) (g : t) (p : string)
    (q : Z) (pr : Q) :
  NoDup (map fst items) -> In (p, q) items -> 0 < q ->
  Dict.get (prices g) p = Some pr ->
  Dict.get (prices (fold_left (discount_one fuzzy_discount) items g)) p =
  Some (fmax (pr * (1 - fuzzy_discount (Z.max 0 (Z.min 100 q))
                         (Z.max 0 (Z.min 100 (sales_of g p))) / 100))
          (price_floor g p))%Q.
Proof.
  revert g. induction items as [|[product stock_units] items IH];
    intros g Hnd Hin Hq Hpr; [destruct Hin|].
  cbn [fold_left]. cbn [map fst] in Hnd. inversion Hnd as [|? ? Hnotin Hnd']; subst.
  destruct Hin as [[= -> ->]|Hin].
  - rewrite DiscountFacts.fold_skips.
    + unfold discount_one.
      replace (q <=? 0) with false by (symmetry; apply Z.leb_gt; lia).
      unfold Dict.mem. rewrite Hpr. cbn [orb negb].
      cbn [_compute_discount prices set_prices set_sim_input].
      rewrite DictFacts.get_set_same. unfold sales_of, price_floor, Dict.get_or.
      cbn [costs prices sales_count set_prices set_sim_input]. rewrite Hpr.
      reflexivity.
    + intros q' Hq'. exfalso. apply Hnotin.
      change p with (fst (p, q')). now apply in_map.
  - assert (Hne : product <> p).
    { intros ->. apply Hnotin. change p with (fst (p, q)). now apply in_map. }
    rewrite (IH (discount_one fuzzy_discount g (product, stock_units)) Hnd' Hin Hq).
    + destruct (DiscountFacts.discount_one_frame fuzzy_discount g (product, stock_units))
        as (_ & Hc & Hs & _).
      unfold sales_of, price_floor. now rewrite Hc, Hs.
    + now rewrite DiscountFacts.discount_one_other.
Qed.

(** The price that [apply_discounts] gives a product that is in stock and
    priced: its old price less the discount that the engine answers for its
    stock and its sales, both capped to 0..100, or the floor
    [costs.get(p, 0.0) * 1.05] when that is higher. *)
Theorem apply_discounts_price (g : t) (p : string) (q : Z) (pr : Q) :
  Dict.wf (stock g) ->
  Dict.get (stock g) p = Some q -> 0 < q -> Dict.get (prices g) p = Some pr ->
  Dict.get (prices (apply_discounts fuzzy_discount g)) p =
  Some (fmax (pr * (1 - fuzzy_discount (Z.min 100 q)
                         (Z.max 0 (Z.min 100 (sales_of g p))) / 100))
          (Dict.get_or (costs g) p 0 * (105 # 100)))%Q.
Proof.
  intros Hwf Hget Hq Hpr. unfold apply_discounts.
  rewrite (fold_discount_exact (stock g) g p q pr Hwf
             (DictFacts.get_in _ _ _ Hget) Hq Hpr).
  replace (Z.max 0 (Z.min 100 q)) with (Z.min 100 q) by lia. reflexivity.
Qed.

Lemma discount_one_ext (fz' : Z -> Z -> Q) (g : t) (item : string * Z) :
  (forall s v, 0 <= s <= 100 -> 0 <= v <= 100 -> fuzzy_discount s v = fz' s v) ->
  discount_one fuzzy_discount g item = discount_one fz' g item.
Proof.
  intros H. destruct item as [product stock_units]. unfold discount_one.
  destruct (_ || _); [reflexivity|]. unfold _compute_discount.
  rewrite H by lia. reflexivity.
Qed.

(** [apply_discounts] asks the engine only about stock and sales levels
    between 0 and 100: two engines that agree there leave the same store. *)
Theorem apply_discounts_capped_inputs (fz' : Z -> Z -> Q) (g : t) :
  (forall s v, 0 <= s <= 100 -> 0 <= v <= 100 -> fuzzy_discount s v = fz' s v) ->
  apply_discounts fuzzy_discount g = apply_discounts fz' g.
Proof.
  intros H. unfold apply_discounts. generalize (stock g) as items.
  intros items. revert g. induction items as [|item items IH]; intros g; [reflexivity|].
  cbn [fold_left]. rewrite (discount_one_ext fz' g item H). apply IH.
Qed.

(** *** Discounts lower prices *)

(** The price of [p] is between its floor and [pr]. *)
Lemma discount_one_lowers (g : t) (item : string * Z) (p : string) (pr : Q) :
  (forall s v, 0 <= fuzzy_discount s v)%Q ->
  (0 <= Dict.get_or (costs g) p 0)%Q ->
  (exists pr', Dict.get (prices g) p = Some pr' /\
               (price_floor g p <= pr' /\ pr' <= pr)%Q) ->
  exists pr', Dict.get (prices (discount_one fuzzy_discount g item)) p = Some pr' /\
              (price_floor g p <= pr' /\ pr' <= pr)%Q.
Proof.
  intros Hd Hc (pr0 & Hget & Hlo & Hhi). destruct item as [product stock_units].
  destruct (string_dec product p) as [->|Hne].
  - unfold discount_one. destruct (_ || _); [now exists pr0|].
    cbn [_compute_discount prices set_prices set_sim_input].
    rewrite DictFacts.get_set_same. eexists. split; [reflexivity|].
    assert (E : Dict.get_or (prices g) p 0%Q = pr0)
      by (unfold Dict.get_or; now rewrite Hget).
    rewrite E.
    unfold price_floor in *. cbn [costs set_prices set_sim_input] in *.
    set (fl := (Dict.get_or (costs g) p 0 * (105 # 100))%Q) in *.
    set (d := fuzzy_discount _ _).
    assert (Hfl : (0 <= fl)%Q) by (unfold fl; lra).
    assert (Hle : (pr0 * (1 - d / 100) <= pr0)%Q).
    { apply DiscountFacts.discounted_below; [lra | apply Hd]. }
    unfold fmax. destruct (Qlt_le_dec _ fl); split; lra.
  - exists pr0. rewrite DiscountFacts.discount_one_other by assumption. auto.
Qed.

Lemma fold_discount_lowers (items : list (string * Z)) (g : t) (p : string) (pr : Q) :
  (forall s v, 0 <= fuzzy_discount s v)%Q ->
  (0 <= Dict.get_or (costs g) p 0)%Q ->
  (exists pr', Dict.get (prices g) p = Some pr' /\
               (price_floor g p <= pr' /\ pr' <= pr)%Q) ->
  exists pr', Dict.get (prices (fold_left (discount_one fuzzy_discount) items g)) p
              = Some pr' /\
              (price_floor g p <= pr' /\ pr' <= pr)%Q.
Proof.
  intros Hd. revert g. induction items as [|item items IH]; intros g Hc H; [exact H|].
  cbn [fold_left].
  pose proof (DiscountFacts.discount_one_frame fuzzy_discount g item) as Hfr.
  pose proof (DiscountFacts.price_floor_frame _ _ p Hfr) as Hfl.
  destruct Hfr as (_ & Hcosts & _).
  rewrite <- Hfl. apply IH.
  - now rewrite Hcosts.
  - rewrite Hfl. now apply discount_one_lowers.
Qed.

(** With an engine that answers no negative discount, [apply_discounts]
    never raises the price of a product that is priced at or above its
    floor: the new price lies between the floor and the old price. *)
Theorem apply_discounts_lowers (g : t) (p : string) (pr : Q) :
  (forall s v, 0 <= fuzzy_discount s v)%Q ->
  (0 <= Dict.get_or (costs g) p 0)%Q ->
  Dict.get (prices g) p = Some pr ->
  (Dict.get_or (costs g) p 0 * (105 # 100) <= pr)%Q ->
  exists pr',
    Dict.get (prices (apply_discounts fuzzy_discount g)) p = Some pr' /\
    (Dict.get_or (costs g) p 0 * (105 # 100) <= pr' /\ pr' <= pr)%Q.
Proof.
  intros Hd Hc Hget Hfl.
  apply (fold_discount_lowers (stock g) g p pr Hd Hc).
  exists pr. split; [exact Hget|]. unfold price_floor. lra.
Qed.

End Engine.

End StoreInvariants.

(** ** More on sales *)

Module SaleMore.
Import Grocery SaleFacts.

(** A product on offer whose share of the total demand weight is negative
    makes [sell_one_product] raise the [ValueError] of the weighted choice,
    whatever the draw; nothing is sold. *)
Theorem sell_rejects_negative_share (g : t) (np : rng) (p : string) :
  In p (available g) -> (weight_of g p / total_demand g < 0)%Q ->
  sell_one_product g np = Raise ValueError_probabilities.
Proof.
  intros Hin Hneg. unfold sell_one_product.
  destruct (available g) as [|p0 rest] eqn:Ha; [destruct Hin|]. rewrite <- Ha in *.
  unfold np_choice, sale_weights. fold (weight_of g). unfold total_demand in Hneg.
  set (raw := map (weight_of g) (available g)) in *.
  replace (Qeq_bool (Qsum raw) 0) with false.
  2:{ symmetry. apply not_true_is_false. intros H. apply Qeq_bool_eq in H.
      rewrite H in Hneg. unfold Qdiv in Hneg.
      setoid_replace (weight_of g p * / 0)%Q with 0%Q in Hneg by (cbn; ring). lra. }
  replace (existsb _ _) with true; [reflexivity|].
  symmetry. apply existsb_exists. exists (weight_of g p / Qsum raw)%Q. split.
  - apply in_map_iff. exists (weight_of g p). split; [reflexivity|].
    unfold raw. now apply in_map.
  - destruct (Qlt_le_dec _ 0); [reflexivity | lra].
Qed.

(** *** Products that can be sold *)

Lemma prefix_sum_bound (p : list Q) (i : nat) (x : Q) :
  (forall y, In y p -> 0 <= y)%Q -> nth_error p i = Some x ->
  (0 <= Qsum (firstn i p) /\ Qsum (firstn i p) + x <= Qsum p)%Q.
Proof.
  revert i. induction p as [|y p IH]; intros i Hp Hn; [destruct i; discriminate|].
  destruct i as [|i].
  - cbn in Hn. injection Hn as ->. cbn [firstn]. rewrite Qsum_cons.
    assert (0 <= Qsum p)%Q by (apply Qsum_nonneg; intros z Hz; apply Hp; now right).
    unfold Qsum at 1 2. cbn. lra.
  - cbn [firstn]. rewrite !Qsum_cons.
    assert (0 <= y)%Q by (apply Hp; now left).
    destruct (IH i) as [H1 H2]; [intros z Hz; apply Hp; now right | exact Hn|].
    lra.
Qed.

(** The search stops at position [i] when the draw is the cumulative
    probability of the positions before [i] and position [i] has a positive
    probability. *)
Lemma searchsorted_right_hits (p : list Q) (acc L u x : Q) (i : nat) :
  (0 < L)%Q -> (forall y, In y p -> 0 <= y)%Q ->
  nth_error p i = Some x -> (0 < x)%Q ->
  (u == (acc + Qsum (firstn i p)) / L)%Q ->
  searchsorted_right (map (fun c => (c / L)%Q) (cumsum_from acc p)) u = i.
Proof.
  intros HL. assert (Hk : (0 < / L)%Q) by now apply Qinv_lt_0_compat.
  unfold Qdiv. set (k := (/ L)%Q) in *.
  revert acc i. induction p as [|y p IH]; intros acc i Hp Hn Hx Hu;
    [destruct i; discriminate|].
  cbn [cumsum_from map searchsorted_right].
  destruct i as [|i].
  - cbn in Hn. injection Hn as ->. cbn [firstn] in Hu.
    assert (0 < x * k)%Q by now apply Qmult_lt_0_compat.
    assert (E : ((acc + x) * k == acc * k + x * k)%Q) by ring.
    assert (E' : ((acc + Qsum []) * k == acc * k)%Q) by (unfold Qsum; cbn; ring).
    destruct (Qlt_le_dec u ((acc + x) * k)); [reflexivity | lra].
  - cbn [firstn] in Hu. cbn [nth_error] in Hn.
    assert (Hy : (0 <= y)%Q) by (apply Hp; now left).
    assert (Hp' : (forall z, In z p -> 0 <= z)%Q) by (intros z Hz; apply Hp; now right).
    destruct (prefix_sum_bound p i x Hp' Hn) as [Hs _].
    assert (0 <= Qsum (firstn i p) * k)%Q by (apply Qmult_le_0_compat; lra).
    assert (E : ((acc + Qsum (y :: firstn i p)) * k ==
                 (acc + y) * k + Qsum (firstn i p) * k)%Q)
      by (rewrite Qsum_cons; ring).
    destruct (Qlt_le_dec u ((acc + y) * k)); [lra|].
    f_equal. apply IH; auto. rewrite Hu, Qsum_cons. ring.
Qed.

(** With a demand table without negative weights, every product on offer
    whose weight is positive can be the one sold: some draw in [0, 1) makes
    [sell_one_product] return it.  When all the weights on offer are 0 the
    choice falls back to equal chances, and then every product on offer can
    be sold. *)
Theorem positive_weight_can_sell (g : t) (p : string) :
  weights_nonneg g -> In p (available g) ->
  (0 < weight_of g p \/ total_demand g == 0)%Q ->
  exists u, (0 <= u /\ u < 1)%Q /\
    forall np, rng_tape np (rng_pos np) = u ->
      exists g' np', sell_one_product g np = Ok (Some p, g', np').
Proof.
  intros Hw Hin Hpos.
  assert (Hne : available g <> []) by (intros E; rewrite E in Hin; destruct Hin).
  destruct (sale_weights_valid g Hne Hw) as (Hlen & Hnonneg & Hsum).
  destruct (In_nth_error _ _ Hin) as [i Hi].
  set (probs := sale_weights g) in *.
  assert (Hx : exists x, nth_error probs i = Some x /\ (0 < x)%Q).
  { unfold probs, sale_weights. fold (weight_of g). unfold total_demand in Hpos.
    set (raw := map (weight_of g) (available g)) in *.
    assert (Hraw : (forall w, In w raw -> 0 <= w)%Q).
    { intros w Hin'. apply in_map_iff in Hin'. destruct Hin' as (q & <- & _).
      now apply weight_of_nonneg. }
    destruct (Qeq_bool (Qsum raw) 0) eqn:E.
    - eexists. split.
      + exact (map_nth_error (fun w => (w / _)%Q) _ _
                 (map_nth_error (fun _ => 1%Q) _ _ Hi)).
      + apply Qlt_shift_div_l; [|lra].
        rewrite Qsum_ones. destruct (available g) as [|q l]; [congruence|].
        rewrite <- (Zlt_Qlt 0). cbn [List.length]. lia.
    - apply Qeq_bool_neq in E. destruct Hpos as [Hpos|Hpos]; [|contradiction].
      pose proof (Qsum_nonneg raw Hraw).
      eexists. split.
      + exact (map_nth_error (fun w => (w / Qsum raw)%Q) _ _
                 (map_nth_error (weight_of g) _ _ Hi)).
      + apply Qlt_shift_div_l; lra. }
  destruct Hx as (x & Hnx & Hxpos).
  destruct (prefix_sum_bound probs i x Hnonneg Hnx) as [Hs0 Hs1].
  assert (Hp : probs <> []) by (intros E; rewrite E in Hnx; destruct i; discriminate).
  set (L := last (cumsum probs) 0%Q).
  assert (HL : (L == 1)%Q).
  { unfold L, cumsum. rewrite cumsum_from_last by assumption. lra. }
  exists ((0 + Qsum (firstn i probs)) / L)%Q. split.
  - rewrite HL. unfold Qdiv. setoid_replace (/ 1)%Q with 1%Q by reflexivity. split; lra.
  - intros np Hu. unfold sell_one_product.
    destruct (available g) as [|p0 rest] eqn:Ha; [congruence|]. rewrite <- Ha in *.
    unfold np_choice. fold probs.
    replace (existsb _ probs) with false.
    2:{ symmetry. apply not_true_is_false. intros H.
        apply existsb_exists in H. destruct H as (y & Hy & Hneg).
        destruct (Qlt_le_dec y 0); [|discriminate].
        specialize (Hnonneg y Hy). lra. }
    replace (Qeq_bool (Qsum probs) 1) with true by (symmetry; now apply Qeq_bool_iff).
    cbn [negb random_unit]. rewrite Hu. fold L.
    rewrite (searchsorted_right_hits probs 0 L _ x i); try assumption.
    + rewrite Hi. cbn [bind]. eexists. eexists. reflexivity.
    + rewrite HL. reflexivity.
    + reflexivity.
Qed.

End SaleMore.

(** ** More on the run: restocking and the initial load *)

Module RestockMore.
Import Simulation.

(** A supplier that produces [a] units and is then asked by the store for
    [b] of them, [b] no more than what it produced, is never short. *)
Lemma produce_then_buy (a b : Z) (s : Supplier.t) (g : Grocery.t) (r : rng) :
  0 <= b -> b <= Z.max 0 a ->
  exists out,
    Grocery.add_stock (fst (Supplier.add_products (Some a) s r)) b g
      (snd (Supplier.add_products (Some a) s r)) = Ok out /\
    Grocery.printed out = None /\
    Z.of_nat (List.length (Supplier.products (Grocery.supplier_after out))) =
      Z.of_nat (List.length (Supplier.products s)) + Z.max 0 a - b /\
    Supplier.id (Grocery.supplier_after out) = Supplier.id s /\
    Grocery.total_stock (Grocery.store out) = Grocery.total_stock g + b.
Proof.
  intros Hb Hba. unfold Supplier.add_products.
  destruct (SupplierMore.add_products_loop_types (Z.to_nat a) s r)
    as (added & Ha & Hlen & _ & Hid).
  destruct (Supplier.add_products_loop (Z.to_nat a) s r) as [s1 r1]. cbn [fst snd] in *.
  assert (Hl : List.length (Supplier.products s1) =
               (List.length (Supplier.products s) + Z.to_nat a)%nat).
  { rewrite Ha, length_app. lia. }
  unfold Grocery.add_stock, Supplier.supply_products.
  replace (Z.of_nat (List.length (Supplier.products s1)) <? b) with false
    by (symmetry; apply Z.ltb_ge; lia).
  destruct (SupplierMore.pop_many_split (Z.to_nat b) (Supplier.products s1))
    as (xs & rest & -> & Hps & Hxs); [lia|].
  cbn [bind Supplier.units Supplier.after].
  destruct (StoreMore.add_units_effect (Supplier.set_products s1 rest) xs g r1)
    as (_ & Ht & _).
  destruct (fold_left _ _ (g, r1)) as [g' r']. cbn [fst] in Ht.
  eexists. split; [reflexivity|]. cbn.
  split; [reflexivity|].
  apply (f_equal (@List.length string)) in Hps.
  rewrite length_app, length_rev in Hps.
  repeat split; first [lia | exact Hid].
Qed.

Lemma restock_loop_effect (units_per_supplier : Z) (sups : list Supplier.t)
    (g : Grocery.t) (r : rng) :
  exists sups' g' r',
    restock_loop units_per_supplier sups g r = Ok (sups', g', r') /\
    Forall2 (fun s s' =>
               Supplier.id s' = Supplier.id s /\
               Z.of_nat (List.length (Supplier.products s')) =
                 Z.of_nat (List.length (Supplier.products s)) +
                 Z.max 0 units_per_supplier - Z.max 0 (units_per_supplier / 2))
      sups sups' /\
    Grocery.total_stock g' =
      Grocery.total_stock g +
      Z.of_nat (List.length sups) * Z.max 0 (units_per_supplier / 2).
Proof.
  revert g r. induction sups as [|s sups IH]; intros g r.
  - exists [], g, r. cbn. split; [reflexivity|]. split; [constructor | lia].
  - cbn [restock_loop].
    destruct (produce_then_buy units_per_supplier (Z.max 0 (units_per_supplier / 2)) s g r)
      as (out & Hout & _ & Hlen & Hid & Htot).
    { lia. }
    { assert (units_per_supplier / 2 <= units_per_supplier \/ units_per_supplier < 0)
        by (destruct (Z_lt_le_dec units_per_supplier 0);
            [now right | left; apply Z.div_le_upper_bound; lia]).
      assert (units_per_supplier < 0 -> units_per_supplier / 2 < 0)
        by (intros; apply Z.div_lt_upper_bound; lia).
      lia. }
    destruct (Supplier.add_products (Some units_per_supplier) s r) as [s1 r1].
    cbn [fst snd] in Hout. rewrite Hout. cbn [bind].
    destruct (IH (Grocery.store out) (Grocery.random_after out))
      as (sups' & g' & r' & -> & Hall & Htot').
    cbn [bind]. eexists _, g', r'. split; [reflexivity|]. split.
    + constructor; [split; assumption | exact Hall].
    + rewrite Htot', Htot. cbn [List.length]. lia.
Qed.

(** Restocking never fails and never finds a supplier short: each supplier
    produces [units_per_supplier] units and the store buys half of them
    (rounded down), so that each inventory grows by the other half and the
    total stock of the store by the bought halves; the exception handler of
    [_restock_all_suppliers] has nothing to catch. *)
Theorem restock_always_supplied (units_per_supplier : Z) (s : t) :
  exists s',
    _restock_all_suppliers units_per_supplier s = Ok s' /\
    Forall2 (fun sup sup' =>
               Supplier.id sup' = Supplier.id sup /\
               Z.of_nat (List.length (Supplier.products sup')) =
                 Z.of_nat (List.length (Supplier.products sup)) +
                 Z.max 0 units_per_supplier - Z.max 0 (units_per_supplier / 2))
      (suppliers s) (suppliers s') /\
    Grocery.total_stock (grocery s') =
      Grocery.total_stock (grocery s) +
      Z.of_nat (List.length (suppliers s)) * Z.max 0 (units_per_supplier / 2) /\
    daily_balances s' = daily_balances s /\ queue s' = queue s /\ now s' = now s.
Proof.
  unfold _restock_all_suppliers.
  destruct (restock_loop_effect units_per_supplier (suppliers s) (grocery s) (py_random s))
    as (sups' & g' & r' & -> & Hall & Htot).
  cbn [bind]. eexists. split; [reflexivity|]. cbn. auto.
Qed.

(** *** The initial load *)

Lemma load_initial_effect (sups : list Supplier.t) (xs : list Q)
    (g : Grocery.t) (r : rng) :
  ((List.length xs < List.length sups)%nat ->
     load_initial sups xs g r = Raise IndexError) /\
  ((List.length sups <= List.length xs)%nat ->
     exists sups' g' r',
       load_initial sups xs g r = Ok (sups', g', r') /\
       Forall2 (fun s s' =>
                  Supplier.id s' = Supplier.id s /\
                  List.length (Supplier.products s') = List.length (Supplier.products s))
         sups sups' /\
       Grocery.total_stock g' =
         Grocery.total_stock g + loaded_units (List.length sups) xs).
Proof.
  revert xs g r. induction sups as [|s sups IH]; intros xs g r.
  - split; [cbn; lia|]. intros _. exists [], g, r. cbn.
    split; [reflexivity|]. split; [constructor | lia].
  - destruct xs as [|x xs]; [split; [reflexivity | cbn; lia]|].
    cbn [load_initial List.length loaded_units].
    set (qty := Z.max 0 (int_of_float x)).
    destruct (produce_then_buy qty qty s g r) as (out & Hout & _ & Hlen & Hid & Htot);
      [lia | lia |].
    destruct (Supplier.add_products (Some qty) s r) as [s1 r1].
    cbn [fst snd] in Hout. rewrite Hout. cbn [bind].
    destruct (IH xs (Grocery.store out) (Grocery.random_after out)) as [Hshort Hlong].
    split.
    + intros H. rewrite Hshort by lia. reflexivity.
    + intros H. destruct Hlong as (sups' & g' & r' & -> & Hall & Htot'); [lia|].
      cbn [bind]. eexists _, g', r'. split; [reflexivity|]. split.
      * constructor; [split; [exact Hid | lia] | exact Hall].
      * rewrite Htot', Htot. lia.
Qed.

(** Loading the initial stock into fresh suppliers and the store: with a
    value for every supplier, supplier [i] produces
    [max(0, int(stock_per_supplier[i]))] units and the store buys them all,
    so that every supplier is left with an empty inventory and the store
    holds that many units more; with fewer values than suppliers the loop
    ends in an [IndexError]. *)
Theorem initial_load_moves_everything (n : nat) (xs : list Q) (g : Grocery.t) (r : rng) :
  let fresh := map (fun i => Supplier.init (Z.of_nat i)) (seq 0 n) in
  ((List.length xs < n)%nat -> load_initial fresh xs g r = Raise IndexError) /\
  ((n <= List.length xs)%nat ->
     exists sups' g' r',
       load_initial fresh xs g r = Ok (sups', g', r') /\
       map Supplier.id sups' = map Z.of_nat (seq 0 n) /\
       Forall (fun s => Supplier.products s = []) sups' /\
       Grocery.total_stock g' = Grocery.total_stock g + loaded_units n xs).
Proof.
  cbn zeta. set (fresh := map _ (seq 0 n)).
  assert (Hn : List.length fresh = n) by (unfold fresh; now rewrite length_map, length_seq).
  destruct (load_initial_effect fresh xs g r) as [Hshort Hlong]. rewrite Hn in *.
  split; [exact Hshort|].
  intros H. destruct (Hlong H) as (sups' & g' & r' & Hl & Hall & Htot).
  exists sups', g', r'. split; [exact Hl|]. split; [|split; [|exact Htot]].
  - transitivity (map Supplier.id fresh); [|unfold fresh; now rewrite map_map].
    clear -Hall. induction Hall as [|s s' l l' [Hid _] _ IH]; [reflexivity|].
    cbn. now rewrite Hid, IH.
  - assert (Hf : Forall (fun s => Supplier.products s = []) fresh).
    { unfold fresh. apply Forall_forall. intros s Hs. apply in_map_iff in Hs.
      now destruct Hs as (i & <- & _). }
    clear -Hall Hf. induction Hall as [|s s' l l' [_ Hlen] _ IH]; [constructor|].
    inversion Hf as [|? ? Hs Hf']; subst. constructor; [|now apply IH].
    rewrite Hs in Hlen. now destruct (Supplier.products s').
Qed.

(** [fitness_function] given fewer than five values raises the [IndexError]
    of [stock_per_supplier[i]] before any simulation is run. *)
Theorem fitness_function_short_vector (fuzzy_discount : Z -> Z -> Q)
    (Random : Z -> nat -> Q) (fuel : nat) (xs : list Q) (py np : rng) :
  (List.length xs < 5)%nat ->
  fitness_function fuzzy_discount Random fuel xs py np = Raise IndexError.
Proof.
  intros H. unfold fitness_function.
  destruct (load_initial_effect (map (fun i => Supplier.init (Z.of_nat i)) (seq 0 5))
              xs (Grocery.init 3) py) as [Hshort _].
  rewrite Hshort; [reflexivity | exact H].
Qed.

End RestockMore.

(** ** More on the ledger: what a day row can hold *)

Module TallyFacts.
Import Simulation.

Lemma round_half_even_integer (x : Q) (k : Z) :
  (x == inject_Z k)%Q -> round_half_even x = k.
Proof.
  intros Hx. destruct (LedgerFacts.round_half_even_close x) as [H1 H2].
  set (m := round_half_even x) in *.
  assert (Hlo : (inject_Z (-1) < inject_Z (m - k))%Q).
  { rewrite LedgerFacts.inject_Z_sub. change (inject_Z (-1)) with (-1 # 1)%Q. lra. }
  assert (Hhi : (inject_Z (m - k) < inject_Z 1)%Q).
  { rewrite LedgerFacts.inject_Z_sub. change (inject_Z 1) with (1 # 1)%Q. lra. }
  rewrite <- Zlt_Qlt in Hlo, Hhi. lia.
Qed.

Lemma round2_integer (x : Q) (k : Z) : (x == inject_Z k)%Q -> (round2 x == inject_Z k)%Q.
Proof.
  intros Hx. unfold round2.
  rewrite (round_half_even_integer (x * 100) (k * 100)).
  - rewrite inject_Z_mult. change (inject_Z 100) with 100%Q. field.
  - rewrite Hx, inject_Z_mult. reflexivity.
Qed.

Lemma fees_ok_round (sold : Z) (fees : Q) : fees_ok sold fees -> fees_ok sold (round2 fees).
Proof.
  intros (Hs & z & Hz & Hb). split; [exact Hs|]. exists z. split; [|exact Hb].
  now apply round2_integer.
Qed.

Lemma delivery_fee_whole (distance_km : Q) :
  exists f, (Grocery.calculate_delivery_cost distance_km == inject_Z f)%Q /\ 5 <= f <= 20.
Proof.
  unfold Grocery.calculate_delivery_cost.
  destruct (Qlt_le_dec distance_km 10); [exists 5; split; [reflexivity | lia]|].
  destruct (Qlt_le_dec distance_km 20); [exists 10; split; [reflexivity | lia]|].
  destruct (Qlt_le_dec distance_km 30);
    [exists 15; split; [reflexivity | lia] | exists 20; split; [reflexivity | lia]].
Qed.

(** *** The ledger, the processes and the seeded generator through a step *)

Lemma trigger_put_books_rng (s : t) : books_rng (trigger_put s) = books_rng s.
Proof.
  unfold trigger_put. destruct (Resource.put_queue _) as [|[rid owner] rest]; auto.
  now destruct (_ <? _)%nat.
Qed.

Lemma request_books_rng (pid : nat) (s : t) : books_rng (snd (request pid s)) = books_rng s.
Proof. unfold request. cbn [snd]. now rewrite trigger_put_books_rng. Qed.

Lemma finish_books_rng (pid : nat) (s : t) : books_rng (finish pid s) = books_rng s.
Proof. unfold finish. now destruct (nth_error _ _). Qed.

Lemma timeout_books_rng (delay : Q) (pid : nat) (s s' : t) :
  timeout delay pid s = Ok s' -> books_rng s' = books_rng s.
Proof. unfold timeout. destruct (Qlt_le_dec delay 0); [discriminate|]. now intros [= <-]. Qed.

Lemma restock_books_rng (units_per_supplier : Z) (s s' : t) :
  _restock_all_suppliers units_per_supplier s = Ok s' -> books_rng s' = books_rng s.
Proof.
  unfold _restock_all_suppliers.
  destruct (restock_loop _ _ _ _) as [[[sups g] r]|e]; [|discriminate].
  now intros [= <-].
Qed.

Section Run.

Variable fuzzy_discount : Z -> Z -> Q.
Variable tape : nat -> Q.
Variable n : Z.

Lemma tally_ok_same (s s' : t) :
  books_rng s' = books_rng s -> tally_ok tape n s -> tally_ok tape n s'.
Proof. unfold books_rng, tally_ok. intros [= -> -> ->]. auto. Qed.

Lemma set_gen_tally (pid : nat) (g : generator) (s : t) :
  gen_tally (unit_draws tape) n g -> tally_ok tape n s -> tally_ok tape n (set_gen pid g s).
Proof.
  intros Hg (Hr & Hl & Hp). split; [exact Hr|]. split; [exact Hl|].
  cbn. clear -Hg Hp. revert pid. induction Hp as [|p ps Hp Hps IH]; intros pid.
  - destruct pid; constructor.
  - destruct pid; cbn [update_gen]; constructor; auto.
Qed.

Lemma nth_gen_tally (s : t) (pid : nat) (p : process) :
  tally_ok tape n s -> nth_error (procs s) pid = Some p -> gen_tally (unit_draws tape) n (gen p).
Proof.
  intros (_ & _ & H) Hn. rewrite Forall_forall in H. apply H. eapply nth_error_In; eauto.
Qed.

Lemma customers_loop_tally (pid : nat) (d : Z) (loc : customers_locals) (s : t) :
  fees_ok (c_sold loc) (c_delivery loc) ->
  (unit_draws tape -> c_sold loc + Z.of_nat (c_left loc) <= 20) ->
  tally_ok tape n s -> tally_ok tape n (customers_loop pid d loc s).
Proof.
  intros Hf Hc Hs. unfold customers_loop. destruct (c_left loc) as [|k] eqn:E.
  - eapply tally_ok_same; [apply finish_books_rng|].
    apply set_gen_tally; [|exact Hs]. split; [exact Hf|].
    intros U. specialize (Hc U). cbn. lia.
  - pose proof (request_books_rng pid s) as Hr.
    destruct (request pid s) as [rid s1]. cbn [snd] in Hr.
    apply set_gen_tally; [|eapply tally_ok_same; eauto].
    split; [exact Hf|]. intros U. specialize (Hc U). cbn. lia.
Qed.

Lemma serve_customer_tally (loc loc' : customers_locals) (s s' : t) :
  serve_customer loc s = Ok (loc', s') ->
  fees_ok (c_sold loc) (c_delivery loc) ->
  fees_ok (c_sold loc') (c_delivery loc') /\
  c_sold loc' <= c_sold loc + 1 /\ c_left loc' = c_left loc /\
  daily_balances s' = daily_balances s /\ procs s' = procs s /\
  rng_tape (rng_seeded s') = rng_tape (rng_seeded s).
Proof.
  unfold serve_customer.
  destruct (Grocery.sell_one_product _ _) as [[[sold g] np]|e]; [|discriminate].
  cbn [bind]. destruct (truthy sold).
  - destruct (uniform 1 35 _) as [distance r] eqn:E. intros [= <- <-] (Hs & z & Hz & Hb).
    cbn [c_sold c_delivery c_left].
    destruct (delivery_fee_whole distance) as (f & Hf & Hfb).
    split; [|split; [lia | split; [reflexivity|]]].
    + split; [lia|]. exists (z + f). split; [|lia].
      rewrite inject_Z_plus, Hz, Hf. reflexivity.
    + cbn. repeat split. apply (f_equal (fun x => rng_tape (snd x))) in E. exact (eq_sym E).
  - intros [= <- <-] Hf. split; [exact Hf|]. repeat split. lia.
Qed.

Lemma resume_tally (pid : nat) (s s' : t) :
  resume fuzzy_discount pid s = Ok s' -> tally_ok tape n s -> tally_ok tape n s'.
Proof.
  unfold resume. intros H Hs.
  destruct (nth_error (procs s) pid) as [p|] eqn:Hp; [|now injection H as <-].
  pose proof (nth_gen_tally s pid p Hs Hp) as Hg.
  destruct (gen p) as [d [|child| |]|d loc [|rid|rid|]].
  - destruct (_restock_all_suppliers 10 s) as [s1|e] eqn:E; [|discriminate].
    cbn [bind] in H. injection H as <-. apply restock_books_rng in E.
    apply set_gen_tally; [exact Hg|].
    assert (H1 : tally_ok tape n s1) by (eapply tally_ok_same; eauto).
    destruct H1 as (Hr & Hl & Hps). split; [exact Hr|]. split; [exact Hl|]. cbn.
    apply Forall_app. split; [exact Hps|]. constructor; [|constructor].
    cbn. split; [|reflexivity]. split; [lia|]. exists 0. split; [reflexivity | lia].
  - destruct (nth_error (procs s) child) as [[[|d' loc pc] ws]|] eqn:Hc;
      try (now injection H as <-).
    pose proof (nth_gen_tally s child _ Hs Hc) as [Hf Hcount]. 
    match type of H with
    | bind (timeout 1 pid ?s0) _ = _ =>
        destruct (timeout 1 pid s0) as [s2|e] eqn:E; [|discriminate];
        apply timeout_books_rng in E
    end.
    cbn [bind] in H. injection H as <-.
    apply set_gen_tally; [exact Hg|]. eapply tally_ok_same; [exact E|].
    destruct Hs as (Hr & Hl & Hps). split; [exact Hr|]. split; [|exact Hps]. cbn.
    apply Forall_app. split; [exact Hl|]. constructor; [|constructor].
    split; [exists d; split; [reflexivity | exact Hg]|].
    split; [now apply fees_ok_round|].
    intros U. specialize (Hcount U). cbn. destruct pc; cbn in Hcount; lia.
  - injection H as <-. eapply tally_ok_same; [apply finish_books_rng|].
    apply set_gen_tally; [exact Hg | exact Hs].
  - now injection H as <-.
  - destruct Hg as [Hf Hcount].
    pose proof (SupplierMore.randint_in_range 8 20 (rng_seeded s)) as Hrange.
    destruct (randint 8 20 (rng_seeded s)) as [k r] eqn:E. injection H as <-.
    apply customers_loop_tally.
    + exact Hf.
    + intros U. specialize (Hcount U). cbn in Hcount. cbn [c_sold c_left fst] in *.
      assert (8 <= k <= 20).
      { apply Hrange; [lia|]. destruct Hs as (Hr & _). unfold unit_draw. rewrite Hr.
        apply U. }
      lia.
    + destruct Hs as (Hr & Hl & Hps). split; [|split; assumption].
      cbn. rewrite <- Hr. apply (f_equal (fun x => rng_tape (snd x))) in E. exact (eq_sym E).
  - destruct Hg as [Hf Hcount].
    destruct (uniform (5 # 10) 2 (rng_seeded s)) as [service r] eqn:Eu.
    match type of H with
    | bind (timeout service pid ?s0) _ = _ =>
        destruct (timeout service pid s0) as [s1|e] eqn:E; [|discriminate];
        apply timeout_books_rng in E
    end.
    cbn [bind] in H. injection H as <-.
    apply set_gen_tally; [split; assumption|]. eapply tally_ok_same; [exact E|].
    destruct Hs as (Hr & Hl & Hps). split; [|split; assumption].
    cbn. rewrite <- Hr. apply (f_equal (fun x => rng_tape (snd x))) in Eu. exact (eq_sym Eu).
  - destruct Hg as [Hf Hcount].
    destruct (serve_customer loc s) as [[loc' s1]|e] eqn:E; [|discriminate].
    cbn [bind] in H. injection H as <-.
    destruct (serve_customer_tally _ _ _ _ E Hf) as (Hf' & Hsold & Hleft & Hl1 & Hp1 & Hr1).
    apply customers_loop_tally.
    + exact Hf'.
    + intros U. specialize (Hcount U). cbn in Hcount. lia.
    + destruct Hs as (Hr & Hl & Hps). split; [|split]; cbn.
      * now rewrite Hr1.
      * now rewrite Hl1.
      * now rewrite Hp1.
  - now injection H as <-.
Qed.

Lemma run_callbacks_tally (cbs : list callback) (s s' : t) :
  run_callbacks fuzzy_discount cbs s = Ok s' -> tally_ok tape n s -> tally_ok tape n s'.
Proof.
  revert s. induction cbs as [|cb cbs IH]; intros s H Hs; [now injection H as <-|].
  cbn [run_callbacks] in H.
  destruct (run_callback fuzzy_discount cb s) as [s1|e] eqn:E; [|discriminate].
  cbn [bind] in H. apply (IH s1 H).
  destruct cb as [pid| |]; cbn [run_callback] in E.
  - eapply resume_tally; eauto.
  - injection E as <-. eapply tally_ok_same; [apply trigger_put_books_rng | exact Hs].
  - now injection E as <-.
Qed.

Lemma env_run_tally (fuel : nat) (s s' : t) :
  env_run fuzzy_discount fuel s = Ok s' -> tally_ok tape n s -> tally_ok tape n s'.
Proof.
  revert s. induction fuel as [|fuel IH]; intros s H Hs; [now injection H as <-|].
  cbn [env_run] in H. destruct (step fuzzy_discount s) as [s1|e] eqn:E; [|discriminate].
  cbn [bind] in H. apply (IH s1 H). unfold step in E.
  destruct (heappop (queue s)) as [[ev rest]|]; [|now injection E as <-].
  eapply run_callbacks_tally; [exact E|].
  eapply tally_ok_same; [|exact Hs]. reflexivity.
Qed.

Lemma start_days_tally (k : nat) (d : Z) (s : t) :
  1 <= d -> Z.of_nat k + d - 1 <= n \/ k = O ->
  tally_ok tape n s -> tally_ok tape n (start_days k d s).
Proof.
  revert d s. induction k as [|k IH]; intros d s Hd Hk Hs; [exact Hs|].
  cbn [start_days]. apply IH; [lia | left; lia|].
  destruct Hs as (Hr & Hl & Hps). split; [exact Hr|]. split; [exact Hl|]. cbn.
  apply Forall_app. split; [exact Hps|]. constructor; [|constructor]. cbn. lia.
Qed.

End Run.

Section Ledger.

Variable fuzzy_discount : Z -> Z -> Q.
Variable Random : Z -> nat -> Q.

Lemma started_tally (sups : list Supplier.t) (g : Grocery.t) (n : Z) (py np : rng)
    (seed : Z) :
  tally_ok (Random seed) n (started Random seed (init sups g n py np)).
Proof.
  unfold started. cbn [days init]. apply start_days_tally; [lia | lia|].
  split; [reflexivity|]. split; constructor.
Qed.

(** Every row that a run has appended to the ledger is the row of a day
    between 1 and [days]; it counts no negative number of products sold, and
    its stored delivery cost is a whole number between 5 and 20 times that
    count. *)
Theorem day_rows_delivery (sups : list Supplier.t) (g : Grocery.t) (n : Z)
    (py np : rng) (seed : Z) (fuel : nat) (s' : t) :
  env_run fuzzy_discount fuel (started Random seed (init sups g n py np)) = Ok s' ->
  forall e, In e (daily_balances s') ->
    (exists d, day e = Day d /\ 1 <= d <= n) /\
    0 <= products_sold e /\
    exists z, (delivery_cost e == inject_Z z)%Q /\
              5 * products_sold e <= z <= 20 * products_sold e.
Proof.
  intros H e He.
  pose proof (env_run_tally _ _ _ _ _ _ H (started_tally sups g n py np seed))
    as (_ & Hl & _).
  rewrite Forall_forall in Hl. destruct (Hl e He) as (Hd & (Hs & Hz) & _). auto.
Qed.

(** When the seeded generator plays unit draws, no day row counts more than
    20 products sold: at most 20 customers come in a day and each buys at
    most one product. *)
Theorem day_rows_at_most_twenty (sups : list Supplier.t) (g : Grocery.t) (n : Z)
    (py np : rng) (seed : Z) (fuel : nat) (s' : t) :
  unit_draws (Random seed) ->
  env_run fuzzy_discount fuel (started Random seed (init sups g n py np)) = Ok s' ->
  forall e, In e (daily_balances s') -> 0 <= products_sold e <= 20.
Proof.
  intros U H e He.
  pose proof (env_run_tally _ _ _ _ _ _ H (started_tally sups g n py np seed))
    as (_ & Hl & _).
  rewrite Forall_forall in Hl. destruct (Hl e He) as (_ & (Hs & _) & H20).
  split; [exact Hs | exact (H20 U)].
Qed.

(** The ledger that a complete run of a fresh simulation returns is made of
    day rows, each of a day between 1 and [days], followed by one row
    labelled Total that is computed from them; no other row is labelled
    Total. *)
Theorem ledger_ends_with_total (sups : list Supplier.t) (g : Grocery.t) (n : Z)
    (py np : rng) (seed : Z) (fuel : nat) (s' : t) :
  run_simulation fuzzy_discount Random fuel seed (init sups g n py np) = Ok (Some s') ->
  exists rows,
    daily_balances s' = (rows ++ [total_entry rows])%list /\
    Forall (fun e => exists d, day e = Day d /\ 1 <= d <= n) rows /\
    day (total_entry rows) = Total /\
    queue s' = [].
Proof.
  unfold run_simulation. intros H.
  destruct (env_run _ _ _) as [s1|ex] eqn:E; [|discriminate].
  cbn [bind] in H. destruct (queue s1) eqn:Eq; [|discriminate].
  injection H as <-. exists (daily_balances s1). cbn.
  split; [reflexivity|]. split; [|split; [reflexivity | exact Eq]].
  pose proof (env_run_tally _ _ _ _ _ _ E (started_tally sups g n py np seed))
    as (_ & Hl & _).
  eapply Forall_impl; [|exact Hl]. intros e (Hd & _). exact Hd.
Qed.

End Ledger.

End TallyFacts.

(** ** More on the ledger: revenue covers the cost of goods *)

Module MarginFacts.
Import Simulation.

(** *** Rounding keeps the order *)

Lemma round_half_even_compat (x y : Q) :
  (x == y)%Q -> round_half_even x = round_half_even y.
Proof.
  intros H. unfold round_half_even. cbn zeta.
  rewrite (Qfloor_comp x y H).
  assert (E : (x - inject_Z (Qfloor y) ?= 1 # 2)%Q = (y - inject_Z (Qfloor y) ?= 1 # 2)%Q).
  { apply Qcompare_comp; [now rewrite H | reflexivity]. }
  now rewrite E.
Qed.

Lemma round_half_even_mono (x y : Q) :
  (x <= y)%Q -> round_half_even x <= round_half_even y.
Proof.
  intros H. destruct (Qlt_le_dec x y) as [Hlt|Hge].
  - destruct (LedgerFacts.round_half_even_close x) as [Hx _].
    destruct (LedgerFacts.round_half_even_close y) as [_ Hy].
    assert (Hq : (inject_Z (round_half_even x) < inject_Z (round_half_even y + 1))%Q).
    { rewrite inject_Z_plus. change (inject_Z 1) with 1%Q. lra. }
    rewrite <- Zlt_Qlt in Hq. lia.
  - rewrite (round_half_even_compat x y); [lia | lra].
Qed.

Lemma round2_mono (x y : Q) : (x <= y)%Q -> (round2 x <= round2 y)%Q.
Proof.
  intros H. unfold round2.
  assert (Hm : round_half_even (x * 100) <= round_half_even (y * 100))
    by (apply round_half_even_mono; lra).
  rewrite Zle_Qle in Hm. apply Qmult_le_compat_r; [exact Hm | discriminate].
Qed.

Lemma row_margin_day_entry (d : Z) (r c dl : Q) (sold : Z) :
  (0 <= c)%Q -> (c * (105 # 100) <= r)%Q -> row_margin (day_entry d r c dl sold).
Proof.
  intros Hc Hr. unfold row_margin, day_entry. cbn [cogs revenue]. split.
  - apply Qle_trans with (round2 0); [vm_compute; discriminate|].
    now apply round2_mono.
  - apply round2_mono. lra.
Qed.

(** *** Generators keep their tape *)

Lemma add_products_tape (quantity : option Z) (s : Supplier.t) (r : rng) :
  rng_tape (snd (Supplier.add_products quantity s r)) = rng_tape r.
Proof.
  unfold Supplier.add_products.
  assert (H : forall k s0 r0,
             rng_tape (snd (Supplier.add_products_loop k s0 r0)) = rng_tape r0).
  { induction k as [|k IH]; intros s0 r0; [reflexivity|].
    cbn [Supplier.add_products_loop].
    pose proof (SupplierMore.add_one_product_spec s0 r0) as E. cbn zeta in E.
    destruct (Supplier.add_one_product s0 r0) as [s1 r1]. rewrite IH.
    injection E as _ ->. reflexivity. }
  destruct quantity as [q|]; [apply H|].
  destruct (randint 1 10 r) as [q r1] eqn:E. rewrite H.
  apply (f_equal (fun x => rng_tape (snd x))) in E. exact (eq_sym E).
Qed.

Lemma add_units_tape (supplier : Supplier.t) (us : list string) (g : Grocery.t) (r : rng) :
  rng_tape (snd (fold_left (Grocery.add_one_unit supplier) us (g, r))) = rng_tape r.
Proof.
  revert g r. induction us as [|u us IH]; intros g r; [reflexivity|].
  cbn [fold_left].
  destruct (StoreMore.add_one_unit_effect supplier g r u) as (_ & _ & _ & Hp1 & Hp2 & _).
  destruct (Grocery.add_one_unit supplier (g, r) u) as [g1 r1]. rewrite IH.
  cbn [fst snd] in *.
  destruct (Dict.get (Grocery.prices g) u) as [pr|].
  - now rewrite (proj2 (Hp1 pr eq_refl)).
  - now rewrite (proj2 (Hp2 eq_refl)).
Qed.

(** *** Restocking keeps the margins *)

Lemma costs_nonneg_get_price (s : Supplier.t) :
  Supplier.costs_nonneg s -> forall p, (0 <= Supplier.get_price s p)%Q.
Proof.
  intros H p. unfold Supplier.get_price, Dict.get_or.
  destruct (Dict.get (Supplier.prices s) p) as [c|] eqn:E; [eapply H; eauto | lra].
Qed.

Lemma add_products_nonneg (quantity : option Z) (s : Supplier.t) (r : rng) :
  unit_tape r -> Supplier.costs_nonneg s ->
  Supplier.costs_nonneg (fst (Supplier.add_products quantity s r)).
Proof.
  intros Hr Hs. unfold Supplier.add_products.
  set (qr := match quantity with Some q => (q, r) | None => randint 1 10 r end).
  assert (Hr1 : unit_tape (snd qr)).
  { unfold qr. destruct quantity; [exact Hr|].
    apply (SupplierMore.unit_tape_same r); [reflexivity | exact Hr]. }
  destruct qr as [q r1]. cbn [snd] in Hr1.
  generalize (Z.to_nat q) as k. intros k. revert s r1 Hs Hr1.
  induction k as [|k IH]; intros s r1 Hs Hr1; [exact Hs|].
  cbn [Supplier.add_products_loop].
  pose proof (SupplierMore.add_one_product_spec s r1) as E. cbn zeta in E.
  destruct (Supplier.add_one_product s r1) as [s1 r2]. injection E as -> ->.
  apply IH.
  - intros p c. cbn [Supplier.prices].
    set (p0 := fst (choice Supplier.product_types_hd Supplier.product_types_tl r1)).
    set (c0 := fst (uniform 1 5
                      (snd (choice Supplier.product_types_hd
                              Supplier.product_types_tl r1)))).
    destruct (SupplierMore.uniform_in_range 1 5
                (snd (choice Supplier.product_types_hd Supplier.product_types_tl r1)))
      as [Hc _]; [lra | apply (SupplierMore.unit_tape_same r1); [reflexivity | exact Hr1]|].
    fold c0 in Hc.
    destruct (string_dec p0 p) as [E|Hne].
    + rewrite <- E, DictFacts.get_set_same. intros [= <-].
      apply Qle_trans with 1%Q; [discriminate | exact Hc].
    + rewrite !DictFacts.get_set_other by assumption. apply Hs.
  - apply (SupplierMore.unit_tape_same r1); [reflexivity | exact Hr1].
Qed.

Lemma add_stock_margins (supplier : Supplier.t) (quantity : Z) (g : Grocery.t)
    (r : rng) (out : Grocery.restocked) :
  Supplier.costs_nonneg supplier -> unit_tape r -> Grocery.margins_ok g ->
  Grocery.add_stock supplier quantity g r = Ok out ->
  Grocery.margins_ok (Grocery.store out) /\
  Supplier.costs_nonneg (Grocery.supplier_after out) /\
  unit_tape (Grocery.random_after out).
Proof.
  intros Hsup Hr Hg H. unfold Grocery.add_stock in H.
  destruct (Supplier.supply_products quantity supplier) as [so|e] eqn:Eso; [|discriminate].
  cbn [bind] in H.
  assert (Hsup' : Supplier.costs_nonneg (Supplier.after so)).
  { unfold Supplier.supply_products in Eso.
    destruct (_ <? quantity); [injection Eso as <-; exact Hsup|].
    destruct (Supplier.pop_many _ _) as [[xs ps]|]; [|discriminate].
    cbn [bind] in Eso. injection Eso as <-. exact Hsup. }
  pose proof (StoreInvariants.add_units_margins (Supplier.after so) (Supplier.units so)
                g r (costs_nonneg_get_price _ Hsup') Hr Hg) as Hf.
  pose proof (add_units_tape (Supplier.after so) (Supplier.units so) g r) as Ht.
  destruct (fold_left _ _ (g, r)) as [g1 r1]. injection H as <-. cbn [fst snd] in *.
  cbn. split; [exact Hf|]. split; [exact Hsup'|].
  apply (SupplierMore.unit_tape_same r); assumption.
Qed.

Lemma restock_loop_margins (units_per_supplier : Z) (sups sups' : list Supplier.t)
    (g g' : Grocery.t) (r r' : rng) :
  Forall Supplier.costs_nonneg sups -> unit_tape r -> Grocery.margins_ok g ->
  restock_loop units_per_supplier sups g r = Ok (sups', g', r') ->
  Grocery.margins_ok g' /\ Forall Supplier.costs_nonneg sups' /\ unit_tape r'.
Proof.
  revert sups' g g' r r'. induction sups as [|s sups IH]; intros sups' g g' r r' Hs Hr Hg H.
  - cbn in H. injection H as <- <- <-. auto.
  - cbn [restock_loop] in H. inversion Hs as [|? ? Hs1 Hs2]; subst.
    pose proof (add_products_nonneg (Some units_per_supplier) s r Hr Hs1) as Hn.
    pose proof (add_products_tape (Some units_per_supplier) s r) as Ht.
    destruct (Supplier.add_products (Some units_per_supplier) s r) as [s1 r1].
    cbn [fst snd] in *.
    destruct (Grocery.add_stock s1 _ g r1) as [out|e] eqn:Eo; [|discriminate].
    cbn [bind] in H.
    destruct (add_stock_margins s1 _ g r1 out Hn
                (SupplierMore.unit_tape_same r r1 Ht Hr) Hg Eo) as (Hg1 & Hs1' & Hr1).
    destruct (restock_loop _ sups _ _) as [[[rest' g2] r2]|e] eqn:El; [|discriminate].
    cbn [bind] in H. injection H as <- <- <-.
    destruct (IH _ _ _ _ _ Hs2 Hr1 Hg1 El) as (Hg2 & Hs2' & Hr2).
    split; [exact Hg2|]. split; [now constructor | exact Hr2].
Qed.

(** *** The margins through a step *)

Lemma margins_ok_ext (g g' : Grocery.t) :
  Grocery.prices g' = Grocery.prices g -> Grocery.costs g' = Grocery.costs g ->
  Grocery.margins_ok g -> Grocery.margins_ok g'.
Proof. unfold Grocery.margins_ok. now intros -> ->. Qed.

Lemma margin_ok_same (s s' : t) : books_margin s' = books_margin s -> margin_ok s -> margin_ok s'.
Proof.
  unfold books_margin, margin_ok. intros [= -> -> Hp Hc -> ->] (Hg & Hs & Hr & Hl & Hps).
  split; [now apply (margins_ok_ext (grocery s))|]. auto.
Qed.

Lemma trigger_put_books_margin (s : t) : books_margin (trigger_put s) = books_margin s.
Proof.
  unfold trigger_put. destruct (Resource.put_queue _) as [|[rid owner] rest]; auto.
  now destruct (_ <? _)%nat.
Qed.

Lemma request_books_margin (pid : nat) (s : t) :
  books_margin (snd (request pid s)) = books_margin s.
Proof. unfold request. cbn [snd]. now rewrite trigger_put_books_margin. Qed.

Lemma finish_books_margin (pid : nat) (s : t) : books_margin (finish pid s) = books_margin s.
Proof. unfold finish. now destruct (nth_error _ _). Qed.

Lemma timeout_books_margin (delay : Q) (pid : nat) (s s' : t) :
  timeout delay pid s = Ok s' -> books_margin s' = books_margin s.
Proof. unfold timeout. destruct (Qlt_le_dec delay 0); [discriminate|]. now intros [= <-]. Qed.

Lemma set_gen_margin (pid : nat) (g : generator) (s : t) :
  gen_margin g -> margin_ok s -> margin_ok (set_gen pid g s).
Proof.
  intros Hg (H1 & H2 & H3 & H4 & Hp). repeat (split; [assumption|]).
  cbn. clear -Hg Hp. revert pid. induction Hp as [|p ps Hp Hps IH]; intros pid.
  - destruct pid; constructor.
  - destruct pid; cbn [update_gen]; constructor; auto.
Qed.

Lemma nth_gen_margin (s : t) (pid : nat) (p : process) :
  margin_ok s -> nth_error (procs s) pid = Some p -> gen_margin (gen p).
Proof.
  intros (_ & _ & _ & _ & H) Hn. rewrite Forall_forall in H. apply H.
  eapply nth_error_In; eauto.
Qed.

Lemma customers_loop_margin (pid : nat) (d : Z) (loc : customers_locals) (s : t) :
  gen_margin (Customers d loc CustInit) -> margin_ok s ->
  margin_ok (customers_loop pid d loc s).
Proof.
  intros Hloc Hs. unfold customers_loop. destruct (c_left loc) as [|k].
  - eapply margin_ok_same; [apply finish_books_margin|]. now apply set_gen_margin.
  - pose proof (request_books_margin pid s) as Hr.
    destruct (request pid s) as [rid s1]. cbn [snd] in Hr.
    apply set_gen_margin; [exact Hloc|]. eapply margin_ok_same; eauto.
Qed.

(** What a sale is booked at: a cost that is not negative and a price of
    1.05 times that cost or more. *)
Lemma margins_booked (g : Grocery.t) (p : string) :
  Grocery.margins_ok g ->
  (0 <= Dict.get_or (Grocery.costs g) p 0 /\
   Dict.get_or (Grocery.costs g) p 0 * (105 # 100) <= Dict.get_or (Grocery.prices g) p 0)%Q.
Proof.
  intros [Hm Hk]. unfold Dict.get_or.
  destruct (Dict.get (Grocery.costs g) p) as [c|] eqn:Ec.
  - destruct (Hm p c Ec) as (H0 & pr & -> & Hpr). auto.
  - destruct (Dict.get (Grocery.prices g) p) as [pr|] eqn:Ep; [|lra].
    assert (H : Dict.mem (Grocery.prices g) p = true) by (unfold Dict.mem; now rewrite Ep).
    apply Hk in H. unfold Dict.mem in H. rewrite Ec in H. discriminate.
Qed.

Lemma sell_keeps_prices (g g' : Grocery.t) (np np' : rng) (ret : option string) :
  Grocery.sell_one_product g np = Ok (ret, g', np') ->
  Grocery.prices g' = Grocery.prices g /\ Grocery.costs g' = Grocery.costs g.
Proof.
  unfold Grocery.sell_one_product. destruct (Grocery.available g) as [|p0 rest] eqn:Ha.
  - now intros [= _ <- _].
  - rewrite <- Ha.
    destruct (Grocery.np_choice _ _ np) as [[product np1]|e]; [|discriminate].
    cbn [bind]. now intros [= _ <- _].
Qed.

Lemma serve_customer_margin (loc loc' : customers_locals) (s s' : t) :
  serve_customer loc s = Ok (loc', s') -> Grocery.margins_ok (grocery s) ->
  gen_margin (Customers 0 loc CustInit) ->
  gen_margin (Customers 0 loc' CustInit) /\ books_margin s' = books_margin s.
Proof.
  unfold serve_customer. intros H Hg Hloc.
  destruct (Grocery.sell_one_product _ _) as [[[sold g] np]|e] eqn:E; [|discriminate].
  destruct (sell_keeps_prices _ _ _ _ _ E) as [Hp Hc].
  cbn [bind] in H. destruct (truthy sold).
  - destruct (uniform 1 35 _) as [distance r]. injection H as <- <-. split.
    + cbn [gen_margin c_cogs c_revenue] in *.
      set (p := match sold with Some p => p | None => EmptyString end).
      destruct (margins_booked (grocery s) p Hg) as [H0 H1].
      rewrite Hp, Hc. lra.
    + unfold books_margin. cbn. now rewrite Hp, Hc.
  - injection H as <- <-. split; [exact Hloc|]. unfold books_margin. cbn.
    now rewrite Hp, Hc.
Qed.

Section Run.

Variable fuzzy_discount : Z -> Z -> Q.
Variable Random : Z -> nat -> Q.

Lemma apply_discounts_margins (g : Grocery.t) :
  Grocery.margins_ok g -> Grocery.margins_ok (Grocery.apply_discounts fuzzy_discount g).
Proof.
  intros [Hm Hk].
  destruct (DiscountFacts.fold_discount_frame fuzzy_discount (Grocery.stock g) g)
    as (_ & Hc & _).
  unfold Grocery.apply_discounts. split.
  - intros p c. rewrite Hc. intros Hp. destruct (Hm p c Hp) as [H0 Hfl].
    split; [exact H0|].
    apply (StoreInvariants.margins_floored _ p c); [now rewrite Hc|].
    apply DiscountFacts.fold_keeps_floored.
    now apply (StoreInvariants.margins_floored g p c).
  - intros p. rewrite Hc, StoreInvariants.fold_discount_priced. apply Hk.
Qed.

Lemma resume_margin (pid : nat) (s s' : t) :
  resume fuzzy_discount pid s = Ok s' -> margin_ok s -> margin_ok s'.
Proof.
  unfold resume. intros H Hs.
  destruct (nth_error (procs s) pid) as [p|] eqn:Hp; [|now injection H as <-].
  pose proof (nth_gen_margin s pid p Hs Hp) as Hg.
  destruct (gen p) as [d [|child| |]|d loc [|rid|rid|]].
  - unfold _restock_all_suppliers in H.
    destruct (restock_loop 10 (suppliers s) (grocery s) (py_random s))
      as [[[sups g] r]|e] eqn:E; [|discriminate].
    cbn [bind] in H. injection H as <-.
    destruct Hs as (H1 & H2 & H3 & H4 & H5).
    destruct (restock_loop_margins _ _ _ _ _ _ _ H2 H3 H1 E) as (Hg1 & Hs1 & Hr1).
    apply set_gen_margin; [exact I|].
    split; [cbn; now apply apply_discounts_margins|].
    split; [exact Hs1|]. split; [exact Hr1|]. split; [exact H4|]. cbn.
    apply Forall_app. split; [exact H5|]. constructor; [|constructor]. cbn. lra.
  - destruct (nth_error (procs s) child) as [[[|d' loc pc] ws]|] eqn:Hc;
      try (now injection H as <-).
    pose proof (nth_gen_margin s child _ Hs Hc) as [Hc0 Hc1].
    match type of H with
    | bind (timeout 1 pid ?s0) _ = _ =>
        destruct (timeout 1 pid s0) as [s2|e] eqn:E; [|discriminate];
        apply timeout_books_margin in E
    end.
    cbn [bind] in H. injection H as <-.
    apply set_gen_margin; [exact I|]. eapply margin_ok_same; [exact E|].
    destruct Hs as (H1 & H2 & H3 & H4 & H5).
    repeat (split; [assumption|]). split; [|exact H5]. cbn.
    apply Forall_app. split; [exact H4|]. constructor; [|constructor].
    now apply row_margin_day_entry.
  - injection H as <-. eapply margin_ok_same; [apply finish_books_margin|].
    apply set_gen_margin; [exact I|].
    destruct Hs as (H1 & H2 & H3 & H4 & H5). split; [|auto].
    now apply (margins_ok_ext (grocery s)).
  - now injection H as <-.
  - destruct (randint 8 20 (rng_seeded s)) as [k r]. injection H as <-.
    apply customers_loop_margin; [exact Hg|].
    eapply margin_ok_same; [|exact Hs]. reflexivity.
  - destruct (uniform (5 # 10) 2 (rng_seeded s)) as [service r].
    match type of H with
    | bind (timeout service pid ?s0) _ = _ =>
        destruct (timeout service pid s0) as [s1|e] eqn:E; [|discriminate];
        apply timeout_books_margin in E
    end.
    cbn [bind] in H. injection H as <-.
    apply set_gen_margin; [exact Hg|]. eapply margin_ok_same; [exact E | exact Hs].
  - destruct (serve_customer loc s) as [[loc' s1]|e] eqn:E; [|discriminate].
    cbn [bind] in H. injection H as <-.
    destruct (serve_customer_margin _ _ _ _ E (proj1 Hs) Hg) as [Hloc' Hb].
    apply customers_loop_margin; [exact Hloc'|].
    eapply margin_ok_same; [|exact Hs]. rewrite <- Hb. reflexivity.
  - now injection H as <-.
Qed.

Lemma env_run_margin (fuel : nat) (s s' : t) :
  env_run fuzzy_discount fuel s = Ok s' -> margin_ok s -> margin_ok s'.
Proof.
  revert s. induction fuel as [|fuel IH]; intros s H Hs; [now injection H as <-|].
  cbn [env_run] in H. destruct (step fuzzy_discount s) as [s1|e] eqn:E; [|discriminate].
  cbn [bind] in H. apply (IH s1 H). unfold step in E.
  destruct (heappop (queue s)) as [[ev rest]|]; [|now injection E as <-].
  assert (H0 : margin_ok (set_queue rest (set_now (at_time ev) s)))
    by (eapply margin_ok_same; [|exact Hs]; reflexivity).
  revert E H0. generalize (set_queue rest (set_now (at_time ev) s)) as s0.
  generalize (callbacks ev) as cbs. clear.
  induction cbs as [|cb cbs IHc]; intros s0 E H0; [now injection E as <-|].
  cbn [run_callbacks] in E.
  destruct (run_callback fuzzy_discount cb s0) as [s2|e] eqn:E2; [|discriminate].
  cbn [bind] in E. apply (IHc s2 E).
  destruct cb as [pid| |]; cbn [run_callback] in E2.
  - eapply resume_margin; eauto.
  - injection E2 as <-. eapply margin_ok_same; [apply trigger_put_books_margin | exact H0].
  - now injection E2 as <-.
Qed.

Lemma start_days_margin (k : nat) (d : Z) (s : t) :
  margin_ok s -> margin_ok (start_days k d s).
Proof.
  revert d s. induction k as [|k IH]; intros d s Hs; [exact Hs|].
  cbn [start_days]. apply IH.
  destruct Hs as (H1 & H2 & H3 & H4 & H5). repeat (split; [assumption|]). cbn.
  apply Forall_app. split; [exact H5|]. constructor; [exact I | constructor].
Qed.

(** When, in the store at the start, no known cost is negative, every product
    of known cost has a price of 1.05 times its cost or more and every
    priced product has a known cost, no supplier records a negative cost and
    the module-level generator plays unit draws, every row that the run
    appends to the ledger has a stored revenue that covers its stored cost
    of goods, and neither is negative: a day can only lose money on
    deliveries. *)
Theorem day_rows_cover_cogs (sups : list Supplier.t) (g : Grocery.t) (n : Z)
    (py np : rng) (seed : Z) (fuel : nat) (s' : t) :
  Grocery.margins_ok g -> Forall Supplier.costs_nonneg sups -> unit_tape py ->
  env_run fuzzy_discount fuel (started Random seed (init sups g n py np)) = Ok s' ->
  forall e, In e (daily_balances s') -> (0 <= cogs e /\ cogs e <= revenue e)%Q.
Proof.
  intros Hg Hs Hpy H e He.
  assert (H0 : margin_ok (started Random seed (init sups g n py np))).
  { unfold started. apply start_days_margin. repeat (split; [assumption|]).
    split; constructor. }
  destruct (env_run_margin _ _ _ H H0) as (_ & _ & _ & Hl & _).
  rewrite Forall_forall in Hl. exact (Hl e He).
Qed.

End Run.

End MarginFacts.

(** ** More scenarios *)

Module MoreScenarioFacts.
Import Scenarios.

Lemma random_a_tape : unit_tape random_a.
Proof. intros k. cbn. lra. Qed.

Lemma toy_Random_unit (seed : Z) : unit_draws (toy_Random seed).
Proof.
  intros k. unfold toy_Random.
  pose proof (Z.mod_pos_bound (seed * 7 + Z.of_nat k * 3) 10 eq_refl) as H.
  unfold Qle, Qlt. cbn [Qnum Qden]. lia.
Qed.

Lemma fruit_supplier_costs : Supplier.costs_nonneg fruit_supplier.
Proof.
  intros p c H. apply DictFacts.get_in in H. vm_compute in H.
  destruct H as [[= <- <-]|[]]. discriminate.
Qed.

Lemma fruit_store_reachable : Grocery.reachable flat_discount fruit_store.
Proof.
  apply (Grocery.reach_add_stock flat_discount (Grocery.init 5) fruit_supplier 1 random_a
           fruit_restock
           (Grocery.reach_initial flat_discount (Grocery.init 5) eq_refl)).
  vm_compute. reflexivity.
Qed.

Lemma fruit_store_trading : Grocery.trading flat_discount fruit_store.
Proof.
  apply (Grocery.trade_add_stock flat_discount (Grocery.init 5) fruit_supplier 1 random_a
           fruit_restock).
  - apply Grocery.trade_open; reflexivity.
  - apply MarginFacts.costs_nonneg_get_price, fruit_supplier_costs.
  - exact random_a_tape.
  - vm_compute. reflexivity.
Qed.

Lemma fresh_store_margins : Grocery.margins_ok (Grocery.init 5).
Proof. split; intros p; [intros c H|intros H]; discriminate H. Qed.

Lemma fresh_supplier_costs : Forall Supplier.costs_nonneg [Supplier.init 0].
Proof. constructor; [|constructor]. intros p c H. discriminate H. Qed.

Lemma add_products_costs_witness :
  unit_tape random_a /\
  forall p,
    (0 <= Supplier.get_price
            (fst (Supplier.add_products (Some 2%Z) (Supplier.init 0%Z) random_a)) p /\
     Supplier.get_price
       (fst (Supplier.add_products (Some 2%Z) (Supplier.init 0%Z) random_a)) p <= 5)%Q.
Proof.
  split; [exact random_a_tape|].
  refine (proj2 (proj2 (proj2
            (SupplierMore.add_products_costs (Some 2) (Supplier.init 0) random_a
               random_a_tape))) _).
  intros p c H. discriminate H.
Defined.

Lemma delivery_cost_bands_witness :
  (12 <= 25)%Q /\
  (Grocery.calculate_delivery_cost 12 <= Grocery.calculate_delivery_cost 25)%Q.
Proof.
  assert (H : (12 <= 25)%Q) by discriminate.
  split; [exact H|]. exact (proj1 (StoreMore.delivery_cost_bands 12 25 H)).
Defined.

Lemma add_stock_short_witness :
  Z.of_nat (List.length (Supplier.products fruit_supplier)) < 3 /\
  Grocery.add_stock fruit_supplier 3 (Grocery.init 5) random_a =
    Ok (Grocery.mkRestocked (Grocery.init 5) fruit_supplier random_a
          (Some (ValueError_not_enough 1))).
Proof.
  assert (H : Z.of_nat (List.length (Supplier.products fruit_supplier)) < 3) by reflexivity.
  split; [exact H|].
  exact (StoreMore.add_stock_short fruit_supplier 3 (Grocery.init 5) random_a H).
Defined.

Lemma stocked_products_priced_witness :
  Grocery.reachable flat_discount fruit_store /\
  Dict.mem (Grocery.stock fruit_store) "fruits" = true /\
  (exists c, Dict.get (Grocery.costs fruit_store) "fruits" = Some c) /\
  (exists pr, Dict.get (Grocery.prices fruit_store) "fruits" = Some pr).
Proof.
  split; [exact fruit_store_reachable|]. split; [reflexivity|].
  exact (StoreInvariants.stocked_products_priced flat_discount fruit_store "fruits"
           fruit_store_reachable eq_refl).
Defined.

Lemma trading_keeps_margin_witness :
  Grocery.trading flat_discount fruit_store /\
  Dict.get (Grocery.costs fruit_store) "fruits" = Some (Supplier.get_price fruit_supplier "fruits") /\
  exists pr,
    Dict.get (Grocery.prices fruit_store) "fruits" = Some pr /\
    (Supplier.get_price fruit_supplier "fruits" * (105 # 100) <= pr)%Q.
Proof.
  split; [exact fruit_store_trading|].
  assert (H : Dict.get (Grocery.costs fruit_store) "fruits"
              = Some (Supplier.get_price fruit_supplier "fruits")) by (vm_compute; reflexivity).
  split; [exact H|].
  exact (proj2 (StoreInvariants.trading_keeps_margin flat_discount fruit_store "fruits" _
                  fruit_store_trading H)).
Defined.

Lemma apply_discounts_price_witness :
  Dict.wf (Grocery.stock two_products) /\
  Dict.get (Grocery.stock two_products) "A" = Some 3 /\ 0 < 3 /\
  Dict.get (Grocery.prices two_products) "A" = Some (5 # 2) /\
  Dict.get (Grocery.prices (Grocery.apply_discounts flat_discount two_products)) "A" =
    Some (fmax ((5 # 2) * (1 - flat_discount 3 0 / 100))
            (Dict.get_or (Grocery.costs two_products) "A" 0 * (105 # 100)))%Q.
Proof.
  split; [exact ScenarioFacts.two_products_wf|]. split; [reflexivity|].
  split; [reflexivity|]. split; [reflexivity|].
  exact (StoreInvariants.apply_discounts_price flat_discount two_products "A" 3 (5 # 2)
           ScenarioFacts.two_products_wf eq_refl eq_refl eq_refl).
Defined.

Lemma apply_discounts_capped_inputs_witness :
  (forall s v, 0 <= s <= 100 -> 0 <= v <= 100 -> flat_discount s v = capped_discount s v) /\
  Grocery.apply_discounts flat_discount two_products =
    Grocery.apply_discounts capped_discount two_products.
Proof.
  assert (H : forall s v, 0 <= s <= 100 -> 0 <= v <= 100 ->
                          flat_discount s v = capped_discount s v).
  { intros s v Hs Hv. unfold flat_discount, capped_discount.
    destruct (Z.leb_spec 0 s); [|lia]. destruct (Z.leb_spec s 100); [|lia].
    destruct (Z.leb_spec 0 v); [|lia]. destruct (Z.leb_spec v 100); [|lia]. reflexivity. }
  split; [exact H|].
  exact (StoreInvariants.apply_discounts_capped_inputs flat_discount capped_discount
           two_products H).
Defined.

Lemma apply_discounts_lowers_witness :
  (forall s v, 0 <= flat_discount s v)%Q /\
  Dict.get (Grocery.prices two_products) "A" = Some (5 # 2) /\
  exists pr',
    Dict.get (Grocery.prices (Grocery.apply_discounts flat_discount two_products)) "A"
      = Some pr' /\
    (Dict.get_or (Grocery.costs two_products) "A" 0 * (105 # 100) <= pr' /\ pr' <= 5 # 2)%Q.
Proof.
  split; [exact ScenarioFacts.flat_discount_nonneg|]. split; [reflexivity|].
  refine (StoreInvariants.apply_discounts_lowers flat_discount two_products "A" (5 # 2)
            ScenarioFacts.flat_discount_nonneg _ eq_refl _); vm_compute; discriminate.
Defined.

Lemma sell_rejects_negative_share_witness :
  In "B" (Grocery.available negative_weight) /\
  (Grocery.weight_of negative_weight "B" / Grocery.total_demand negative_weight < 0)%Q /\
  Grocery.sell_one_product negative_weight numpy_a = Raise ValueError_probabilities.
Proof.
  assert (H1 : In "B" (Grocery.available negative_weight)) by (right; left; reflexivity).
  assert (H2 : (Grocery.weight_of negative_weight "B" /
                Grocery.total_demand negative_weight < 0)%Q) by reflexivity.
  split; [exact H1|]. split; [exact H2|].
  exact (SaleMore.sell_rejects_negative_share negative_weight numpy_a "B" H1 H2).
Defined.

Lemma positive_weight_can_sell_witness :
  Grocery.weights_nonneg two_products /\ In "A" (Grocery.available two_products) /\
  (0 < Grocery.weight_of two_products "A")%Q /\
  exists u, (0 <= u /\ u < 1)%Q /\
    forall np, rng_tape np (rng_pos np) = u ->
      exists g' np', Grocery.sell_one_product two_products np = Ok (Some "A", g', np').
Proof.
  assert (H1 : In "A" (Grocery.available two_products)) by (left; reflexivity).
  assert (H2 : (0 < Grocery.weight_of two_products "A")%Q) by reflexivity.
  split; [exact ScenarioFacts.two_products_weights|]. split; [exact H1|].
  split; [exact H2|].
  exact (SaleMore.positive_weight_can_sell two_products "A"
           ScenarioFacts.two_products_weights H1 (or_introl H2)).
Defined.

Lemma fitness_function_short_vector_witness :
  (List.length [3 # 1; 4 # 1; 5 # 1] < 5)%nat /\
  Simulation.fitness_function flat_discount toy_Random 200 [3 # 1; 4 # 1; 5 # 1]
    random_a numpy_a = Raise IndexError.
Proof.
  assert (H : (List.length [3 # 1; 4 # 1; 5 # 1] < 5)%nat) by (cbn; lia).
  split; [exact H|].
  exact (RestockMore.fitness_function_short_vector flat_discount toy_Random 200
           [3 # 1; 4 # 1; 5 # 1] random_a numpy_a H).
Defined.

Lemma day_rows_delivery_witness :
  exists s',
    Simulation.env_run flat_discount 200
      (Simulation.started toy_Random 42 (one_supplier 1 random_a)) = Ok s' /\
    map Simulation.products_sold (Simulation.daily_balances s') = [5] /\
    forall e, In e (Simulation.daily_balances s') ->
      exists z, (Simulation.delivery_cost e == inject_Z z)%Q /\
                5 * Simulation.products_sold e <= z <= 20 * Simulation.products_sold e.
Proof.
  eexists. split; [vm_compute; reflexivity|]. split; [reflexivity|].
  intros e He.
  refine (proj2 (proj2 (TallyFacts.day_rows_delivery flat_discount toy_Random
                   [Supplier.init 0] (Grocery.init 5) 1 random_a numpy_a 42 200 _ _ e He))).
  vm_compute. reflexivity.
Defined.

Lemma day_rows_at_most_twenty_witness :
  unit_draws (toy_Random 42) /\
  exists s',
    Simulation.env_run flat_discount 200
      (Simulation.started toy_Random 42 (one_supplier 2 random_b)) = Ok s' /\
    List.length (Simulation.daily_balances s') = 2%nat /\
    forall e, In e (Simulation.daily_balances s') -> 0 <= Simulation.products_sold e <= 20.
Proof.
  split; [exact (toy_Random_unit 42)|].
  eexists. split; [vm_compute; reflexivity|]. split; [reflexivity|].
  refine (TallyFacts.day_rows_at_most_twenty flat_discount toy_Random
            [Supplier.init 0] (Grocery.init 5) 2 random_b numpy_a 42 200 _
            (toy_Random_unit 42) _).
  vm_compute. reflexivity.
Defined.

Lemma ledger_ends_with_total_witness :
  exists s',
    Simulation.run_simulation flat_discount toy_Random 200 42 (one_supplier 1 random_a)
      = Ok (Some s') /\
    exists rows,
      Simulation.daily_balances s' = (rows ++ [Simulation.total_entry rows])%list /\
      Forall (fun e => exists d, Simulation.day e = Simulation.Day d /\ 1 <= d <= 1) rows /\
      Simulation.day (Simulation.total_entry rows) = Simulation.Total /\
      Simulation.queue s' = [].
Proof.
  eexists. split; [vm_compute; reflexivity|].
  refine (TallyFacts.ledger_ends_with_total flat_discount toy_Random
            [Supplier.init 0] (Grocery.init 5) 1 random_a numpy_a 42 200 _ _).
  vm_compute. reflexivity.
Defined.

Lemma day_rows_cover_cogs_witness :
  Grocery.margins_ok (Grocery.init 5) /\ Forall Supplier.costs_nonneg [Supplier.init 0] /\
  unit_tape random_a /\
  exists s',
    Simulation.env_run flat_discount 200
      (Simulation.started toy_Random 42 (one_supplier 1 random_a)) = Ok s' /\
    map Simulation.products_sold (Simulation.daily_balances s') = [5] /\
    forall e, In e (Simulation.daily_balances s') ->
      (0 <= Simulation.cogs e /\ Simulation.cogs e <= Simulation.revenue e)%Q.
Proof.
  split; [exact fresh_store_margins|]. split; [exact fresh_supplier_costs|].
  split; [exact random_a_tape|].
  eexists. split; [vm_compute; reflexivity|]. split; [reflexivity|].
  refine (MarginFacts.day_rows_cover_cogs flat_discount toy_Random
            [Supplier.init 0] (Grocery.init 5) 1 random_a numpy_a 42 200 _
            fresh_store_margins fresh_supplier_costs random_a_tape _).
  vm_compute. reflexivity.
Defined.

End MoreScenarioFacts.
